(** * ghg: git productivity tools -- a shallow embedding of [src/gpp/main.py]

    Python [str] values are sequences of Unicode code points and are
    modelled as [list N].  The Unicode character database consulted by
    [str.lower], [str.upper], [str.strip], [str.split] and by the regular
    expression classes [\w] and [\s] is a table that is not part of the
    repository: it is taken as a parameter ([unicode_db]) together with the
    few facts about it that the proofs use ([unicode_laws]).  [ascii_db] is
    its restriction to ASCII, used to run the program on concrete inputs.

    A command handler is a function from the history of what has happened
    (processes run, file-system queries, console output) to an outcome and
    the extended history; the world outside answers each request from the
    history so far.  The handlers are those of the typer application, called
    with arguments that typer has already parsed; the executables [git] and
    [gh] can be started (a process that cannot be started is not modelled),
    and [json.loads] and the table rendering of [rich] are parameters. *)

From Stdlib Require Import List ZArith NArith Bool Lia String Ascii.
From Stdlib Require Import DecimalString.
Import ListNotations.

(** ** Text *)

Definition text := list N.

(** An ASCII literal as a Python string. *)
Definition str (s : string) : text :=
  map N_of_ascii (list_ascii_of_string s).

Definition hyphen : N := 45.
Definition underscore : N := 95.
Definition slash : N := 47.
Definition newline : N := 10.
Definition space : N := 32.
Definition capital_sigma : N := 931.
Definition final_small_sigma : N := 962.
Definition small_sigma : N := 963.

Fixpoint text_eqb (a b : text) : bool :=
  match a, b with
  | [], [] => true
  | x :: a', y :: b' => N.eqb x y && text_eqb a' b'
  | _, _ => false
  end.

Fixpoint cmd_eqb (a b : list text) : bool :=
  match a, b with
  | [], [] => true
  | x :: a', y :: b' => text_eqb x y && cmd_eqb a' b'
  | _, _ => false
  end.

(** [s.startswith(p)] *)
Fixpoint startswith (p s : text) : bool :=
  match p, s with
  | [], _ => true
  | x :: p', y :: s' => N.eqb x y && startswith p' s'
  | _ :: _, [] => false
  end.

(** [s.endswith(p)] *)
Definition endswith (p s : text) : bool := startswith (rev p) (rev s).

(** [sep.join(parts)] *)
Fixpoint join (sep : text) (parts : list text) : text :=
  match parts with
  | [] => []
  | [p] => p
  | p :: rest => p ++ sep ++ join sep rest
  end.

(** [s.split(sep)] for a one-character separator: never the empty list. *)
Fixpoint split_on (sep : N) (s : text) : list text :=
  match s with
  | [] => [[]]
  | c :: rest =>
      if N.eqb c sep then [] :: split_on sep rest
      else match split_on sep rest with
           | [] => [[c]]
           | w :: ws => (c :: w) :: ws
           end
  end.

(** [s.split(sep, 1)]: split at the first separator only. *)
Fixpoint split_once (sep : N) (s : text) : list text :=
  match s with
  | [] => [[]]
  | c :: rest =>
      if N.eqb c sep then [[]; rest]
      else match split_once sep rest with
           | w :: ws => (c :: w) :: ws
           | [] => [[c]]
           end
  end.

(** [s.split(sep)[-1]] *)
Definition last_segment (sep : N) (s : text) : text :=
  last (split_on sep s) [].

Fixpoint lstrip_by (p : N -> bool) (s : text) : text :=
  match s with
  | [] => []
  | c :: rest => if p c then lstrip_by p rest else s
  end.

Definition rstrip_by (p : N -> bool) (s : text) : text :=
  rev (lstrip_by p (rev s)).

Definition strip_by (p : N -> bool) (s : text) : text :=
  rstrip_by p (lstrip_by p s).

Definition mem_char (chars : text) (c : N) : bool :=
  existsb (N.eqb c) chars.

(** [s.strip(chars)] and [s.rstrip(chars)]: [chars] is a set of characters,
    not a suffix. *)
Definition py_strip_chars (chars s : text) : text := strip_by (mem_char chars) s.
Definition py_rstrip_chars (chars s : text) : text := rstrip_by (mem_char chars) s.

(** [re.sub('[class]', '', s)]: every character of the class is deleted. *)
Definition re_sub_chars (cls : N -> bool) (s : text) : text :=
  filter (fun c => negb (cls c)) s.

(** [re.sub('[class]+', rep, s)]: every maximal run of characters of the
    class is replaced by the single character [rep]. *)
Fixpoint re_sub_runs (cls : N -> bool) (rep : N) (s : text) : text :=
  match s with
  | [] => []
  | c :: rest =>
      if cls c then
        match rest with
        | c' :: _ => if cls c' then re_sub_runs cls rep rest
                     else rep :: re_sub_runs cls rep rest
        | [] => [rep]
        end
      else c :: re_sub_runs cls rep rest
  end.

(** [str(n)] for a Python integer. *)
Definition str_of_Z (z : Z) : text :=
  str (NilZero.string_of_int (Z.to_int z)).

Definition str_of_N (n : N) : text := str_of_Z (Z.of_N n).

(** ** The Unicode character database *)

Record unicode_db := {
  isspace : N -> bool;               (* Py_UNICODE_ISSPACE: str.isspace, \s *)
  isalnum : N -> bool;               (* Py_UNICODE_ISALNUM: str.isalnum *)
  tolower_full : N -> list N;        (* full lower-case mapping of a character *)
  toupper_full : N -> list N;        (* full upper-case mapping of a character *)
  final_sigma : text -> text -> bool (* Final_Sigma context: text before, after *)
}.

(** A character that [str.lower] leaves alone: it is not the capital sigma
    (whose image depends on the context) and its lower-case mapping is
    itself. *)
Definition lower_stable (U : unicode_db) (c : N) : Prop :=
  c <> capital_sigma /\ tolower_full U c = [c].

(** Facts of the database (they hold of the one in CPython 3.11, Unicode
    14): lower-casing yields characters that lower-casing leaves alone, the
    two small sigmas and the hyphen are such characters, and the hyphen is
    not white space. *)
Record unicode_laws (U : unicode_db) : Prop := {
  lower_closed : forall c d, c <> capital_sigma ->
                             In d (tolower_full U c) -> lower_stable U d;
  sigma_stable : lower_stable U small_sigma /\ lower_stable U final_small_sigma;
  hyphen_stable : lower_stable U hyphen;
  hyphen_not_space : isspace U hyphen = false
}.

Section Strings.
Variable U : unicode_db.

(** [\w] of the [re] module on [str] patterns. *)
Definition is_word (c : N) : bool := isalnum U c || N.eqb c underscore.

(** [s.strip()] *)
Definition py_strip (s : text) : text := strip_by (isspace U) s.

(** [s.split()]: maximal runs of non-whitespace characters. *)
Fixpoint py_split_ws_aux (cur : text) (s : text) : list text :=
  match s with
  | [] => match cur with [] => [] | _ => [rev cur] end
  | c :: rest =>
      if isspace U c then
        match cur with
        | [] => py_split_ws_aux [] rest
        | _ => rev cur :: py_split_ws_aux [] rest
        end
      else py_split_ws_aux (c :: cur) rest
  end.

Definition py_split_ws (s : text) : list text := py_split_ws_aux [] s.

(** [s.lower()]: every character through the lower-case table, except the
    capital sigma, whose image depends on its context. *)
Definition lower_char (before after : text) (c : N) : text :=
  if N.eqb c capital_sigma
  then [if final_sigma U before after then final_small_sigma else small_sigma]
  else tolower_full U c.

Fixpoint lower_from (before s : text) : text :=
  match s with
  | [] => []
  | c :: rest => lower_char before rest c ++ lower_from (before ++ [c]) rest
  end.

Definition py_lower (s : text) : text := lower_from [] s.

(** [s.upper()] *)
Definition py_upper (s : text) : text := flat_map (toupper_full U) s.

(** *** BranchNamer (lines 32-42) *)

Definition title_to_branch_name (title : text) : text :=
  (* re.sub(r'[^\w\s-]', '', title.lower()) *)
  let cleaned :=
    re_sub_chars (fun c => negb (is_word c || isspace U c || N.eqb c hyphen))
                 (py_lower title) in
  (* re.sub(r'[\s_]+', '-', cleaned.strip()) *)
  let kebab :=
    re_sub_runs (fun c => isspace U c || N.eqb c underscore) hyphen
                (py_strip cleaned) in
  (* re.sub(r'-+', '-', kebab) *)
  let kebab := re_sub_runs (fun c => N.eqb c hyphen) hyphen kebab in
  (* kebab.strip('-') *)
  py_strip_chars [hyphen] kebab.

End Strings.

(** The ASCII part of the database: the answers of CPython for the code
    points below 128; every other code point is an uncased symbol. *)
Definition ascii_isspace (c : N) : bool :=
  ((9 <=? c) && (c <=? 13) || (28 <=? c) && (c <=? 32))%N.

Definition ascii_isalnum (c : N) : bool :=
  ((48 <=? c) && (c <=? 57) || (65 <=? c) && (c <=? 90)
   || (97 <=? c) && (c <=? 122))%N.

Definition ascii_db : unicode_db := {|
  isspace := ascii_isspace;
  isalnum := ascii_isalnum;
  tolower_full := fun c => if ((65 <=? c) && (c <=? 90))%N then [(c + 32)%N] else [c];
  toupper_full := fun c => if ((97 <=? c) && (c <=? 122))%N then [(c - 32)%N] else [c];
  final_sigma := fun _ _ => false
|}.

(** ** Outcomes of a command

    A handler returns normally ([Ok]), leaves through [raise typer.Exit(code)]
    ([Exit]) or dies of an uncaught Python exception ([Raise]). *)

Inductive exception :=
| AttributeError | TypeError | KeyError | IndexError | OSError
| NotRenderableError   (* rich: a table cell that is neither a string nor None *)
| RichError.           (* rich: [console.print] fails *)

Inductive outcome (A : Type) :=
| Ok (a : A)
| Exit (code : Z)
| Raise (e : exception).

Arguments Ok {A} a.
Arguments Exit {A} code.
Arguments Raise {A} e.

(** The exit status of the process, as its parent sees it: 0 after a normal
    return, 1 after an uncaught exception, and after [raise typer.Exit(code)]
    the low eight bits of the code ([sys.exit(-9)] gives 247). *)
Definition exit_status {A} (o : outcome A) : Z :=
  match o with
  | Ok _ => 0
  | Exit code => code mod 256
  | Raise _ => 1
  end.

(** ** JSON values as [json.loads] builds them *)

#[warnings="-register-all"]
Inductive json :=
| JNull
| JBool (b : bool)
| JInt (z : Z)
| JFloat (nonzero : bool)       (* a float; only its truth value is observed *)
| JStr (s : text)
| JArr (items : list json)
| JObj (fields : list (text * json)).

Fixpoint assoc (key : text) (fields : list (text * json)) : option json :=
  match fields with
  | [] => None
  | (k, v) :: rest => if text_eqb k key then Some v else assoc key rest
  end.

(** [d.get(key, default)]: only a dict has the method. *)
Definition dict_get (d : json) (key : text) (default : json) : outcome json :=
  match d with
  | JObj fields =>
      Ok (match assoc key fields with Some v => v | None => default end)
  | _ => Raise AttributeError
  end.

(** [d[key]] on a dict. *)
Definition dict_item (d : json) (key : text) : outcome json :=
  match d with
  | JObj fields =>
      match assoc key fields with Some v => Ok v | None => Raise KeyError end
  | _ => Raise TypeError
  end.

(** [v == s] for a string literal [s]. *)
Definition json_is_str (v : json) (s : text) : bool :=
  match v with
  | JStr t => text_eqb t s
  | _ => false
  end.

(** [bool(v)] *)
Definition truthy (v : json) : bool :=
  match v with
  | JNull => false
  | JBool b => b
  | JInt z => negb (Z.eqb z 0)
  | JFloat nonzero => nonzero
  | JStr s => match s with [] => false | _ => true end
  | JArr items => match items with [] => false | _ => true end
  | JObj fields => match fields with [] => false | _ => true end
  end.

(** [for x in v]: a list yields its items, a dict its keys, a string its
    characters; nothing else is iterable. *)
Definition py_iter (v : json) : outcome (list json) :=
  match v with
  | JArr items => Ok items
  | JObj fields => Ok (map (fun kv => JStr (fst kv)) fields)
  | JStr s => Ok (map (fun c => JStr [c]) s)
  | _ => Raise TypeError
  end.

(** A value that [Table.add_row] of rich takes as a cell: a string, or [None]
    (an empty cell); any other value makes it raise [NotRenderableError]. *)
Definition renderable (v : json) : bool :=
  match v with
  | JStr _ | JNull => true
  | _ => false
  end.

(** ** Paths ([pathlib.PurePosixPath]) *)

Inductive path_root := Relative | Rooted | DoubleSlash.

Record path := { p_root : path_root; p_parts : list text }.

Definition path_root_eqb (a b : path_root) : bool :=
  match a, b with
  | Relative, Relative | Rooted, Rooted | DoubleSlash, DoubleSlash => true
  | _, _ => false
  end.

Definition path_eqb (a b : path) : bool :=
  path_root_eqb (p_root a) (p_root b) && cmd_eqb (p_parts a) (p_parts b).

(** [Path(s)]: empty and [.] components vanish, [..] is kept, exactly two
    leading slashes are a root of their own. *)
Definition Path (s : text) : path :=
  {| p_root :=
       if startswith (str "//") s && negb (startswith (str "///") s)
       then DoubleSlash
       else if startswith (str "/") s then Rooted else Relative;
     p_parts :=
       filter (fun seg => negb (text_eqb seg [] || text_eqb seg (str ".")))
              (split_on slash s) |}.

(** [p.parent] *)
Definition parent (p : path) : path :=
  {| p_root := p_root p; p_parts := removelast (p_parts p) |}.

(** [p.name] *)
Definition name (p : path) : text := last (p_parts p) [].

(** [p / s] *)
Definition joinpath (p : path) (s : text) : path :=
  let q := Path s in
  match p_root q with
  | Relative => {| p_root := p_root p; p_parts := p_parts p ++ p_parts q |}
  | _ => q
  end.

(** [str(p)] *)
Definition path_str (p : path) : text :=
  match p_root p with
  | Relative => match p_parts p with [] => str "." | _ => join (str "/") (p_parts p) end
  | Rooted => str "/" ++ join (str "/") (p_parts p)
  | DoubleSlash => str "//" ++ join (str "/") (p_parts p)
  end.

(** Where a symbolic link at [link] with the relative target [target] leads:
    the target is read from the directory holding the link, and [..] steps to
    the parent (no other symbolic link on the way). *)
Fixpoint walk (stack : list text) (parts : list text) : list text :=
  match parts with
  | [] => rev stack
  | seg :: rest =>
      if text_eqb seg (str "..")
      then walk (match stack with [] => [] | _ :: up => up end) rest
      else walk (seg :: stack) rest
  end.

Definition resolve_link (link target : path) : path :=
  match p_root target with
  | Relative =>
      {| p_root := p_root link;
         p_parts := walk (rev (p_parts (parent link))) (p_parts target) |}
  | _ => target
  end.

(** ** The world outside: processes, file system, console *)

Record completed_process := {
  returncode : Z;
  stdout : text;
  stderr : text
}.

(** A row handed to [Table.add_row] by [list_prs]: the value printed after
    [#], the title, the head branch and the check summary. *)
Record pr_row := {
  row_number : json;
  row_title : json;
  row_branch : json;
  row_checks : text
}.

Inductive event :=
| EvRun (cmd : list text) (res : completed_process)   (* captured subprocess *)
| EvStream (cmd : list text) (code : Z)               (* passthrough subprocess *)
| EvExists (p : path) (answer : bool)                 (* Path.exists() *)
| EvWhich (prog : text) (found : bool)                (* shutil.which *)
| EvCwd (p : path)                                    (* Path.cwd() *)
| EvSymlink (link target : path) (ok : bool)          (* Path.symlink_to *)
| EvEcho (msg : text) (err : bool)                    (* typer.echo *)
| EvPrintBranches (rows : list (text * text)) (ok : bool) (* console.print *)
| EvPrintPrs (rows : list pr_row) (ok : bool).

(** The environment answers every request from what has happened so far. *)
Record world := {
  w_run : list event -> list text -> completed_process;
  w_stream : list event -> list text -> Z;
  w_exists : list event -> path -> bool;
  w_which : list event -> text -> bool;
  w_cwd : list event -> path;
  w_symlink : list event -> path -> path -> bool;
  w_render : list event -> bool   (* does [console.print(table)] succeed? *)
}.

(** A handler maps the history of events to an outcome and the extended
    history. *)
Definition M (A : Type) : Type := list event -> outcome A * list event.

Definition ret {A} (a : A) : M A := fun h => (Ok a, h).

Definition bind {A B} (m : M A) (k : A -> M B) : M B :=
  fun h =>
    match m h with
    | (Ok a, h') => k a h'
    | (Exit code, h') => (Exit code, h')
    | (Raise e, h') => (Raise e, h')
    end.

(** [raise typer.Exit(code)] *)
Definition exit {A} (code : Z) : M A := fun h => (Exit code, h).

Definition raise {A} (e : exception) : M A := fun h => (Raise e, h).

Definition lift {A} (o : outcome A) : M A := fun h => (o, h).

(** [if cond: body] with nothing after it in the branch. *)
Definition when (cond : bool) (body : M unit) : M unit :=
  if cond then body else ret tt.

Declare Scope cmd_scope.
Delimit Scope cmd_scope with cmd.
Notation "x <- m ;; k" := (bind m (fun x => k))
  (at level 61, m at next level, right associativity) : cmd_scope.
Notation "' pat <- m ;; k" := (bind m (fun x => match x with pat => k end))
  (at level 61, pat pattern, m at next level, right associativity) : cmd_scope.
Notation "m ;; k" := (bind m (fun _ => k))
  (at level 61, right associativity) : cmd_scope.

Definition nonempty (s : text) : bool :=
  match s with [] => false | _ => true end.

Definition dquote : N := 34.
Definition vbar : N := 124.
Definition check_mark : text := [9989%N].       (* U+2705 *)
Definition cross_mark : text := [10060%N].      (* U+274C *)
Definition hourglass : text := [9203%N].        (* U+23F3 *)
Definition white_circle : text := [9898%N].     (* U+26AA *)
Definition question_mark : text := [10067%N].   (* U+2753 *)

(** ** The program *)

Section Commands.
Variable U : unicode_db.
Variable W : world.
(** [json.loads]; [None] stands for [json.JSONDecodeError]. *)
Variable json_loads : text -> option json.

Local Open Scope cmd_scope.
Local Open Scope Z_scope.

(** *** Leaf operations (lines 19-29) *)

(** [typer.echo(msg, err=err)] *)
Definition echo (msg : text) (err : bool) : M unit :=
  fun h => (Ok tt, h ++ [EvEcho msg err]).

(** [subprocess.run(cmd)]: output goes straight to the terminal. *)
Definition subprocess_run (cmd : list text) : M Z :=
  fun h => let code := w_stream W h cmd in (Ok code, h ++ [EvStream cmd code]).

Definition run_git_command (cmd : list text) : M (Z * text * text) :=
  fun h =>
    let result := w_run W h cmd in
    (Ok (returncode result, py_strip U (stdout result), py_strip U (stderr result)),
     h ++ [EvRun cmd result]).

Definition path_exists (p : path) : M bool :=
  fun h => let b := w_exists W h p in (Ok b, h ++ [EvExists p b]).

Definition which (prog : text) : M bool :=
  fun h => let b := w_which W h prog in (Ok b, h ++ [EvWhich prog b]).

Definition cwd : M path :=
  fun h => let p := w_cwd W h in (Ok p, h ++ [EvCwd p]).

Definition symlink_to (link target : path) : M unit :=
  fun h =>
    let ok := w_symlink W h link target in
    (if ok then Ok tt else Raise OSError, h ++ [EvSymlink link target ok]).

Definition check_git_repo : M unit :=
  found <- path_exists (Path (str ".git")) ;;
  when (negb found)
    (echo (str "Error: Not in a git repository") true ;; exit 1).

(** The test for the GitHub CLI that opens [cherry], [merge], [list] and
    [pr] (the same lines in each). *)
Definition check_gh : M unit :=
  gh <- which (str "gh") ;;
  when (negb gh)
    (echo (str "Error: GitHub CLI 'gh' not found. Install from https://cli.github.com/") true ;;
     exit 1).

(** *** move (lines 45-110) *)

Definition move (branch_name : text) : M unit :=
  check_git_repo ;;
  echo (str "Moving changes to new branch: " ++ branch_name) false ;;
  '(exit_code, stdout, stderr) <- run_git_command [str "git"; str "status"; str "--porcelain"] ;;
  when (negb (exit_code =? 0))
    (echo (str "Error checking git status: " ++ stderr) true ;; exit 1) ;;
  let has_changes := nonempty (py_strip U stdout) in
  stash_created <-
    (if has_changes then
       echo (str "Stashing current changes...") false ;;
       '(exit_code, _, stderr) <-
         run_git_command [str "git"; str "stash"; str "push"; str "-m";
                          str "gpp move to " ++ branch_name] ;;
       when (negb (exit_code =? 0))
         (echo (str "Error stashing changes: " ++ stderr) true ;; exit 1) ;;
       ret true
     else
       echo (str "No unstaged changes to stash") false ;;
       ret false) ;;
  echo (str "Switching to master...") false ;;
  '(exit_code, _, stderr) <- run_git_command [str "git"; str "checkout"; str "master"] ;;
  when (negb (exit_code =? 0))
    (echo (str "Error switching to master: " ++ stderr) true ;; exit 1) ;;
  echo (str "Pulling latest changes from origin...") false ;;
  '(exit_code, _, stderr) <-
    run_git_command [str "git"; str "pull"; str "origin"; str "master"] ;;
  when (negb (exit_code =? 0))
    (echo (str "Error pulling from origin: " ++ stderr) true ;; exit 1) ;;
  echo (str "Creating and switching to branch: " ++ branch_name) false ;;
  '(exit_code, _, stderr) <-
    run_git_command [str "git"; str "checkout"; str "-b"; branch_name] ;;
  when (negb (exit_code =? 0))
    (echo (str "Error creating branch: " ++ stderr) true ;; exit 1) ;;
  when stash_created
    (echo (str "Applying stashed changes...") false ;;
     '(exit_code, _, stderr) <- run_git_command [str "git"; str "stash"; str "pop"] ;;
     when (negb (exit_code =? 0))
       (echo (str "Error applying stashed changes: " ++ stderr) true ;;
        echo (str "Your changes are still in the stash. Use 'git stash pop' to apply them manually.") false ;;
        exit 1)) ;;
  echo (check_mark ++ str " Successfully moved to branch '" ++ branch_name ++ str "'") false.

(** *** diff (lines 113-136) *)

Definition diff : M unit :=
  check_git_repo ;;
  '(exit_code, stdout, stderr) <- run_git_command [str "git"; str "status"; str "--porcelain"] ;;
  when (negb (exit_code =? 0))
    (echo (str "Error checking git status: " ++ stderr) true ;; exit 1) ;;
  let has_unstaged_changes := nonempty (py_strip U stdout) in
  cmd <-
    (if has_unstaged_changes then
       echo (str "Showing working tree diff...") false ;;
       ret [str "git"; str "diff"]
     else
       echo (str "Showing diff from master to current branch...") false ;;
       ret [str "git"; str "diff"; str "master...HEAD"]) ;;
  code <- subprocess_run cmd ;;
  when (negb (code =? 0)) (exit code).

(** *** cherry (lines 139-293) *)

(** [for i, commit_hash in enumerate(commits_to_pick, 1)] *)
Fixpoint cherry_pick_each (total : nat) (i : Z) (commits : list text) : M unit :=
  match commits with
  | [] => ret tt
  | commit_hash :: rest =>
      (if (1 <? total)%nat then
         echo (str "Cherry-picking commit " ++ str_of_Z i ++ str "/"
               ++ str_of_Z (Z.of_nat total) ++ str ": " ++ firstn 8 commit_hash) false
       else
         echo (str "Cherry-picking commit: " ++ firstn 8 commit_hash) false) ;;
      '(exit_code, _, stderr) <-
        run_git_command [str "git"; str "cherry-pick"; commit_hash] ;;
      when (negb (exit_code =? 0))
        (echo (str "Error cherry-picking commit " ++ firstn 8 commit_hash
               ++ str ": " ++ stderr) true ;;
         echo (str "You may need to resolve conflicts manually") false ;;
         exit 1) ;;
      cherry_pick_each total (i + 1) rest
  end.

Definition cherry (title : text) (merge : bool) (num_commits : option Z)
           (body : option text) : M unit :=
  check_git_repo ;;
  check_gh ;;
  '(exit_code, original_branch, stderr) <-
    run_git_command [str "git"; str "rev-parse"; str "--abbrev-ref"; str "HEAD"] ;;
  when (negb (exit_code =? 0))
    (echo (str "Error getting current branch: " ++ stderr) true ;; exit 1) ;;
  let original_branch := py_strip U original_branch in
  echo (str "Starting cherry-pick workflow from branch: " ++ original_branch) false ;;
  '(exit_code, status_output, stderr) <-
    run_git_command [str "git"; str "status"; str "--porcelain"] ;;
  when (negb (exit_code =? 0))
    (echo (str "Error checking git status: " ++ stderr) true ;; exit 1) ;;
  let has_unstaged_changes := nonempty (py_strip U status_output) in
  when (match num_commits with Some _ => has_unstaged_changes | None => false end)
    (echo (str "Error: Cannot use -n flag when there are unstaged commits.") true ;;
     echo (str "Please commit or stash your changes first.") true ;;
     exit 1) ;;
  commits_to_pick <-
    (if has_unstaged_changes then
       echo (str "Committing unstaged changes...") false ;;
       '(exit_code, _, stderr) <- run_git_command [str "git"; str "add"; str "-A"] ;;
       when (negb (exit_code =? 0))
         (echo (str "Error staging changes: " ++ stderr) true ;; exit 1) ;;
       '(exit_code, _, stderr) <-
         run_git_command [str "git"; str "commit"; str "-m"; title] ;;
       when (negb (exit_code =? 0))
         (echo (str "Error creating commit: " ++ stderr) true ;; exit 1) ;;
       '(exit_code, commit_hash, stderr) <-
         run_git_command [str "git"; str "rev-parse"; str "HEAD"] ;;
       when (negb (exit_code =? 0))
         (echo (str "Error getting commit hash: " ++ stderr) true ;; exit 1) ;;
       ret [py_strip U commit_hash]
     else
       let num_to_get := match num_commits with Some n => n | None => 1 end in
       echo (str "Getting last " ++ str_of_Z num_to_get ++ str " commit"
             ++ (if 1 <? num_to_get then str "s" else [])
             ++ str " to cherry-pick") false ;;
       '(exit_code, commit_output, stderr) <-
         run_git_command [str "git"; str "rev-list"; str "--reverse";
                          str "HEAD~" ++ str_of_Z num_to_get ++ str "..HEAD"] ;;
       when (negb (exit_code =? 0))
         (echo (str "Error getting commit hashes: " ++ stderr) true ;; exit 1) ;;
       let commits_to_pick :=
         if nonempty (py_strip U commit_output)
         then split_on newline (py_strip U commit_output) else [] in
       when (negb (Z.of_nat (List.length commits_to_pick) =? num_to_get))
         (echo (str "Error: Could only find "
                ++ str_of_Z (Z.of_nat (List.length commits_to_pick))
                ++ str " commits, but " ++ str_of_Z num_to_get
                ++ str " were requested") true ;;
          exit 1) ;;
       ret commits_to_pick) ;;
  echo (str "Switching to master...") false ;;
  '(exit_code, _, stderr) <- run_git_command [str "git"; str "checkout"; str "master"] ;;
  when (negb (exit_code =? 0))
    (echo (str "Error switching to master: " ++ stderr) true ;; exit 1) ;;
  echo (str "Pulling latest changes from origin...") false ;;
  '(exit_code, _, stderr) <-
    run_git_command [str "git"; str "pull"; str "origin"; str "master"] ;;
  when (negb (exit_code =? 0))
    (echo (str "Error pulling from origin: " ++ stderr) true ;; exit 1) ;;
  let branch_name := title_to_branch_name U title in
  echo (str "Creating new branch: " ++ branch_name) false ;;
  '(exit_code, _, stderr) <-
    run_git_command [str "git"; str "checkout"; str "-b"; branch_name] ;;
  when (negb (exit_code =? 0))
    (echo (str "Error creating branch: " ++ stderr) true ;; exit 1) ;;
  cherry_pick_each (List.length commits_to_pick) 1 commits_to_pick ;;
  echo (str "Pushing branch '" ++ branch_name ++ str "' to origin...") false ;;
  '(exit_code, _, stderr) <-
    run_git_command [str "git"; str "push"; str "-u"; str "origin"; branch_name] ;;
  when (negb (exit_code =? 0))
    (echo (str "Error pushing branch: " ++ stderr) true ;; exit 1) ;;
  echo (str "Creating pull request...") false ;;
  let pr_body := match body with Some b => b | None => title end in
  let pr_cmd :=
    [str "gh"; str "pr"; str "create"; str "--title"; title; str "--body"; pr_body]
    ++ (if merge then [str "--label"; str "merge"] else []) in
  code <- subprocess_run pr_cmd ;;
  when (negb (code =? 0))
    (echo (str "Error creating PR, but branch was created successfully") true ;;
     exit code) ;;
  echo (str "Switching back to original branch: " ++ original_branch) false ;;
  '(exit_code, _, stderr) <-
    run_git_command [str "git"; str "checkout"; original_branch] ;;
  when (negb (exit_code =? 0))
    (echo (str "Error switching back to original branch: " ++ stderr) true ;;
     echo (str "You are currently on branch: " ++ branch_name) false ;;
     exit 1) ;;
  echo (check_mark ++ str " Cherry-pick workflow completed successfully!") false ;;
  echo (str "   Branch created: " ++ branch_name) false ;;
  echo (str "   Original branch: " ++ original_branch) false.

(** *** branch (lines 296-332) *)

(** The rows of the table: one per line that holds a [|]. *)
Definition branch_rows (lines : list text) : list (text * text) :=
  flat_map (fun line =>
              if mem_char line vbar then
                match split_once vbar line with
                | [branch; date] => [(branch, date)]
                | _ => []
                end
              else []) lines.

Definition console_print_branches (rows : list (text * text)) : M unit :=
  fun h =>
    let ok := w_render W h in
    (if ok then Ok tt else Raise RichError, h ++ [EvPrintBranches rows ok]).

Definition branch : M unit :=
  check_git_repo ;;
  let cmd := [str "git"; str "for-each-ref"; str "--sort=-committerdate";
              str "--count=10";
              str "--format=%(refname:short)|%(committerdate:relative)";
              str "refs/heads/"] in
  '(exit_code, stdout, stderr) <- run_git_command cmd ;;
  when (negb (exit_code =? 0))
    (echo (str "Error fetching branches: " ++ stderr) true ;; exit exit_code) ;;
  if negb (nonempty (py_strip U stdout)) then
    echo (str "No branches found") false
  else
    console_print_branches (branch_rows (split_on newline (py_strip U stdout))).

(** *** merge (lines 335-358) *)

Definition merge (pr_number : text) : M unit :=
  check_git_repo ;;
  check_gh ;;
  let pr_number :=
    if startswith (str "#") pr_number then skipn 1 pr_number else pr_number in
  echo (str "Adding 'merge' label to PR #" ++ pr_number ++ str "...") false ;;
  code <- subprocess_run [str "gh"; str "pr"; str "edit"; pr_number;
                          str "--add-label"; str "merge"] ;;
  when (negb (code =? 0)) (exit code) ;;
  echo (check_mark ++ str " Added 'merge' label to PR #" ++ pr_number) false.

(** *** list (lines 361-455) *)

Record counts := {
  success_count : N;
  failure_count : N;
  pending_count : N;
  skipped_count : N
}.

Definition no_counts : counts :=
  {| success_count := 0; failure_count := 0; pending_count := 0; skipped_count := 0 |}.

Definition add_success (c : counts) : counts :=
  {| success_count := success_count c + 1; failure_count := failure_count c;
     pending_count := pending_count c; skipped_count := skipped_count c |}.
Definition add_failure (c : counts) : counts :=
  {| success_count := success_count c; failure_count := failure_count c + 1;
     pending_count := pending_count c; skipped_count := skipped_count c |}.
Definition add_pending (c : counts) : counts :=
  {| success_count := success_count c; failure_count := failure_count c;
     pending_count := pending_count c + 1; skipped_count := skipped_count c |}.
Definition add_skipped (c : counts) : counts :=
  {| success_count := success_count c; failure_count := failure_count c;
     pending_count := pending_count c; skipped_count := skipped_count c + 1 |}.

(** The body of [for check in status_rollup]: one entry is tallied.
    [check.get] needs a dict and [.upper()] needs a string. *)
Definition count_check (c : counts) (check : json) : outcome counts :=
  match check with
  | JObj fields =>
      let get key default :=
        match assoc key fields with Some v => v | None => default end in
      if json_is_str (get (str "__typename") JNull) (str "CheckRun") then
        match get (str "conclusion") (JStr []) with
        | JStr s =>
            let conclusion := py_upper U s in
            if text_eqb conclusion (str "SUCCESS") then Ok (add_success c)
            else if text_eqb conclusion (str "FAILURE") then Ok (add_failure c)
            else if text_eqb conclusion (str "SKIPPED") then Ok (add_skipped c)
            else if json_is_str (get (str "status") JNull) (str "IN_PROGRESS")
                 then Ok (add_pending c)
            else Ok c
        | _ => Raise AttributeError
        end
      else if json_is_str (get (str "__typename") JNull) (str "StatusContext") then
        match get (str "state") (JStr []) with
        | JStr s =>
            let state := py_upper U s in
            if text_eqb state (str "SUCCESS") then Ok (add_success c)
            else if text_eqb state (str "FAILURE") then Ok (add_failure c)
            else if text_eqb state (str "PENDING") then Ok (add_pending c)
            else Ok c
        | _ => Raise AttributeError
        end
      else Ok c
  | _ => Raise AttributeError
  end.

Fixpoint count_checks (c : counts) (checks : list json) : outcome counts :=
  match checks with
  | [] => Ok c
  | check :: rest =>
      match count_check c check with
      | Ok c' => count_checks c' rest
      | Exit code => Exit code
      | Raise e => Raise e
      end
  end.

(** The one-line summary, by priority. *)
Definition format_summary (c : counts) (total_checks : nat) : text :=
  let total := str_of_Z (Z.of_nat total_checks) in
  if (0 <? failure_count c)%N then
    cross_mark ++ str " " ++ str_of_N (failure_count c) ++ str "/" ++ total ++ str " failed"
  else if (0 <? pending_count c)%N then
    hourglass ++ str " " ++ str_of_N (pending_count c) ++ str "/" ++ total ++ str " pending"
  else if (0 <? success_count c)%N then
    check_mark ++ str " " ++ str_of_N (success_count c) ++ str "/" ++ total ++ str " passed"
  else
    white_circle ++ str " " ++ str_of_N (skipped_count c) ++ str "/" ++ total ++ str " skipped".

(** The value of [check_status] for one PR. *)
Definition check_status (pr : json) : outcome text :=
  match dict_get pr (str "statusCheckRollup") (JArr []) with
  | Ok status_rollup =>
      if negb (truthy status_rollup) then Ok (question_mark ++ str " No checks")
      else
        match py_iter status_rollup with
        | Ok checks =>
            match count_checks no_counts checks with
            | Ok c => Ok (format_summary c (List.length checks))
            | Exit code => Exit code
            | Raise e => Raise e
            end
        | Exit code => Exit code
        | Raise e => Raise e
        end
  | Exit code => Exit code
  | Raise e => Raise e
  end.

(** The body of [for pr in prs]: the summary of the checks, then
    [table.add_row(f"#{pr['number']}", pr["title"], pr["headRefName"],
    check_status)], which raises at once on a title or a branch that is
    neither a string nor [None]. *)
Definition pr_table_row (pr : json) : outcome pr_row :=
  match check_status pr with
  | Ok status =>
      match dict_item pr (str "number"), dict_item pr (str "title"),
            dict_item pr (str "headRefName") with
      | Ok number, Ok title, Ok head =>
          if renderable title && renderable head
          then Ok {| row_number := number; row_title := title;
                     row_branch := head; row_checks := status |}
          else Raise NotRenderableError
      | Ok _, Ok _, Exit code | Ok _, Exit code, _ | Exit code, _, _ => Exit code
      | Ok _, Ok _, Raise e | Ok _, Raise e, _ | Raise e, _, _ => Raise e
      end
  | Exit code => Exit code
  | Raise e => Raise e
  end.

Fixpoint pr_table_rows (prs : list json) : outcome (list pr_row) :=
  match prs with
  | [] => Ok []
  | pr :: rest =>
      match pr_table_row pr with
      | Ok row =>
          match pr_table_rows rest with
          | Ok rows => Ok (row :: rows)
          | Exit code => Exit code
          | Raise e => Raise e
          end
      | Exit code => Exit code
      | Raise e => Raise e
      end
  end.

Definition console_print_prs (rows : list pr_row) : M unit :=
  fun h =>
    let ok := w_render W h in
    (if ok then Ok tt else Raise RichError, h ++ [EvPrintPrs rows ok]).

Definition list_prs (author : text) : M unit :=
  check_git_repo ;;
  check_gh ;;
  let cmd := [str "gh"; str "pr"; str "list"; str "--author"; author; str "--json";
              str "number,title,headRefName,statusCheckRollup"] in
  '(exit_code, stdout, stderr) <- run_git_command cmd ;;
  when (negb (exit_code =? 0))
    (echo (str "Error fetching PRs: " ++ stderr) true ;; exit exit_code) ;;
  if negb (nonempty (py_strip U stdout)) then
    echo (str "No PRs found") false
  else
    match json_loads stdout with
    | None => echo (str "Error parsing PR data") true ;; exit 1
    | Some prs =>
        items <- lift (py_iter prs) ;;
        rows <- lift (pr_table_rows items) ;;
        console_print_prs rows
    end.

(** *** pr (lines 458-534) *)

Definition pr_default (message : text) (commit merge : bool) (body : option text)
  : M unit :=
  check_git_repo ;;
  check_gh ;;
  when commit
    ('(exit_code, status_out, status_err) <-
       run_git_command [str "git"; str "status"; str "--porcelain"] ;;
     when (negb (exit_code =? 0))
       (echo (str "Error checking git status: " ++ status_err) true ;; exit 1) ;;
     if nonempty (py_strip U status_out) then
       echo (str "Staging changes...") false ;;
       '(exit_code, _, add_err) <- run_git_command [str "git"; str "add"; str "-A"] ;;
       when (negb (exit_code =? 0))
         (echo (str "Error staging changes: " ++ add_err) true ;; exit 1) ;;
       echo (str "Creating commit...") false ;;
       '(exit_code, _, commit_err) <-
         run_git_command [str "git"; str "commit"; str "-m"; message] ;;
       when (negb (exit_code =? 0))
         (echo (str "Error creating commit: " ++ commit_err) true ;; exit 1)
     else
       echo (str "No changes to commit; proceeding to PR creation.") false) ;;
  '(exit_code, branch, branch_err) <-
    run_git_command [str "git"; str "rev-parse"; str "--abbrev-ref"; str "HEAD"] ;;
  when (negb (exit_code =? 0))
    (echo (str "Error determining branch: " ++ branch_err) true ;; exit 1) ;;
  let branch := py_strip U branch in
  '(exit_code, _, remote_err) <-
    run_git_command [str "git"; str "remote"; str "get-url"; str "origin"] ;;
  when (negb (exit_code =? 0))
    (echo (str "Error: remote 'origin' not set. Cannot push branch.") true ;; exit 1) ;;
  echo (str "Pushing branch '" ++ branch ++ str "' to origin...") false ;;
  '(exit_code, _, push_err) <-
    run_git_command [str "git"; str "push"; str "-u"; str "origin"; branch] ;;
  when (negb (exit_code =? 0))
    (echo (str "Error pushing branch: " ++ push_err) true ;; exit 1) ;;
  echo (str "Creating pull request...") false ;;
  let pr_body := match body with Some b => b | None => message end in
  let pr_cmd :=
    [str "gh"; str "pr"; str "create"; str "--title"; message; str "--body"; pr_body]
    ++ (if merge then [str "--label"; str "merge"] else []) in
  code <- subprocess_run pr_cmd ;;
  when (negb (code =? 0)) (exit code).

(** *** Worktrees (lines 541-717) *)

Definition get_repo_name : M text :=
  '(exit_code, stdout, _) <-
    run_git_command [str "git"; str "remote"; str "get-url"; str "origin"] ;;
  if (exit_code =? 0) && nonempty stdout then
    let repo_name := last_segment slash (py_rstrip_chars (str ".git") stdout) in
    ret repo_name
  else
    p <- cwd ;; ret (name p).

Definition get_main_worktree : M path :=
  '(exit_code, stdout, _) <-
    run_git_command [str "git"; str "worktree"; str "list"; str "--porcelain"] ;;
  if (exit_code =? 0) && nonempty stdout then
    match find (startswith (str "worktree ")) (split_on newline stdout) with
    | Some line => ret (Path (nth 1 (split_once space line) []))
    | None => cwd
    end
  else cwd.

Definition wt_create (branch : text) (new_branch shell : bool) : M unit :=
  check_git_repo ;;
  repo_name <- get_repo_name ;;
  main_worktree <- get_main_worktree ;;
  let worktree_path :=
    joinpath (parent main_worktree) (repo_name ++ str "-" ++ branch) in
  present <- path_exists worktree_path ;;
  when present
    (echo (str "Error: Directory already exists: " ++ path_str worktree_path) true ;;
     exit 1) ;;
  when (negb shell)
    (echo (str "Creating worktree at " ++ path_str worktree_path ++ str "...") shell) ;;
  let cmd :=
    if new_branch
    then [str "git"; str "worktree"; str "add"; path_str worktree_path; str "-b"; branch]
    else [str "git"; str "worktree"; str "add"; path_str worktree_path; branch] in
  '(exit_code, _, stderr) <- run_git_command cmd ;;
  when (negb (exit_code =? 0))
    (echo (str "Error creating worktree: " ++ stderr) true ;; exit 1) ;;
  let main_envrc := joinpath main_worktree (str ".envrc") in
  has_envrc <- path_exists main_envrc ;;
  when has_envrc
    (let worktree_envrc := joinpath worktree_path (str ".envrc") in
     let relative_envrc := joinpath (joinpath (Path (str "..")) repo_name) (str ".envrc") in
     symlink_to worktree_envrc relative_envrc ;;
     when (negb shell)
       (echo (str "Created .envrc symlink -> " ++ path_str relative_envrc) false)) ;;
  if shell then
    echo (str "cd " ++ [dquote] ++ path_str worktree_path ++ [dquote] ++ str " && uv sync") false
  else
    echo (check_mark ++ str " Worktree created at " ++ path_str worktree_path) false ;;
    echo (str "   Run: cd " ++ path_str worktree_path ++ str " && uv sync") false.

(** The loop of [find_worktree_by_branch] over the porcelain lines. *)
Fixpoint scan_worktrees (branch : text) (current_worktree : option path)
         (lines : list text) : option path :=
  match lines with
  | [] => None
  | line :: rest =>
      if startswith (str "worktree ") line then
        scan_worktrees branch (Some (Path (nth 1 (split_once space line) []))) rest
      else if startswith (str "branch ") line
              && match current_worktree with Some _ => true | None => false end then
        let worktree_branch := last_segment slash line in
        if text_eqb worktree_branch branch then current_worktree
        else scan_worktrees branch current_worktree rest
      else scan_worktrees branch current_worktree rest
  end.

Definition find_worktree_by_branch (branch : text) : M (option path) :=
  '(exit_code, stdout, _) <-
    run_git_command [str "git"; str "worktree"; str "list"; str "--porcelain"] ;;
  if negb (exit_code =? 0) then ret None
  else ret (scan_worktrees branch None (split_on newline stdout)).

Definition wt_delete (branch : text) (force keep_branch : bool) : M unit :=
  check_git_repo ;;
  found <- find_worktree_by_branch branch ;;
  match found with
  | None =>
      echo (str "Error: No worktree found for branch: " ++ branch) true ;; exit 1
  | Some worktree_path =>
      echo (str "Removing worktree at " ++ path_str worktree_path ++ str "...") false ;;
      let cmd := [str "git"; str "worktree"; str "remove"; path_str worktree_path]
                 ++ (if force then [str "--force"] else []) in
      '(exit_code, _, stderr) <- run_git_command cmd ;;
      when (negb (exit_code =? 0))
        (echo (str "Error removing worktree: " ++ stderr) true ;; exit 1) ;;
      when (negb keep_branch)
        (echo (str "Deleting branch " ++ branch ++ str "...") false ;;
         '(exit_code, _, stderr) <-
           run_git_command [str "git"; str "branch"; str "-D"; branch] ;;
         if negb (exit_code =? 0) then
           echo (str "Warning: Could not delete branch: " ++ stderr) true
         else
           echo (str "Deleted branch " ++ branch) false) ;;
      echo (check_mark ++ str " Worktree removed") false
  end.

(** The tests of the loop of [wt_list] on the path of one line. *)
Definition is_ghg_managed (repo_name : text) (expected_parent worktree_path : path)
  : bool :=
  path_eqb (parent worktree_path) expected_parent
  && startswith (repo_name ++ str "-") (name worktree_path).

(** [for line in stdout.strip().split("\n")]; [line.split()[0]] fails on a
    line of white space only. *)
Fixpoint wt_list_lines (repo_name : text) (main_worktree : path)
         (lines filtered_lines : list text) : outcome (list text) :=
  match lines with
  | [] => Ok filtered_lines
  | line :: rest =>
      if negb (nonempty line) then
        wt_list_lines repo_name main_worktree rest filtered_lines
      else
        match py_split_ws U line with
        | [] => Raise IndexError
        | first :: _ =>
            let worktree_path := Path first in
            let is_main := path_eqb worktree_path main_worktree in
            if is_main || is_ghg_managed repo_name (parent main_worktree) worktree_path
            then wt_list_lines repo_name main_worktree rest (filtered_lines ++ [line])
            else wt_list_lines repo_name main_worktree rest filtered_lines
        end
  end.

Definition wt_list (all_worktrees : bool) : M unit :=
  check_git_repo ;;
  '(exit_code, stdout, stderr) <-
    run_git_command [str "git"; str "worktree"; str "list"] ;;
  when (negb (exit_code =? 0))
    (echo (str "Error listing worktrees: " ++ stderr) true ;; exit 1) ;;
  if negb (nonempty stdout) then echo (str "No worktrees found") false
  else if all_worktrees then echo stdout false
  else
    repo_name <- get_repo_name ;;
    main_worktree <- get_main_worktree ;;
    filtered_lines <-
      lift (wt_list_lines repo_name main_worktree
                          (split_on newline (py_strip U stdout)) []) ;;
    match filtered_lines with
    | _ :: _ => echo (join [newline] filtered_lines) false
    | [] => echo (str "No ghg-managed worktrees found (use --all to see all worktrees)") false
    end.

(** *** The command line *)

Inductive invocation :=
| Move (branch_name : text)
| Diff
| Cherry (title : text) (merge : bool) (num_commits : option Z) (body : option text)
| Branch
| Merge (pr_number : text)
| ListPrs (author : text)
| Pr (message : text) (commit merge : bool) (body : option text)
| WtCreate (branch : text) (new_branch shell : bool)
| WtDelete (branch : text) (force keep_branch : bool)
| WtList (all_worktrees : bool).

(** [app()]: the handler of the sub-command runs on a fresh history. *)
Definition main (inv : invocation) : outcome unit * list event :=
  match inv with
  | Move branch_name => move branch_name []
  | Diff => diff []
  | Cherry title m num_commits body => cherry title m num_commits body []
  | Branch => branch []
  | Merge pr_number => merge pr_number []
  | ListPrs author => list_prs author []
  | Pr message commit m body => pr_default message commit m body []
  | WtCreate b new_branch shell => wt_create b new_branch shell []
  | WtDelete b force keep_branch => wt_delete b force keep_branch []
  | WtList all_worktrees => wt_list all_worktrees []
  end.

End Commands.

(** ** Reading a history *)

(** The command lines of the processes started, in order. *)
Definition ran (tr : list event) : list (list text) :=
  flat_map (fun e => match e with
                     | EvRun cmd _ | EvStream cmd _ => [cmd]
                     | _ => []
                     end) tr.

(** The answer to the first captured run of [cmd]. *)
Fixpoint first_run (cmd : list text) (tr : list event) : option completed_process :=
  match tr with
  | [] => None
  | EvRun c res :: rest => if cmd_eqb c cmd then Some res else first_run cmd rest
  | _ :: rest => first_run cmd rest
  end.

(** The symbolic links created. *)
Definition symlinks (tr : list event) : list (path * path) :=
  flat_map (fun e => match e with
                     | EvSymlink link target _ => [(link, target)]
                     | _ => []
                     end) tr.

(** What was written to the console by [typer.echo]. *)
Definition echoed (tr : list event) : list (text * bool) :=
  flat_map (fun e => match e with
                     | EvEcho msg err => [(msg, err)]
                     | _ => []
                     end) tr.

Definition git_status : list text := [str "git"; str "status"; str "--porcelain"].

(** [bool(stdout.strip())] on the output that [run_git_command] has already
    stripped: are there uncommitted changes? *)
Definition reports_changes (U : unicode_db) (res : completed_process) : bool :=
  nonempty (py_strip U (py_strip U (stdout res))).

(** ** A scripted world

    A fake command executor: every request is answered from a fixed table,
    whatever the history. *)

Record script := {
  on_run : list (list text * completed_process);
  on_stream : list (list text * Z);
  files : list path;
  programs : list text;
  workdir : path
}.

Fixpoint lookup_cmd {A} (cmd : list text) (table : list (list text * A)) : option A :=
  match table with
  | [] => None
  | (c, a) :: rest => if cmd_eqb c cmd then Some a else lookup_cmd cmd rest
  end.

Definition completed (code : Z) (out : text) : completed_process :=
  {| returncode := code; stdout := out; stderr := [] |}.

(** A line as a process prints it: it ends with a newline. *)
Definition line (s : string) : text := str s ++ [newline].

Definition scripted (s : script) : world := {|
  w_run := fun _ cmd =>
    match lookup_cmd cmd (on_run s) with
    | Some res => res
    | None => {| returncode := 1; stdout := []; stderr := str "unknown command" |}
    end;
  w_stream := fun _ cmd =>
    match lookup_cmd cmd (on_stream s) with Some code => code | None => 0%Z end;
  w_exists := fun _ p => existsb (path_eqb p) (files s);
  w_which := fun _ prog => existsb (text_eqb prog) (programs s);
  w_cwd := fun _ => workdir s;
  w_symlink := fun _ _ _ => true;
  w_render := fun _ => true
|}.

(** [json.loads] on a fixed set of documents. *)
Fixpoint loads_from (docs : list (text * json)) (s : text) : option json :=
  match docs with
  | [] => None
  | (d, v) :: rest => if text_eqb d s then Some v else loads_from rest s
  end.

(** ** Reasoning about handlers *)

(** [wp m h Q]: run from the history [h], the handler [m] ends in an outcome
    and a history that satisfy [Q]. *)
Definition wp {A} (m : M A) (h : list event)
           (Q : outcome A -> list event -> Prop) : Prop :=
  Q (fst (m h)) (snd (m h)).

(** ** Shapes of strings *)

(** [s] is empty or starts with a character outside [p]. *)
Definition starts_clear (p : N -> bool) (s : text) : Prop :=
  match s with [] => True | c :: _ => p c = false end.

(** No two neighbours of [s] are both the character [h]. *)
Fixpoint no_adj (h : N) (s : text) : Prop :=
  match s with
  | a :: (b :: _) as t => ~ (a = h /\ b = h) /\ no_adj h t
  | _ => True
  end.

(** What [title_to_branch_name] returns: lower-case word characters other
    than the underscore, and single hyphens between them. *)
Record kebab_shape (U : unicode_db) (r : text) : Prop := {
  shape_chars : forall c, In c r ->
      lower_stable U c
      /\ (is_word U c || isspace U c || N.eqb c hyphen) = true
      /\ (isspace U c || N.eqb c underscore) = false;
  shape_runs : no_adj hyphen r;
  shape_ends : starts_clear (mem_char [hyphen]) r
               /\ starts_clear (mem_char [hyphen]) (rev r)
}.

(** ** Command lines named in the statements *)

Definition git_rev_parse_branch : list text :=
  [str "git"; str "rev-parse"; str "--abbrev-ref"; str "HEAD"].
Definition git_stash_push (branch_name : text) : list text :=
  [str "git"; str "stash"; str "push"; str "-m"; str "gpp move to " ++ branch_name].
Definition git_stash_pop : list text := [str "git"; str "stash"; str "pop"].
Definition git_remote_url : list text :=
  [str "git"; str "remote"; str "get-url"; str "origin"].
Definition git_worktree_porcelain : list text :=
  [str "git"; str "worktree"; str "list"; str "--porcelain"].
Definition git_worktree_list : list text := [str "git"; str "worktree"; str "list"].
Definition git_worktree_remove (p : path) (force : bool) : list text :=
  [str "git"; str "worktree"; str "remove"; path_str p]
  ++ (if force then [str "--force"] else []).
Definition git_for_each_ref : list text :=
  [str "git"; str "for-each-ref"; str "--sort=-committerdate"; str "--count=10";
   str "--format=%(refname:short)|%(committerdate:relative)"; str "refs/heads/"].
Definition gh_pr_list (author : text) : list text :=
  [str "gh"; str "pr"; str "list"; str "--author"; author; str "--json";
   str "number,title,headRefName,statusCheckRollup"].

(** [git stash ...] *)
Definition is_stash (cmd : list text) : bool :=
  text_eqb (nth 1 cmd []) (str "stash").

(** The first words of a command line. *)
Fixpoint cmd_prefix (p cmd : list text) : bool :=
  match p, cmd with
  | [], _ => true
  | x :: p', y :: cmd' => text_eqb x y && cmd_prefix p' cmd'
  | _ :: _, [] => false
  end.

Definition stash_hint : text :=
  str "Your changes are still in the stash. Use 'git stash pop' to apply them manually.".

(** ** Example data *)

(** A check-run entry and a status-context entry of [statusCheckRollup]. *)
Definition check_run (conclusion : json) (status : string) : json :=
  JObj [(str "__typename", JStr (str "CheckRun"));
        (str "conclusion", conclusion);
        (str "status", JStr (str status))].

Definition status_context (state : json) : json :=
  JObj [(str "__typename", JStr (str "StatusContext")); (str "state", state)].

Definition pull_request (rollup : json) : json :=
  JObj [(str "number", JInt 7);
        (str "title", JStr (str "Fix login"));
        (str "headRefName", JStr (str "fix-login"));
        (str "statusCheckRollup", rollup)].

(** checks = [success, failure, pending] *)
Definition mixed_checks : list json :=
  [check_run (JStr (str "SUCCESS")) "COMPLETED";
   check_run (JStr (str "FAILURE")) "COMPLETED";
   status_context (JStr (str "PENDING"))].

(** A check run that has not finished: its conclusion is [null]. *)
Definition unfinished_run : json := check_run JNull "IN_PROGRESS".

Definition quoted (s : string) : text := [dquote] ++ str s ++ [dquote].

(** The document [gh pr list] prints for one PR with that check run. *)
Definition unfinished_doc : text :=
  str "[{" ++ quoted "number" ++ str ":7," ++ quoted "title" ++ str ":"
  ++ quoted "Fix login" ++ str "," ++ quoted "headRefName" ++ str ":"
  ++ quoted "fix-login" ++ str "," ++ quoted "statusCheckRollup" ++ str ":[{"
  ++ quoted "__typename" ++ str ":" ++ quoted "CheckRun" ++ str ","
  ++ quoted "conclusion" ++ str ":null," ++ quoted "status" ++ str ":"
  ++ quoted "IN_PROGRESS" ++ str "}]}]".

Definition unfinished_world : script := {|
  on_run := [(gh_pr_list (str "@me"), completed 0 (unfinished_doc ++ [newline]))];
  on_stream := [];
  files := [Path (str ".git")];
  programs := [str "gh"];
  workdir := Path (str "/home/u/repo")
|}.

Definition unfinished_loads : text -> option json :=
  loads_from [(unfinished_doc, JArr [pull_request (JArr [unfinished_run])])].

(** What the loop of [cherry] adds to a history: messages and
    [git cherry-pick] runs. *)
Definition cherry_pick_event (e : event) : bool :=
  match e with
  | EvEcho _ _ => true
  | EvRun cmd _ => cmd_prefix [str "git"; str "cherry-pick"] cmd
  | _ => false
  end.

(** A repository with a clean working tree. *)
Definition clean_tree : script := {|
  on_run := [(git_rev_parse_branch, completed 0 (line "main"));
             (git_status, completed 0 []);
             ([str "git"; str "checkout"; str "master"], completed 0 []);
             ([str "git"; str "pull"; str "origin"; str "master"], completed 0 []);
             ([str "git"; str "checkout"; str "-b"; str "topic"], completed 0 [])];
  on_stream := [];
  files := [Path (str ".git")];
  programs := [str "gh"];
  workdir := Path (str "/home/u/repo")
|}.

(** A repository with one modified file. *)
Definition dirty_tree : script := {|
  on_run := [(git_rev_parse_branch, completed 0 (line "main"));
             (git_status, completed 0 (line " M notes.txt"));
             (git_stash_push (str "topic"), completed 0 []);
             ([str "git"; str "checkout"; str "master"], completed 0 []);
             ([str "git"; str "pull"; str "origin"; str "master"], completed 0 []);
             ([str "git"; str "checkout"; str "-b"; str "topic"], completed 0 []);
             (git_stash_pop,
              {| returncode := 1; stdout := [];
                 stderr := line "CONFLICT (content): Merge conflict in notes.txt" |})];
  on_stream := [];
  files := [Path (str ".git")];
  programs := [str "gh"];
  workdir := Path (str "/home/u/repo")
|}.

(** ** Worktrees as git lists them *)

(** One worktree of [git worktree list --porcelain]: its path, its HEAD and
    the full ref of its branch ([None]: detached). *)
Record worktree_entry := {
  wt_path : text;
  wt_head : text;
  wt_ref : option text
}.

Definition entry_lines (e : worktree_entry) : list text :=
  [str "worktree " ++ wt_path e;
   str "HEAD " ++ wt_head e;
   match wt_ref e with
   | Some ref => str "branch " ++ ref
   | None => str "detached"
   end].

(** The entries follow each other, an empty line between them. *)
Fixpoint porcelain_lines (es : list worktree_entry) : list text :=
  match es with
  | [] => []
  | e :: rest =>
      entry_lines e ++ match rest with [] => [] | _ => [] :: porcelain_lines rest end
  end.

Definition porcelain (es : list worktree_entry) : text :=
  join [newline] (porcelain_lines es).

Definition single_line (s : text) : bool := negb (existsb (N.eqb newline) s).
Definition has_slash (s : text) : bool := existsb (N.eqb slash) s.

(** The fields hold no newline, and a branch ref ([refs/heads/...]) holds a
    slash. *)
Definition entry_ok (e : worktree_entry) : bool :=
  single_line (wt_path e) && single_line (wt_head e)
  && match wt_ref e with
     | Some ref => single_line ref && has_slash ref
     | None => true
     end.

(** ** More scripted repositories *)

(** [/home/u/repo] with origin [acme/repo]; [/home/u/repo-feat] exists. *)
Definition occupied_sibling : script := {|
  on_run := [(git_remote_url, completed 0 (line "https://github.com/acme/repo"));
             (git_worktree_porcelain,
              completed 0 (line "worktree /home/u/repo" ++ line "HEAD 1111111"
                           ++ line "branch refs/heads/main"))];
  on_stream := [];
  files := [Path (str ".git"); Path (str "/home/u/repo-feat")];
  programs := [str "gh"];
  workdir := Path (str "/home/u/repo")
|}.

(** [/home/u/widget], cloned from [acme/widget.git], with an [.envrc]. *)
Definition widget_clone : script := {|
  on_run := [(git_remote_url, completed 0 (line "https://github.com/acme/widget.git"));
             (git_worktree_porcelain,
              completed 0 (line "worktree /home/u/widget" ++ line "HEAD 1111111"
                           ++ line "branch refs/heads/main"));
             ([str "git"; str "worktree"; str "add"; str "/home/u/widge-feat";
               str "-b"; str "feat"], completed 0 [])];
  on_stream := [];
  files := [Path (str ".git"); Path (str "/home/u/widget/.envrc")];
  programs := [str "gh"];
  workdir := Path (str "/home/u/widget")
|}.

(** The worktrees [repo], [repo-featA] and [/tmp/scratch] of the repository
    [repo]. *)
Definition three_worktrees : script := {|
  on_run := [(git_remote_url, completed 0 (line "https://github.com/acme/repo"));
             (git_worktree_porcelain,
              completed 0 (line "worktree /home/u/repo" ++ line "HEAD 1111111"
                           ++ line "branch refs/heads/main" ++ line ""
                           ++ line "worktree /home/u/repo-featA" ++ line "HEAD 2222222"
                           ++ line "branch refs/heads/featA" ++ line ""
                           ++ line "worktree /tmp/scratch" ++ line "HEAD 3333333"
                           ++ line "detached"));
             (git_worktree_list,
              completed 0 (line "/home/u/repo        1111111 [main]"
                           ++ line "/home/u/repo-featA  2222222 [featA]"
                           ++ line "/tmp/scratch        3333333 (detached HEAD)"))];
  on_stream := [];
  files := [Path (str ".git")];
  programs := [str "gh"];
  workdir := Path (str "/home/u/repo")
|}.

(** The same repository kept under a directory whose name has a space. *)
Definition spaced_home : script := {|
  on_run := [(git_remote_url, completed 0 (line "https://github.com/acme/repo"));
             (git_worktree_porcelain,
              completed 0 (line "worktree /home/u/my projects/repo" ++ line "HEAD 1111111"
                           ++ line "branch refs/heads/main" ++ line ""
                           ++ line "worktree /home/u/my projects/repo-featA"
                           ++ line "HEAD 2222222" ++ line "branch refs/heads/featA"));
             (git_worktree_list,
              completed 0 (line "/home/u/my projects/repo        1111111 [main]"
                           ++ line "/home/u/my projects/repo-featA  2222222 [featA]"))];
  on_stream := [];
  files := [Path (str ".git")];
  programs := [str "gh"];
  workdir := Path (str "/home/u/my projects/repo")
|}.

(** A worktree on the branch [feature/x]. *)
Definition feature_entries : list worktree_entry :=
  [{| wt_path := str "/home/u/repo"; wt_head := str "1111111";
      wt_ref := Some (str "refs/heads/main") |};
   {| wt_path := str "/home/u/repo-x"; wt_head := str "2222222";
      wt_ref := Some (str "refs/heads/feature/x") |}].

Definition feature_worktrees : script := {|
  on_run := [(git_worktree_porcelain, completed 0 (porcelain feature_entries ++ [newline]));
             (git_worktree_remove (Path (str "/home/u/repo-x")) false, completed 0 []);
             ([str "git"; str "branch"; str "-D"; str "x"],
              {| returncode := 1; stdout := [];
                 stderr := line "error: branch 'x' not found." |})];
  on_stream := [];
  files := [Path (str ".git")];
  programs := [str "gh"];
  workdir := Path (str "/home/u/repo")
|}.

(** [git for-each-ref] and [gh pr list] fail with status 128 and 4. *)
Definition failing_queries : script := {|
  on_run := [(git_for_each_ref,
              {| returncode := 128; stdout := [];
                 stderr := line "fatal: not a git repository" |});
             (gh_pr_list (str "@me"),
              {| returncode := 4; stdout := [];
                 stderr := line "gh: authentication required" |})];
  on_stream := [];
  files := [Path (str ".git")];
  programs := [str "gh"];
  workdir := Path (str "/home/u/repo")
|}.

Definition git_branch_delete (branch : text) : list text :=
  [str "git"; str "branch"; str "-D"; branch].

(** ** Exit codes *)

Definition is_diff (cmd : list text) : bool := cmd_prefix [str "git"; str "diff"] cmd.
Definition is_pr_create (cmd : list text) : bool :=
  cmd_prefix [str "gh"; str "pr"; str "create"] cmd.
Definition is_pr_edit (cmd : list text) : bool :=
  cmd_prefix [str "gh"; str "pr"; str "edit"] cmd.
Definition is_pr_list (cmd : list text) : bool :=
  cmd_prefix [str "gh"; str "pr"; str "list"] cmd.

(** The status [code] is that of a failed child: a passthrough step among
    [streams] or a captured step among [captured]. *)
Definition propagated_from (streams captured : list text -> bool) (code : Z)
           (tr : list event) : Prop :=
  code <> 0%Z
  /\ ((exists cmd, In (EvStream cmd code) tr /\ streams cmd = true)
      \/ (exists cmd res, In (EvRun cmd res) tr /\ returncode res = code
                          /\ captured cmd = true)).

(** The ways in which a command ends, given the steps whose status is passed
    on: a normal return, [typer.Exit(1)], an uncaught exception, or
    [typer.Exit] with the status of a failed child among those steps. *)
Definition exit_code_rule (streams captured : list text -> bool)
           (out : outcome unit) (tr : list event) : Prop :=
  (exists u, out = Ok u)
  \/ out = Exit 1%Z
  \/ (exists e, out = Raise e)
  \/ (exists code, out = Exit code /\ propagated_from streams captured code tr).

(** C8 as it is stated: only the passthrough steps of diff and of PR creation
    pass their status on. *)
Definition stated_exit_rule (U : unicode_db) (W : world)
           (json_loads : text -> option json) : Prop :=
  forall inv out tr,
    main U W json_loads inv = (out, tr) ->
    exit_code_rule (fun cmd => is_diff cmd || is_pr_create cmd) (fun _ => false) out tr.

(** The steps that pass their status on in the code. *)
Definition passthrough_steps (cmd : list text) : bool :=
  is_diff cmd || is_pr_create cmd || is_pr_edit cmd.
Definition propagating_captures (cmd : list text) : bool :=
  cmd_eqb cmd git_for_each_ref || is_pr_list cmd.

(** ** The default listing of [wt_list], in the words of its docstring *)

(** The path that [wt_list] reads off a line: its first blank-separated
    field. *)
Definition first_field (U : unicode_db) (l : text) : option path :=
  match py_split_ws U l with
  | first :: _ => Some (Path first)
  | [] => None
  end.

(** A line is shown when that path is the main worktree, or a sibling of it
    whose name starts with [{repo_name}-]. *)
Definition listed (U : unicode_db) (repo_name : text) (main_worktree : path)
           (l : text) : bool :=
  match first_field U l with
  | Some p =>
      path_eqb p main_worktree
      || (path_eqb (parent p) (parent main_worktree)
          && startswith (repo_name ++ str "-") (name p))
  | None => false
  end.

(** A failed passthrough step ends the command with the status of the
    child. *)
Definition passes_on_streams (out : outcome unit) (tr : list event) : Prop :=
  forall cmd code, In (EvStream cmd code) tr -> code <> 0%Z -> out = Exit code.

(** ** More command lines, and further readings of a history *)

Definition not_a_repo_message : text := str "Error: Not in a git repository".
Definition missing_gh_message : text :=
  str "Error: GitHub CLI 'gh' not found. Install from https://cli.github.com/".

Definition git_diff_worktree : list text := [str "git"; str "diff"].
Definition git_diff_master : list text := [str "git"; str "diff"; str "master...HEAD"].
Definition gh_pr_edit (pr_number : text) : list text :=
  [str "gh"; str "pr"; str "edit"; pr_number; str "--add-label"; str "merge"].
Definition git_checkout_master : list text := [str "git"; str "checkout"; str "master"].
Definition git_pull_master : list text :=
  [str "git"; str "pull"; str "origin"; str "master"].
Definition git_checkout_new (branch_name : text) : list text :=
  [str "git"; str "checkout"; str "-b"; branch_name].
Definition git_checkout (branch_name : text) : list text :=
  [str "git"; str "checkout"; branch_name].
Definition git_push (branch_name : text) : list text :=
  [str "git"; str "push"; str "-u"; str "origin"; branch_name].
Definition gh_pr_create (title body : text) (label : bool) : list text :=
  [str "gh"; str "pr"; str "create"; str "--title"; title; str "--body"; body]
  ++ (if label then [str "--label"; str "merge"] else []).
Definition git_rev_list (n : Z) : list text :=
  [str "git"; str "rev-list"; str "--reverse";
   str "HEAD~" ++ str_of_Z n ++ str "..HEAD"].
Definition git_rev_parse_head : list text := [str "git"; str "rev-parse"; str "HEAD"].
Definition git_add_all : list text := [str "git"; str "add"; str "-A"].
Definition git_commit (message : text) : list text :=
  [str "git"; str "commit"; str "-m"; message].
Definition git_worktree_add (p : path) (branch : text) (new_branch : bool) : list text :=
  if new_branch
  then [str "git"; str "worktree"; str "add"; path_str p; str "-b"; branch]
  else [str "git"; str "worktree"; str "add"; path_str p; branch].

(** [git cherry-pick <commit>] *)
Definition pick (commit : text) : list text :=
  [str "git"; str "cherry-pick"; commit].
Definition is_cherry_pick (cmd : list text) : bool :=
  cmd_prefix [str "git"; str "cherry-pick"] cmd.

(** The cherry-pick commands of a history, in order. *)
Definition picks (tr : list event) : list (list text) :=
  filter is_cherry_pick (ran tr).

(** The commits that an answer of [git rev-list] names, one per line. *)
Definition commit_lines (U : unicode_db) (res : completed_process) : list text :=
  let commit_output := py_strip U (stdout res) in
  if nonempty (py_strip U commit_output)
  then split_on newline (py_strip U commit_output) else [].

(** The number of commits that [cherry] asks for. *)
Definition requested (num_commits : option Z) : Z :=
  match num_commits with Some n => n | None => 1%Z end.

(** What [typer.echo] wrote to the standard output (not the error stream). *)
Definition stdout_lines (tr : list event) : list text :=
  flat_map (fun e => match e with
                     | EvEcho msg false => [msg]
                     | _ => []
                     end) tr.

(** The handlers that need the GitHub CLI, and those that only list. *)
Definition needs_gh (inv : invocation) : bool :=
  match inv with
  | Cherry _ _ _ _ | Merge _ | ListPrs _ | Pr _ _ _ _ => true
  | _ => false
  end.

Definition is_listing (inv : invocation) : bool :=
  match inv with
  | Diff | Branch | ListPrs _ | WtList _ => true
  | _ => false
  end.

(** The queries: processes that change neither the repository nor GitHub. *)
Definition read_only (cmd : list text) : bool :=
  cmd_eqb cmd git_status || is_diff cmd || cmd_eqb cmd git_for_each_ref
  || is_pr_list cmd || cmd_eqb cmd git_worktree_list
  || cmd_eqb cmd git_worktree_porcelain || cmd_eqb cmd git_remote_url.

(** The directory that [wt_create] computes for a worktree. *)
Definition sibling_path (main_worktree : path) (repo_name branch : text) : path :=
  joinpath (parent main_worktree) (repo_name ++ str "-" ++ branch).

(** The line that [wt_create --shell] prints for the calling shell. *)
Definition shell_line (p : path) : text :=
  str "cd " ++ [dquote] ++ path_str p ++ [dquote] ++ str " && uv sync".

(** A line of [git for-each-ref] in the format
    [%(refname:short)|%(committerdate:relative)]. *)
Definition ref_line (row : text * text) : text := fst row ++ [vbar] ++ snd row.

(** The number of checks that a tally has counted. *)
Definition tallied (c : counts) : N :=
  (success_count c + failure_count c + pending_count c + skipped_count c)%N.

(** ** Worlds for the further properties *)

(** A world in which every process succeeds and prints what the table says
    (nothing when the table is silent); only [.git] exists. *)
Definition obliging (outputs : list (list text * text)) : world := {|
  w_run := fun _ cmd =>
    completed 0 (match lookup_cmd cmd outputs with Some out => out | None => [] end);
  w_stream := fun _ _ => 0%Z;
  w_exists := fun _ p => path_eqb p (Path (str ".git"));
  w_which := fun _ _ => true;
  w_cwd := fun _ => Path (str "/home/u/repo");
  w_symlink := fun _ _ _ => true;
  w_render := fun _ => true
|}.

(** On [main], with two commits to move. *)
Definition two_commits : list (list text * text) :=
  [(git_rev_parse_branch, line "main");
   (git_rev_list 2, line "aaaaaaa1" ++ line "bbbbbbb2");
   (git_remote_url, line "https://github.com/acme/repo")].

(** On [main], with one modified file; the commit made gets the hash
    [ccccccc3]. *)
Definition one_change : list (list text * text) :=
  [(git_rev_parse_branch, line "main");
   (git_status, line " M notes.txt");
   (git_rev_parse_head, line "ccccccc3");
   (git_remote_url, line "https://github.com/acme/repo")].

(** Outside any repository; and inside one, without the GitHub CLI. *)
Definition no_repo : script := {|
  on_run := []; on_stream := []; files := []; programs := [str "gh"];
  workdir := Path (str "/tmp")
|}.

Definition no_gh : script := {|
  on_run := []; on_stream := []; files := [Path (str ".git")]; programs := [];
  workdir := Path (str "/home/u/repo")
|}.

(** [git add ...] and [git commit ...] *)
Definition stages_or_commits (cmd : list text) : bool :=
  cmd_prefix [str "git"; str "add"] cmd || cmd_prefix [str "git"; str "commit"] cmd.

(** A line of the branch listing that gives a row. *)
Definition has_bar (l : text) : bool := mem_char l vbar.

(** The row that [list_prs] adds for one PR. *)
Definition row_of (U : unicode_db) (pr : json) (row : pr_row) : Prop :=
  check_status U pr = Ok (row_checks row)
  /\ dict_item pr (str "number") = Ok (row_number row)
  /\ dict_item pr (str "title") = Ok (row_title row)
  /\ dict_item pr (str "headRefName") = Ok (row_branch row)
  /\ renderable (row_title row) = true
  /\ renderable (row_branch row) = true.

(** [git worktree remove ...] and [git branch ...] *)
Definition removes_worktree (cmd : list text) : bool :=
  cmd_prefix [str "git"; str "worktree"; str "remove"] cmd.
Definition touches_branch (cmd : list text) : bool :=
  cmd_prefix [str "git"; str "branch"] cmd.

Definition worktree_removed_message : text := check_mark ++ str " Worktree removed".

(** Two branches, as [git for-each-ref] lists them. *)
Definition recent_branches : list (list text * text) :=
  [(git_for_each_ref, line "main|2 days ago" ++ line "feature/login|3 weeks ago")].

(** The document [gh pr list] prints for one PR with the checks
    [mixed_checks]. *)
Definition check_doc (typename : string) (field value : string) : text :=
  str "{" ++ quoted "__typename" ++ str ":" ++ quoted typename ++ str ","
  ++ quoted field ++ str ":" ++ quoted value ++ str "}".

Definition mixed_doc : text :=
  str "[{" ++ quoted "number" ++ str ":7," ++ quoted "title" ++ str ":"
  ++ quoted "Fix login" ++ str "," ++ quoted "headRefName" ++ str ":"
  ++ quoted "fix-login" ++ str "," ++ quoted "statusCheckRollup" ++ str ":["
  ++ check_doc "CheckRun" "conclusion" "SUCCESS" ++ str ","
  ++ check_doc "CheckRun" "conclusion" "FAILURE" ++ str ","
  ++ check_doc "StatusContext" "state" "PENDING" ++ str "]}]".

Definition mixed_pr : json :=
  JObj [(str "number", JInt 7);
        (str "title", JStr (str "Fix login"));
        (str "headRefName", JStr (str "fix-login"));
        (str "statusCheckRollup",
         JArr [JObj [(str "__typename", JStr (str "CheckRun"));
                     (str "conclusion", JStr (str "SUCCESS"))];
               JObj [(str "__typename", JStr (str "CheckRun"));
                     (str "conclusion", JStr (str "FAILURE"))];
               JObj [(str "__typename", JStr (str "StatusContext"));
                     (str "state", JStr (str "PENDING"))]])].

Definition mixed_listing : list (list text * text) :=
  [(gh_pr_list (str "@me"), mixed_doc ++ [newline])].

Definition mixed_loads : text -> option json :=
  loads_from [(mixed_doc, JArr [mixed_pr])].

(** A listing of two worktrees; the second holds the branch [feat]. *)
Definition two_worktrees : list (list text * text) :=
  [(git_worktree_porcelain,
    line "worktree /home/u/my repo" ++ line "HEAD 1111111"
    ++ line "branch refs/heads/main" ++ [newline]
    ++ line "worktree /home/u/my repo-feat" ++ line "HEAD 2222222"
    ++ line "branch refs/heads/feat");
   (git_remote_url, line "git@github.com:acme/digit.git")].

(** ** The rule on exit codes *)

(** The statuses of the children are those of POSIX: 0 to 255, or minus the
    number of the signal that ended the child. *)
Definition child_statuses (tr : list event) : Prop :=
  (forall cmd res, In (EvRun cmd res) tr -> (-256 < returncode res < 256)%Z)
  /\ (forall cmd code, In (EvStream cmd code) tr -> (-256 < code < 256)%Z).

(** A precondition of the command fails: there is no [.git], or the command
    needs [gh] and it is not on the path. *)
Definition precondition_failed (W : world) (inv : invocation) : Prop :=
  w_exists W [] (Path (str ".git")) = false
  \/ (needs_gh inv = true
      /\ w_which W [EvExists (Path (str ".git")) true] (str "gh") = false).

(** The answers to the path tests ([Path.exists()]) of a history, in order. *)
Definition exists_answers (tr : list event) : list bool :=
  flat_map (fun e => match e with
                     | EvExists _ answer => [answer]
                     | _ => []
                     end) tr.

(** A validation of the command fails.  cherry: [--num] is given although the
    status reports changes, or [git rev-list] names another number of commits
    than asked for; list: the output of [gh pr list] is no JSON document;
    wt create: the directory of the worktree exists (its test is the second
    path test, after that of [.git]); wt delete: the listing holds no
    worktree for the branch. *)
Definition validation_failed (U : unicode_db) (json_loads : text -> option json)
           (inv : invocation) (tr : list event) : Prop :=
  match inv with
  | Cherry _ _ num_commits _ =>
      (exists n st, num_commits = Some n /\ first_run git_status tr = Some st
                    /\ reports_changes U st = true)
      \/ (exists rl, first_run (git_rev_list (requested num_commits)) tr = Some rl
                     /\ returncode rl = 0%Z
                     /\ Z.of_nat (List.length (commit_lines U rl))
                        <> requested num_commits)
  | ListPrs author =>
      exists res, first_run (gh_pr_list author) tr = Some res
                  /\ returncode res = 0%Z
                  /\ nonempty (py_strip U (py_strip U (stdout res))) = true
                  /\ json_loads (py_strip U (stdout res)) = None
  | WtCreate _ _ _ => nth_error (exists_answers tr) 1 = Some true
  | WtDelete branch _ _ =>
      exists res, first_run git_worktree_porcelain tr = Some res
                  /\ returncode res = 0%Z
                  /\ scan_worktrees branch None
                       (split_on newline (py_strip U (stdout res))) = None
  | _ => False
  end.

(** The captured steps whose failure a command tolerates (it goes on): the
    two queries of [get_repo_name] and [get_main_worktree] in wt create and
    wt list, and [git branch -D] in wt delete. *)
Definition tolerated (inv : invocation) (cmd : list text) : bool :=
  match inv with
  | WtCreate _ _ _ | WtList _ =>
      cmd_eqb cmd git_remote_url || cmd_eqb cmd git_worktree_porcelain
  | WtDelete _ _ _ => touches_branch cmd
  | _ => false
  end.

(** A failed captured step that is not tolerated ends the command: with the
    status of the child for [git for-each-ref] and [gh pr list], with 1 for
    every other step. *)
Definition passes_on_captures (inv : invocation) (out : outcome unit)
           (tr : list event) : Prop :=
  forall cmd res, In (EvRun cmd res) tr -> returncode res <> 0%Z ->
    tolerated inv cmd = false ->
    out = Exit (if propagating_captures cmd then returncode res else 1%Z).

(** What a history shows of a failure: the test of [.git] or of [gh] answered
    no, a validation failed, a captured step that the command does not
    tolerate failed, or a passthrough step failed. *)
Definition failure_seen (U : unicode_db) (json_loads : text -> option json)
           (inv : invocation) (tr : list event) : Prop :=
  hd_error tr = Some (EvExists (Path (str ".git")) false)
  \/ In (EvWhich (str "gh") false) tr
  \/ validation_failed U json_loads inv tr
  \/ (exists cmd res, In (EvRun cmd res) tr /\ returncode res <> 0%Z
                      /\ tolerated inv cmd = false)
  \/ (exists cmd code, In (EvStream cmd code) tr /\ code <> 0%Z).

(** The command has written an error message: a text that starts with
    [Error], on the error stream. *)
Definition reports_error (tr : list event) : Prop :=
  exists msg, In (EvEcho msg true) tr /\ startswith (str "Error") msg = true.

(** After an error message the command ends with a code that is not 0. *)
Definition errors_end (out : outcome unit) (tr : list event) : Prop :=
  reports_error tr -> exists code, out = Exit code /\ code <> 0%Z.

(** What an iteration of the cherry-pick loop that goes on leaves in the
    history: successful runs, and messages on the standard output. *)
Definition quiet_success (e : event) : bool :=
  match e with
  | EvRun _ res => (returncode res =? 0)%Z
  | EvEcho _ err => negb err
  | _ => true
  end.

(** A world in which the repository has no remote [origin] and no
    [git branch -D] succeeds: unknown commands fail with status 1. *)
Definition no_origin : script := {|
  on_run := [(git_worktree_porcelain,
              completed 0 (line "worktree /home/u/repo" ++ line "HEAD 1111111"
                           ++ line "branch refs/heads/main"));
             ([str "git"; str "worktree"; str "add"; str "/home/u/repo-feat";
               str "-b"; str "feat"], completed 0 [])];
  on_stream := [];
  files := [Path (str ".git")];
  programs := [str "gh"];
  workdir := Path (str "/home/u/repo")
|}.

(** * Proofs *)

(** * Strings *)

(** ** Stripping *)

Lemma lstrip_by_clear p s : starts_clear p (lstrip_by p s).
Proof.
  induction s as [|c s IH]; simpl; [exact I|].
  destruct (p c) eqn:E; [exact IH | exact E].
Qed.

Lemma lstrip_by_id p s : starts_clear p s -> lstrip_by p s = s.
Proof. destruct s as [|c s]; simpl; [reflexivity|]. intros ->. reflexivity. Qed.

Lemma lstrip_by_suffix p s : exists a, s = a ++ lstrip_by p s.
Proof.
  induction s as [|c s [a IH]]; simpl.
  - exists []. reflexivity.
  - destruct (p c).
    + exists (c :: a). simpl. f_equal. exact IH.
    + exists []. reflexivity.
Qed.

Lemma rstrip_by_prefix p s : exists b, s = rstrip_by p s ++ b.
Proof.
  unfold rstrip_by. destruct (lstrip_by_suffix p (rev s)) as [a E].
  exists (rev a). rewrite <- rev_app_distr, <- E. symmetry. apply rev_involutive.
Qed.

Lemma lstrip_by_snoc p l c : p c = false -> lstrip_by p (l ++ [c]) = lstrip_by p l ++ [c].
Proof.
  intros E. induction l as [|x l IH]; simpl.
  - rewrite E. reflexivity.
  - destruct (p x); [exact IH | reflexivity].
Qed.

Lemma rstrip_by_keeps_start p s : starts_clear p s -> starts_clear p (rstrip_by p s).
Proof.
  destruct s as [|c s]; [intros _; exact I|]. simpl. intros E.
  unfold rstrip_by. simpl. rewrite lstrip_by_snoc by exact E.
  rewrite rev_app_distr. simpl. exact E.
Qed.

Lemma strip_by_clear p s :
  starts_clear p (strip_by p s) /\ starts_clear p (rev (strip_by p s)).
Proof.
  unfold strip_by. split.
  - apply rstrip_by_keeps_start, lstrip_by_clear.
  - unfold rstrip_by. rewrite rev_involutive. apply lstrip_by_clear.
Qed.

Lemma strip_by_id p s :
  starts_clear p s -> starts_clear p (rev s) -> strip_by p s = s.
Proof.
  intros H1 H2. unfold strip_by, rstrip_by.
  rewrite (lstrip_by_id _ _ H1), (lstrip_by_id _ _ H2). apply rev_involutive.
Qed.

Lemma strip_by_middle p s : exists a b, s = a ++ strip_by p s ++ b.
Proof.
  unfold strip_by. destruct (lstrip_by_suffix p s) as [a Ea].
  destruct (rstrip_by_prefix p (lstrip_by p s)) as [b Eb].
  exists a, b. rewrite <- Eb. exact Ea.
Qed.

Lemma strip_by_in p s c : In c (strip_by p s) -> In c s.
Proof.
  destruct (strip_by_middle p s) as (a & b & E). intros H.
  rewrite E. apply in_or_app. right. apply in_or_app. left. exact H.
Qed.

Lemma Forall_starts_clear p s :
  Forall (fun c => p c = false) s -> starts_clear p s /\ starts_clear p (rev s).
Proof.
  intros H. split.
  - destruct H; simpl; auto.
  - apply Forall_rev in H. destruct H; simpl; auto.
Qed.

(** ** Runs *)

Lemma no_adj_app_r h a s : no_adj h (a ++ s) -> no_adj h s.
Proof.
  induction a as [|x a IH]; simpl; [auto|].
  destruct (a ++ s) eqn:E; intros H.
  - destruct a; [simpl in E; subst; exact I | discriminate].
  - apply IH. apply H.
Qed.

Lemma no_adj_app_l h s b : no_adj h (s ++ b) -> no_adj h s.
Proof.
  induction s as [|x s IH]; [intros _; exact I|].
  destruct s as [|y s]; [intros _; exact I|].
  change (~ (x = h /\ y = h) /\ no_adj h ((y :: s) ++ b) ->
          ~ (x = h /\ y = h) /\ no_adj h (y :: s)).
  intros [H1 H2]. split; [exact H1 | exact (IH H2)].
Qed.

Lemma re_sub_runs_id cls rep s :
  Forall (fun c => cls c = false) s -> re_sub_runs cls rep s = s.
Proof.
  induction 1 as [|c s Hc _ IH]; simpl; [reflexivity|].
  rewrite Hc, IH. reflexivity.
Qed.

Lemma re_sub_runs_in cls rep s c :
  In c (re_sub_runs cls rep s) -> c = rep \/ (In c s /\ cls c = false).
Proof.
  induction s as [|x s IH]; simpl; [tauto|].
  destruct (cls x) eqn:Ex.
  - destruct s as [|y s].
    + simpl. intros [<-|[]]. auto.
    + destruct (cls y) eqn:Ey.
      * intros H. destruct (IH H) as [->|[H1 H2]]; auto.
      * intros [<-|H]; [auto|]. destruct (IH H) as [->|[H1 H2]]; auto.
  - intros [<-|H]; [auto|]. destruct (IH H) as [->|[H1 H2]]; auto.
Qed.

Lemma re_sub_runs_head cls rep c s :
  cls c = false -> re_sub_runs cls rep (c :: s) = c :: re_sub_runs cls rep s.
Proof. simpl. intros ->. reflexivity. Qed.

Lemma collapse_no_adj h s : no_adj h (re_sub_runs (fun c => N.eqb c h) h s).
Proof.
  induction s as [|x s IH]; [exact I|].
  cbn [re_sub_runs]. destruct (N.eqb x h) eqn:Ex.
  - destruct s as [|y s]; [exact I|].
    destruct (N.eqb y h) eqn:Ey; [exact IH|].
    rewrite re_sub_runs_head in * by exact Ey.
    split; [|exact IH]. intros [_ ->]. rewrite N.eqb_refl in Ey. discriminate.
  - destruct (re_sub_runs (fun c => N.eqb c h) h s) eqn:E; [exact I|].
    split; [|exact IH]. intros [-> _]. rewrite N.eqb_refl in Ex. discriminate.
Qed.

Lemma collapse_id h s : no_adj h s -> re_sub_runs (fun c => N.eqb c h) h s = s.
Proof.
  induction s as [|x s IH]; [reflexivity|].
  intros H. cbn [re_sub_runs].
  assert (Hs : no_adj h s) by (destruct s; [exact I | apply H]).
  destruct (N.eqb x h) eqn:Ex.
  - apply N.eqb_eq in Ex. subst x. destruct s as [|y s]; [reflexivity|].
    destruct (N.eqb y h) eqn:Ey.
    + apply N.eqb_eq in Ey. subst y. destruct H as [H _]. exfalso. apply H. auto.
    + f_equal. apply IH. exact Hs.
  - f_equal. apply IH. exact Hs.
Qed.

(** ** Lower case *)

Lemma lower_from_stable U before s :
  Forall (lower_stable U) s -> lower_from U before s = s.
Proof.
  intros H. revert before. induction H as [|c s [Hc1 Hc2] _ IH]; intros before; simpl.
  - reflexivity.
  - unfold lower_char. apply N.eqb_neq in Hc1. rewrite Hc1, Hc2, IH. reflexivity.
Qed.

Lemma lower_from_in U (L : unicode_laws U) before s d :
  In d (lower_from U before s) -> lower_stable U d.
Proof.
  revert before. induction s as [|c s IH]; intros before; simpl; [tauto|].
  intros H. apply in_app_or in H. destruct H as [H|H]; [|eapply IH; exact H].
  unfold lower_char in H. destruct (N.eqb c capital_sigma) eqn:E.
  - destruct H as [<-|[]]. destruct (final_sigma U before s); apply (sigma_stable U L).
  - apply N.eqb_neq in E. exact (lower_closed U L c d E H).
Qed.

(** ** The shape of a branch name *)

Lemma title_to_branch_name_shape U (L : unicode_laws U) title :
  kebab_shape U (title_to_branch_name U title).
Proof.
  unfold title_to_branch_name, py_strip_chars. split.
  - intros c Hc. apply strip_by_in in Hc.
    apply re_sub_runs_in in Hc. destruct Hc as [->|[Hc _]].
    + split; [apply (hyphen_stable U L)|]. split.
      * rewrite N.eqb_refl. apply orb_true_r.
      * rewrite (hyphen_not_space U L). reflexivity.
    + apply re_sub_runs_in in Hc. destruct Hc as [->|[Hc Hcls]].
      * split; [apply (hyphen_stable U L)|]. split.
        -- rewrite N.eqb_refl. apply orb_true_r.
        -- rewrite (hyphen_not_space U L). reflexivity.
      * apply strip_by_in in Hc. unfold re_sub_chars in Hc.
        apply filter_In in Hc. destruct Hc as [Hin Hkeep].
        split; [eapply lower_from_in; eauto|]. split; [|exact Hcls].
        rewrite negb_involutive in Hkeep. exact Hkeep.
  - destruct (strip_by_middle (mem_char [hyphen])
      (re_sub_runs (fun c => N.eqb c hyphen) hyphen
        (re_sub_runs (fun c => isspace U c || N.eqb c underscore) hyphen
          (py_strip U (re_sub_chars
            (fun c => negb (is_word U c || isspace U c || N.eqb c hyphen))
            (py_lower U title)))))) as (a & b & E).
    eapply no_adj_app_l, no_adj_app_r. rewrite <- E. apply collapse_no_adj.
  - apply strip_by_clear.
Qed.

Lemma title_to_branch_name_fixed U r :
  kebab_shape U r -> title_to_branch_name U r = r.
Proof.
  intros [Hc Hr He]. unfold title_to_branch_name, py_strip_chars, py_strip, py_lower.
  rewrite lower_from_stable by (apply Forall_forall; intros c H; apply (Hc c H)).
  assert (E1 : re_sub_chars
                 (fun c => negb (is_word U c || isspace U c || N.eqb c hyphen)) r = r).
  { unfold re_sub_chars. apply forallb_filter_id. apply forallb_forall.
    intros c H. rewrite negb_involutive. apply (Hc c H). }
  rewrite E1.
  assert (Hsp : Forall (fun c => isspace U c = false) r).
  { apply Forall_forall. intros c H. destruct (Hc c H) as (_ & _ & H3).
    apply orb_false_elim in H3. apply H3. }
  destruct (Forall_starts_clear _ _ Hsp) as [Hs1 Hs2].
  rewrite (strip_by_id (isspace U) r Hs1 Hs2).
  rewrite (re_sub_runs_id (fun c => isspace U c || N.eqb c underscore) hyphen r)
    by (apply Forall_forall; intros c H; apply (Hc c H)).
  rewrite (collapse_id _ _ Hr).
  apply strip_by_id; apply He.
Qed.

(** * Rules for handlers *)

Lemma wp_run_eq {A} (m : M A) h out tr Q :
  wp m h Q -> m h = (out, tr) -> Q out tr.
Proof. unfold wp. intros H E. rewrite E in H. exact H. Qed.

Lemma wp_ret {A} (a : A) h Q : Q (Ok a) h -> wp (ret a) h Q.
Proof. exact (fun H => H). Qed.

Lemma wp_exit {A} code h (Q : outcome A -> list event -> Prop) :
  Q (Exit code) h -> wp (exit code) h Q.
Proof. exact (fun H => H). Qed.

Lemma wp_lift {A} (o : outcome A) h Q : Q o h -> wp (lift o) h Q.
Proof. exact (fun H => H). Qed.

Lemma wp_bind {A B} (m : M A) (k : A -> M B) h Q :
  wp m h (fun o h' => match o with
                      | Ok a => wp (k a) h' Q
                      | Exit code => Q (Exit code) h'
                      | Raise e => Q (Raise e) h'
                      end) ->
  wp (bind m k) h Q.
Proof.
  unfold wp, bind. destruct (m h) as [[a|code|e] h']; simpl; auto.
Qed.

Lemma wp_echo msg err h Q : Q (Ok tt) (h ++ [EvEcho msg err]) -> wp (echo msg err) h Q.
Proof. exact (fun H => H). Qed.

Section Rules.
Variable U : unicode_db.
Variable W : world.

Lemma wp_run_git_command cmd h Q :
  (forall res, res = w_run W h cmd ->
     Q (Ok (returncode res, py_strip U (stdout res), py_strip U (stderr res)))
       (h ++ [EvRun cmd res])) ->
  wp (run_git_command U W cmd) h Q.
Proof. intros H. exact (H _ eq_refl). Qed.

Lemma wp_subprocess_run cmd h Q :
  (forall code, code = w_stream W h cmd -> Q (Ok code) (h ++ [EvStream cmd code])) ->
  wp (subprocess_run W cmd) h Q.
Proof. intros H. exact (H _ eq_refl). Qed.

Lemma wp_path_exists p h Q :
  (forall b, b = w_exists W h p -> Q (Ok b) (h ++ [EvExists p b])) ->
  wp (path_exists W p) h Q.
Proof. intros H. exact (H _ eq_refl). Qed.

Lemma wp_which prog h Q :
  (forall b, b = w_which W h prog -> Q (Ok b) (h ++ [EvWhich prog b])) ->
  wp (which W prog) h Q.
Proof. intros H. exact (H _ eq_refl). Qed.

Lemma wp_cwd h Q :
  (forall p, p = w_cwd W h -> Q (Ok p) (h ++ [EvCwd p])) -> wp (cwd W) h Q.
Proof. intros H. exact (H _ eq_refl). Qed.

Lemma wp_symlink_to link target h Q :
  (forall ok, ok = w_symlink W h link target ->
     Q (if ok then Ok tt else Raise OSError) (h ++ [EvSymlink link target ok])) ->
  wp (symlink_to W link target) h Q.
Proof. intros H. exact (H _ eq_refl). Qed.

Lemma wp_console_print_branches rows h Q :
  (forall ok : bool, Q (if ok then Ok tt else Raise RichError) (h ++ [EvPrintBranches rows ok])) ->
  wp (console_print_branches W rows) h Q.
Proof. intros H. exact (H _). Qed.

Lemma wp_console_print_prs rows h Q :
  (forall ok : bool, Q (if ok then Ok tt else Raise RichError) (h ++ [EvPrintPrs rows ok])) ->
  wp (console_print_prs W rows) h Q.
Proof. intros H. exact (H _). Qed.
End Rules.

(** One step of a handler: the rule of its head, then the case analysis the
    handler makes on the answer. *)
Ltac wp_rule :=
  lazymatch goal with
  | |- wp (bind _ _) _ _ => apply wp_bind
  | |- wp (ret _) _ _ => apply wp_ret
  | |- wp (exit _) _ _ => apply wp_exit
  | |- wp (lift _) _ _ => apply wp_lift
  | |- wp (echo _ _) _ _ => apply wp_echo
  | |- wp (run_git_command _ _ _) _ _ => apply wp_run_git_command; intros ? _
  | |- wp (subprocess_run _ _) _ _ => apply wp_subprocess_run; intros ? _
  | |- wp (path_exists _ _) _ _ => apply wp_path_exists; intros ? _
  | |- wp (which _ _) _ _ => apply wp_which; intros ? _
  | |- wp (cwd _) _ _ => apply wp_cwd; intros ? _
  | |- wp (symlink_to _ _ _) _ _ => apply wp_symlink_to; intros [|] _
  | |- wp (console_print_branches _ _) _ _ => apply wp_console_print_branches; intros [|]
  | |- wp (console_print_prs _ _) _ _ => apply wp_console_print_prs; intros [|]
  | |- wp (check_git_repo _) _ _ => unfold check_git_repo
  | |- wp (check_gh _) _ _ => unfold check_gh
  | |- wp (when ?c _) _ _ => unfold when
  | |- wp (if negb ?c then _ else _) _ _ => destruct c eqn:?; cbn [negb]
  | |- wp (if ?c then _ else _) _ _ => destruct c eqn:?
  | |- wp (match ?x with _ => _ end) _ _ => destruct x eqn:?
  end; cbv beta iota zeta.

Ltac wp_run := repeat wp_rule.

(** * BranchNamer *)

Lemma strip_by_all p s : Forall (fun c => p c = true) s -> strip_by p s = [].
Proof.
  intros H. unfold strip_by.
  assert (E : lstrip_by p s = []).
  { induction H as [|c s Hc _ IH]; simpl; [reflexivity|]. rewrite Hc. exact IH. }
  rewrite E. reflexivity.
Qed.

Lemma ascii_db_laws : unicode_laws ascii_db.
Proof.
  split.
  - intros c d Hc. simpl.
    destruct ((65 <=? c) && (c <=? 90))%N eqn:E; intros [<-|[]].
    + apply andb_prop in E. destruct E as [E1 E2].
      apply N.leb_le in E1, E2. split.
      * unfold capital_sigma. lia.
      * simpl. replace ((65 <=? c + 32) && (c + 32 <=? 90))%N with false; [reflexivity|].
        symmetry. apply andb_false_iff. right. apply N.leb_gt. lia.
    + split; [exact Hc|]. simpl. rewrite E. reflexivity.
  - split; split; try discriminate; reflexivity.
  - split; [discriminate | reflexivity].
  - reflexivity.
Qed.

Lemma title_to_branch_name_no_alnum U title :
  Forall (fun c => isalnum U c = false) (py_lower U title) ->
  title_to_branch_name U title = [].
Proof.
  intros H. unfold title_to_branch_name, py_strip_chars.
  apply strip_by_all. apply Forall_forall. intros c Hc.
  assert (G : c = hyphen); [|subst c; reflexivity].
  apply re_sub_runs_in in Hc. destruct Hc as [->|[Hc _]]; [reflexivity|].
  apply re_sub_runs_in in Hc. destruct Hc as [->|[Hc Hcls]]; [reflexivity|].
  apply strip_by_in in Hc. unfold re_sub_chars in Hc.
  apply filter_In in Hc. destruct Hc as [Hin Hkeep].
  rewrite negb_involutive in Hkeep. unfold is_word in Hkeep.
  rewrite Forall_forall in H. rewrite (H c Hin) in Hkeep.
  apply orb_false_elim in Hcls. destruct Hcls as [H1 H2].
  rewrite H1, H2 in Hkeep. simpl in Hkeep. apply N.eqb_eq. exact Hkeep.
Qed.

(** C2: [title_to_branch_name] is a total function, and a second application
    changes nothing: for every Unicode table with the stated laws and every
    title, the name of the name is the name.  A title whose lower-cased text
    has no alphanumeric character maps to the empty string.  On the ASCII
    table, ["Fix Login Bug!!"] maps to ["fix-login-bug"] and
    ["  multiple   spaces_and_underscores "] to
    ["multiple-spaces-and-underscores"]. *)
Theorem title_to_branch_name_idempotent :
  (forall U, unicode_laws U -> forall title,
      title_to_branch_name U (title_to_branch_name U title)
      = title_to_branch_name U title)
  /\ (forall U title,
      Forall (fun c => isalnum U c = false) (py_lower U title) ->
      title_to_branch_name U title = [])
  /\ title_to_branch_name ascii_db (str "Fix Login Bug!!") = str "fix-login-bug"
  /\ title_to_branch_name ascii_db (str "  multiple   spaces_and_underscores ")
     = str "multiple-spaces-and-underscores"
  /\ title_to_branch_name ascii_db (str "!!! ??? ...") = [].
Proof.
  split; [|split; [|split; [|split]]].
  - intros U L title. apply title_to_branch_name_fixed.
    apply title_to_branch_name_shape. exact L.
  - exact title_to_branch_name_no_alnum.
  - vm_compute. reflexivity.
  - vm_compute. reflexivity.
  - vm_compute. reflexivity.
Qed.

Lemma title_to_branch_name_idempotent_witness :
  unicode_laws ascii_db
  /\ title_to_branch_name ascii_db (title_to_branch_name ascii_db (str "Fix Login Bug!!"))
     = title_to_branch_name ascii_db (str "Fix Login Bug!!")
  /\ Forall (fun c => isalnum ascii_db c = false) (py_lower ascii_db (str "!!! ___"))
  /\ title_to_branch_name ascii_db (str "!!! ___") = [].
Proof.
  split; [exact ascii_db_laws|]. split.
  - exact (proj1 title_to_branch_name_idempotent ascii_db ascii_db_laws
                 (str "Fix Login Bug!!")).
  - assert (H : Forall (fun c => isalnum ascii_db c = false)
                       (py_lower ascii_db (str "!!! ___"))).
    { vm_compute. repeat constructor. }
    split; [exact H|].
    exact (proj1 (proj2 title_to_branch_name_idempotent) ascii_db (str "!!! ___") H).
Defined.

(** * Check summaries of [list_prs] *)

Lemma check_status_of_list U fields checks :
  assoc (str "statusCheckRollup") fields = Some (JArr checks) ->
  check_status U (JObj fields)
  = match checks with
    | [] => Ok (question_mark ++ str " No checks")
    | _ :: _ =>
        match count_checks U no_counts checks with
        | Ok c => Ok (format_summary c (List.length checks))
        | Exit code => Exit code
        | Raise e => Raise e
        end
    end.
Proof.
  intros H. unfold check_status, dict_get. rewrite H.
  destruct checks; reflexivity.
Qed.

(** C1: the one-line summary of a PR follows the priority rule on the
    tallied counts: a positive failure count gives ["N/total failed"],
    otherwise a positive pending count gives ["N/total pending"], otherwise
    a positive success count gives ["N/total passed"], otherwise
    ["N/total skipped"]; an empty check list gives the separate "No checks"
    text.  The checks [success, failure, pending] give ["1/3 failed"]. *)
Theorem check_status_priority U fields checks :
  assoc (str "statusCheckRollup") fields = Some (JArr checks) ->
  (checks = [] ->
     check_status U (JObj fields) = Ok (question_mark ++ str " No checks"))
  /\ (forall c, checks <> [] -> count_checks U no_counts checks = Ok c ->
      let total := str_of_Z (Z.of_nat (List.length checks)) in
      ((0 < failure_count c)%N ->
         check_status U (JObj fields)
         = Ok (cross_mark ++ str " " ++ str_of_N (failure_count c) ++ str "/"
               ++ total ++ str " failed"))
      /\ (failure_count c = 0%N -> (0 < pending_count c)%N ->
         check_status U (JObj fields)
         = Ok (hourglass ++ str " " ++ str_of_N (pending_count c) ++ str "/"
               ++ total ++ str " pending"))
      /\ (failure_count c = 0%N -> pending_count c = 0%N ->
          (0 < success_count c)%N ->
         check_status U (JObj fields)
         = Ok (check_mark ++ str " " ++ str_of_N (success_count c) ++ str "/"
               ++ total ++ str " passed"))
      /\ (failure_count c = 0%N -> pending_count c = 0%N ->
          success_count c = 0%N ->
         check_status U (JObj fields)
         = Ok (white_circle ++ str " " ++ str_of_N (skipped_count c) ++ str "/"
               ++ total ++ str " skipped")))
  /\ check_status ascii_db (pull_request (JArr mixed_checks))
     = Ok (cross_mark ++ str " 1/3 failed").
Proof.
  intros H. split; [|split].
  - intros ->. rewrite (check_status_of_list U fields [] H). reflexivity.
  - intros c Hne Hc total.
    rewrite (check_status_of_list U fields checks H).
    destruct checks as [|check rest]; [congruence|]. rewrite Hc.
    unfold format_summary. fold total.
    repeat split.
    + intros Hf. apply N.ltb_lt in Hf. rewrite Hf. reflexivity.
    + intros Hf Hp. apply N.ltb_lt in Hp. rewrite Hf, Hp. reflexivity.
    + intros Hf Hp Hs. apply N.ltb_lt in Hs. rewrite Hf, Hp, Hs. reflexivity.
    + intros Hf Hp Hs. rewrite Hf, Hp, Hs. reflexivity.
  - vm_compute. reflexivity.
Qed.

Lemma check_status_priority_witness :
  assoc (str "statusCheckRollup")
        [(str "number", JInt 7); (str "statusCheckRollup", JArr mixed_checks)]
  = Some (JArr mixed_checks)
  /\ mixed_checks <> []
  /\ count_checks ascii_db no_counts mixed_checks
     = Ok {| success_count := 1; failure_count := 1; pending_count := 1;
             skipped_count := 0 |}
  /\ check_status ascii_db
       (JObj [(str "number", JInt 7); (str "statusCheckRollup", JArr mixed_checks)])
     = Ok (cross_mark ++ str " 1/3 failed").
Proof.
  assert (Ha : assoc (str "statusCheckRollup")
                 [(str "number", JInt 7); (str "statusCheckRollup", JArr mixed_checks)]
               = Some (JArr mixed_checks)) by (vm_compute; reflexivity).
  assert (Hn : mixed_checks <> []) by discriminate.
  assert (Hc : count_checks ascii_db no_counts mixed_checks
               = Ok {| success_count := 1; failure_count := 1; pending_count := 1;
                       skipped_count := 0 |}) by (vm_compute; reflexivity).
  split; [exact Ha|]. split; [exact Hn|]. split; [exact Hc|].
  refine (proj1 (proj1 (proj2 (check_status_priority ascii_db _ _ Ha)) _ Hn Hc) _).
  vm_compute. reflexivity.
Defined.

(** C9 (the code fails the claim): a check run whose [conclusion] is [null],
    or a status context whose [state] is [null], makes the tally raise
    [AttributeError] ([None] has no [upper]); [list_prs] dies of it before
    it prints anything. *)
Theorem list_prs_null_conclusion_raises :
  (forall U c, count_check U c (check_run JNull "IN_PROGRESS") = Raise AttributeError)
  /\ (forall U c, count_check U c (status_context JNull) = Raise AttributeError)
  /\ (forall U, check_status U (pull_request (JArr [unfinished_run]))
                = Raise AttributeError)
  /\ unfinished_loads (py_strip ascii_db (unfinished_doc ++ [newline]))
     = Some (JArr [pull_request (JArr [unfinished_run])])
  /\ list_prs ascii_db (scripted unfinished_world) unfinished_loads (str "@me") []
     = (Raise AttributeError,
        [EvExists (Path (str ".git")) true;
         EvWhich (str "gh") true;
         EvRun (gh_pr_list (str "@me")) (completed 0 (unfinished_doc ++ [newline]))])
  /\ exit_status (fst (list_prs ascii_db (scripted unfinished_world) unfinished_loads
                                (str "@me") [])) = 1%Z.
Proof.
  split; [|split; [|split; [|split; [|split]]]].
  - intros U c. reflexivity.
  - intros U c. reflexivity.
  - intros U. reflexivity.
  - vm_compute. reflexivity.
  - vm_compute. reflexivity.
  - vm_compute. reflexivity.
Qed.

(** * move *)

(** Membership of a captured run in an explicit history. *)
Ltac in_trace H :=
  cbn [In app] in H;
  repeat (destruct H as [H|H];
          [ first [ discriminate H
                  | injection H; intros;
                    first [ match goal with
                            | Hc : _ = _ :> list text |- _ => cbv in Hc; discriminate Hc
                            end
                          | subst ] ]
          | ]);
  try contradiction.

Lemma move_spec U W branch_name :
  wp (move U W branch_name) [] (fun out tr =>
    (forall res, first_run git_status tr = Some res -> reports_changes U res = false ->
       forallb (fun cmd => negb (is_stash cmd)) (ran tr) = true)
    /\ (forall res, In (EvRun git_stash_pop res) tr -> returncode res <> 0%Z ->
        out = Exit 1
        /\ (exists pushed, In (EvRun (git_stash_push branch_name) pushed) tr
                           /\ returncode pushed = 0%Z)
        /\ exists h, tr = h ++ [EvRun git_stash_pop res;
                                EvEcho (str "Error applying stashed changes: "
                                        ++ py_strip U (stderr res)) true;
                                EvEcho stash_hint false])).
Proof.
  unfold move. wp_run.
  all: cbn [app]; split.
  all: try (intros rr E1 E2; simpl in E1 |- *; try reflexivity;
            unfold reports_changes in E2; inversion E1; subst; congruence).
  all: intros rr Hin Hrc; in_trace Hin.
  all: try (exfalso; apply Hrc; apply Z.eqb_eq; assumption).
  split; [reflexivity|]. split.
  - eexists. split; [cbn [In]; do 4 right; left; reflexivity|].
    apply Z.eqb_eq. assumption.
  - eexists. cbn [app].
    match goal with
    | |- ?l = _ => change l with (firstn 12 l ++ skipn 12 l)
    end.
    reflexivity.
Qed.

(** C6: when the git-status query of a run of [move] reports no uncommitted
    changes, no [git stash] command is started in that run, neither the push
    nor the pop; and when the [git stash pop] of a run fails, a stash had
    been pushed, and [move] stops there with exit code 1 after the message
    that points the user at the stash. *)
Theorem move_stash_discipline U W branch_name out tr :
  move U W branch_name [] = (out, tr) ->
  (forall res, first_run git_status tr = Some res -> reports_changes U res = false ->
     forall cmd, In cmd (ran tr) -> is_stash cmd = false)
  /\ (forall res, In (EvRun git_stash_pop res) tr -> returncode res <> 0%Z ->
      out = Exit 1
      /\ (exists pushed, In (EvRun (git_stash_push branch_name) pushed) tr
                         /\ returncode pushed = 0%Z)
      /\ exists h, tr = h ++ [EvRun git_stash_pop res;
                              EvEcho (str "Error applying stashed changes: "
                                      ++ py_strip U (stderr res)) true;
                              EvEcho stash_hint false]).
Proof.
  intros E. destruct (wp_run_eq _ _ _ _ _ (move_spec U W branch_name) E) as [H1 H2].
  split; [|exact H2].
  intros res Hq Hc cmd Hin.
  pose proof (H1 res Hq Hc) as Hall. rewrite forallb_forall in Hall.
  apply negb_true_iff. exact (Hall cmd Hin).
Qed.

Lemma move_stash_discipline_witness :
  let clean := move ascii_db (scripted clean_tree) (str "topic") [] in
  let dirty := move ascii_db (scripted dirty_tree) (str "topic") [] in
  let failed := {| returncode := 1; stdout := [];
                   stderr := line "CONFLICT (content): Merge conflict in notes.txt" |} in
  (first_run git_status (snd clean) = Some (completed 0 [])
   /\ reports_changes ascii_db (completed 0 []) = false
   /\ forall cmd, In cmd (ran (snd clean)) -> is_stash cmd = false)
  /\ (In (EvRun git_stash_pop failed) (snd dirty)
      /\ returncode failed <> 0%Z
      /\ fst dirty = Exit 1).
Proof.
  intros clean dirty failed.
  assert (Hq : first_run git_status (snd clean) = Some (completed 0 []))
    by (vm_compute; reflexivity).
  assert (Hc : reports_changes ascii_db (completed 0 []) = false)
    by (vm_compute; reflexivity).
  assert (Hin : In (EvRun git_stash_pop failed) (snd dirty))
    by (vm_compute; do 12 right; left; reflexivity).
  assert (Hrc : returncode failed <> 0%Z) by discriminate.
  split.
  - split; [exact Hq|]. split; [exact Hc|].
    exact (proj1 (move_stash_discipline ascii_db (scripted clean_tree) (str "topic")
                    (fst clean) (snd clean) (surjective_pairing clean))
                 (completed 0 []) Hq Hc).
  - split; [exact Hin|]. split; [exact Hrc|].
    exact (proj1 (proj2 (move_stash_discipline ascii_db (scripted dirty_tree) (str "topic")
                           (fst dirty) (snd dirty) (surjective_pairing dirty))
                        failed Hin Hrc)).
Defined.

(** * cherry *)

Lemma wp_cherry_pick_each U W commits : forall total i h Q,
  (forall t, forallb cherry_pick_event t = true -> Q (Ok tt) (h ++ t)) ->
  (forall t, forallb cherry_pick_event t = true -> Q (Exit 1) (h ++ t)) ->
  wp (cherry_pick_each U W total i commits) h Q.
Proof.
  induction commits as [|commit_hash rest IH]; intros total i h Q Hok Hexit.
  - cbn [cherry_pick_each]. apply wp_ret.
    rewrite <- (app_nil_r h). apply Hok. reflexivity.
  - cbn [cherry_pick_each]. wp_run.
    all: try (apply IH; intros t Ht; repeat rewrite <- app_assoc; cbn [app];
              [apply Hok | apply Hexit]; simpl; exact Ht).
    all: repeat rewrite <- app_assoc; cbn [app]; apply Hexit; reflexivity.
Qed.

Ltac wp_step :=
  first [ wp_rule
        | lazymatch goal with
          | |- wp (cherry_pick_each _ _ _ _ _) _ _ =>
              apply wp_cherry_pick_each; intros ? ?
          end; cbv beta iota zeta ].

Lemma cherry_spec U W title merge n body :
  wp (cherry U W title merge (Some n) body) [] (fun out tr =>
    forall res, first_run git_status tr = Some res -> reports_changes U res = true ->
      out = Exit 1
      /\ ran tr = [git_rev_parse_branch; git_status]
      /\ (exists msg, last (echoed tr) ([], false) = (msg, true))
      /\ (returncode res = 0%Z ->
          exists h, tr = h ++ [EvRun git_status res;
                               EvEcho (str "Error: Cannot use -n flag when there are unstaged commits.") true;
                               EvEcho (str "Please commit or stash your changes first.") true])).
Proof.
  unfold cherry. repeat wp_step.
  all: repeat rewrite <- app_assoc; cbn [app].
  all: intros rr E1 E2; cbn [first_run git_status cmd_eqb] in E1.
  all: try discriminate E1.
  all: simpl in E1; inversion E1; subst; unfold reports_changes in E2.
  all: try congruence.
  all: split; [reflexivity|]; split; [reflexivity|]; split; [eexists; reflexivity|].
  all: intros Hrc.
  all: first [ exfalso;
               match goal with
               | H : (returncode _ =? 0)%Z = false |- _ =>
                   apply Z.eqb_neq in H; contradiction
               end
             | eexists;
               match goal with
               | |- ?l = _ => change l with (firstn 4 l ++ skipn 4 l)
               end;
               reflexivity ].
Qed.

(** C3: a run of [cherry] with [--num] given (any value, zero or not) whose
    git-status query reports uncommitted changes ends with exit code 1 after
    an error message; the only processes it has started are the two queries
    [git rev-parse --abbrev-ref HEAD] and [git status --porcelain], so no
    add, commit, checkout, cherry-pick or push; this for every title, every
    [--merge] and every [--body]. *)
Theorem cherry_rejects_num_with_changes U W title merge n body out tr res :
  cherry U W title merge (Some n) body [] = (out, tr) ->
  first_run git_status tr = Some res ->
  reports_changes U res = true ->
  out = Exit 1
  /\ ran tr = [git_rev_parse_branch; git_status]
  /\ (exists msg, last (echoed tr) ([], false) = (msg, true))
  /\ (returncode res = 0%Z ->
      exists h, tr = h ++ [EvRun git_status res;
                           EvEcho (str "Error: Cannot use -n flag when there are unstaged commits.") true;
                           EvEcho (str "Please commit or stash your changes first.") true]).
Proof.
  intros E. exact (wp_run_eq _ _ _ _ _ (cherry_spec U W title merge n body) E res).
Qed.

Lemma cherry_rejects_num_with_changes_witness :
  let run := cherry ascii_db (scripted dirty_tree) (str "Fix login") true (Some 2%Z)
                    None [] in
  let res := completed 0 (line " M notes.txt") in
  first_run git_status (snd run) = Some res
  /\ reports_changes ascii_db res = true
  /\ fst run = Exit 1
  /\ ran (snd run) = [git_rev_parse_branch; git_status].
Proof.
  intros run res.
  assert (Hq : first_run git_status (snd run) = Some res) by (vm_compute; reflexivity).
  assert (Hc : reports_changes ascii_db res = true) by (vm_compute; reflexivity).
  split; [exact Hq|]. split; [exact Hc|].
  pose proof (cherry_rejects_num_with_changes ascii_db (scripted dirty_tree)
                (str "Fix login") true 2%Z None (fst run) (snd run) res
                (surjective_pairing run) Hq Hc) as H.
  exact (conj (proj1 H) (proj1 (proj2 H))).
Defined.

(** * Worktrees *)

Lemma bind_ok {A B} (m : M A) (k : A -> M B) h a h' :
  m h = (Ok a, h') -> bind m k h = k a h'.
Proof. intros E. unfold bind. rewrite E. reflexivity. Qed.

Lemma ran_app a b : ran (a ++ b) = ran a ++ ran b.
Proof. apply flat_map_app. Qed.

Lemma symlinks_app a b : symlinks (a ++ b) = symlinks a ++ symlinks b.
Proof. apply flat_map_app. Qed.

Lemma get_repo_name_spec U W h :
  wp (get_repo_name U W) h (fun o h' =>
    exists t, h' = h ++ t /\ ran t = [git_remote_url] /\ symlinks t = []).
Proof.
  unfold get_repo_name. wp_run.
  all: repeat rewrite <- app_assoc; eexists; split; [reflexivity|]; split; reflexivity.
Qed.

Lemma get_main_worktree_spec U W h :
  wp (get_main_worktree U W) h (fun o h' =>
    exists t, h' = h ++ t /\ ran t = [git_worktree_porcelain] /\ symlinks t = []).
Proof.
  unfold get_main_worktree. wp_run.
  all: repeat rewrite <- app_assoc; eexists; split; [reflexivity|]; split; reflexivity.
Qed.

(** C7: when the sibling path [{parent of the main worktree}/{repo}-{branch}]
    that [wt_create] computes exists, the command prints an error and ends
    with exit code 1; the only processes it has started are the two queries
    that [get_repo_name] and [get_main_worktree] make, so no
    [git worktree add], and it has created no symbolic link. *)
Theorem wt_create_refuses_existing_path
        U W branch new_branch shell repo_name main_worktree h2 h3 :
  w_exists W [] (Path (str ".git")) = true ->
  get_repo_name U W [EvExists (Path (str ".git")) true] = (Ok repo_name, h2) ->
  get_main_worktree U W h2 = (Ok main_worktree, h3) ->
  let worktree_path :=
    joinpath (parent main_worktree) (repo_name ++ str "-" ++ branch) in
  w_exists W h3 worktree_path = true ->
  let tr := h3 ++ [EvExists worktree_path true;
                   EvEcho (str "Error: Directory already exists: "
                           ++ path_str worktree_path) true] in
  wt_create U W branch new_branch shell [] = (Exit 1, tr)
  /\ ran tr = [git_remote_url; git_worktree_porcelain]
  /\ symlinks tr = [].
Proof.
  intros Hgit Hrepo Hmain worktree_path Hpresent tr.
  assert (Hcheck : check_git_repo W [] = (Ok tt, [EvExists (Path (str ".git")) true])).
  { unfold check_git_repo, bind, path_exists, when. rewrite Hgit. reflexivity. }
  split.
  - unfold wt_create.
    rewrite (bind_ok _ _ _ _ _ Hcheck), (bind_ok _ _ _ _ _ Hrepo),
            (bind_ok _ _ _ _ _ Hmain).
    fold worktree_path. unfold bind at 1, path_exists at 1.
    rewrite Hpresent. unfold tr. cbn. rewrite <- app_assoc. reflexivity.
  - destruct (wp_run_eq _ _ _ _ _ (get_repo_name_spec U W _) Hrepo)
      as (t1 & -> & Hr1 & Hs1).
    destruct (wp_run_eq _ _ _ _ _ (get_main_worktree_spec U W _) Hmain)
      as (t2 & -> & Hr2 & Hs2).
    unfold tr. rewrite !ran_app, !symlinks_app, Hr1, Hr2, Hs1, Hs2.
    split; reflexivity.
Qed.

Lemma wt_create_refuses_existing_path_witness :
  let W := scripted occupied_sibling in
  let git := EvExists (Path (str ".git")) true in
  let r1 := completed 0 (line "https://github.com/acme/repo") in
  let r2 := completed 0 (line "worktree /home/u/repo" ++ line "HEAD 1111111"
                         ++ line "branch refs/heads/main") in
  let h2 := [git; EvRun git_remote_url r1] in
  let h3 := [git; EvRun git_remote_url r1; EvRun git_worktree_porcelain r2] in
  w_exists W [] (Path (str ".git")) = true
  /\ get_repo_name ascii_db W [git] = (Ok (str "repo"), h2)
  /\ get_main_worktree ascii_db W h2 = (Ok (Path (str "/home/u/repo")), h3)
  /\ w_exists W h3 (Path (str "/home/u/repo-feat")) = true
  /\ fst (wt_create ascii_db W (str "feat") true false []) = Exit 1
  /\ ran (snd (wt_create ascii_db W (str "feat") true false []))
     = [git_remote_url; git_worktree_porcelain].
Proof.
  intros W git r1 r2 h2 h3.
  assert (H1 : w_exists W [] (Path (str ".git")) = true) by (vm_compute; reflexivity).
  assert (H2 : get_repo_name ascii_db W [git] = (Ok (str "repo"), h2))
    by (vm_compute; reflexivity).
  assert (H3 : get_main_worktree ascii_db W h2 = (Ok (Path (str "/home/u/repo")), h3))
    by (vm_compute; reflexivity).
  assert (H4 : w_exists W h3
                 (joinpath (parent (Path (str "/home/u/repo")))
                           (str "repo" ++ str "-" ++ str "feat")) = true)
    by (vm_compute; reflexivity).
  split; [exact H1|]. split; [exact H2|]. split; [exact H3|].
  split; [vm_compute; reflexivity|].
  destruct (wt_create_refuses_existing_path ascii_db W (str "feat") true false
              (str "repo") (Path (str "/home/u/repo")) h2 h3 H1 H2 H3 H4)
    as (E & Hran & _).
  rewrite E. split; [reflexivity | exact Hran].
Defined.

(** C4 (the code fails the claim).  In [/home/u/widget], cloned from
    [https://github.com/acme/widget.git] and holding an [.envrc],
    [rstrip(".git")] cuts the repository name down to [widge]:
    [wt_create feat] makes the worktree [/home/u/widge-feat] and in it the
    link [.envrc -> ../widge/.envrc], which leads to [/home/u/widge/.envrc]
    and not to the [.envrc] of the main working copy. *)
Theorem wt_create_envrc_link_dangles :
  let run := wt_create ascii_db (scripted widget_clone) (str "feat") true false [] in
  let main_envrc := Path (str "/home/u/widget/.envrc") in
  let link := Path (str "/home/u/widge-feat/.envrc") in
  let target := Path (str "../widge/.envrc") in
  fst run = Ok tt
  /\ In (EvExists main_envrc true) (snd run)
  /\ symlinks (snd run) = [(link, target)]
  /\ resolve_link link target = Path (str "/home/u/widge/.envrc")
  /\ resolve_link link target <> main_envrc.
Proof.
  vm_compute. repeat split; try reflexivity; try discriminate.
  do 6 right. left. reflexivity.
Qed.

(** C5 (the code fails the claim).  For the worktrees [repo], [repo-featA]
    and [/tmp/scratch] the default listing shows the first two, and [--all]
    shows the listing as git printed it.  But the path of an entry is taken
    as the first blank-separated field of its line: with the repository under
    [/home/u/my projects/] both the main worktree and its sibling
    [repo-featA] are read as [/home/u/my], none is recognised, and the
    default listing shows neither. *)
Theorem wt_list_loses_paths_with_spaces :
  echoed (snd (wt_list ascii_db (scripted three_worktrees) false []))
  = [(str "/home/u/repo        1111111 [main]" ++ [newline]
      ++ str "/home/u/repo-featA  2222222 [featA]", false)]
  /\ get_main_worktree ascii_db (scripted spaced_home) []
     = (Ok (Path (str "/home/u/my projects/repo")),
        [EvRun git_worktree_porcelain (w_run (scripted spaced_home) [] git_worktree_porcelain)])
  /\ echoed (snd (wt_list ascii_db (scripted spaced_home) true []))
     = [(str "/home/u/my projects/repo        1111111 [main]" ++ [newline]
         ++ str "/home/u/my projects/repo-featA  2222222 [featA]", false)]
  /\ echoed (snd (wt_list ascii_db (scripted spaced_home) false []))
     = [(str "No ghg-managed worktrees found (use --all to see all worktrees)", false)].
Proof.
  vm_compute. repeat split; reflexivity.
Qed.

(** ** Splitting *)

Lemma split_on_nonempty sep s : split_on sep s <> [].
Proof.
  destruct s as [|c s]; simpl; [discriminate|].
  destruct (N.eqb c sep); [discriminate|].
  destruct (split_on sep s); discriminate.
Qed.

Lemma split_on_no_sep sep s : existsb (N.eqb sep) s = false -> split_on sep s = [s].
Proof.
  induction s as [|c s IH]; simpl; [reflexivity|].
  intros H. apply orb_false_elim in H. destruct H as [H1 H2].
  rewrite N.eqb_sym, H1, (IH H2). reflexivity.
Qed.

Lemma split_on_app sep a b :
  existsb (N.eqb sep) a = false ->
  split_on sep (a ++ sep :: b) = a :: split_on sep b.
Proof.
  induction a as [|c a IH]; simpl.
  - intros _. rewrite N.eqb_refl. reflexivity.
  - intros H. apply orb_false_elim in H. destruct H as [H1 H2].
    rewrite N.eqb_sym, H1, (IH H2). reflexivity.
Qed.

Lemma split_on_two sep x b : exists w v vs, split_on sep (x ++ sep :: b) = w :: v :: vs.
Proof.
  induction x as [|c x (w & v & vs & IH)]; simpl.
  - rewrite N.eqb_refl. destruct (split_on sep b) as [|v vs] eqn:E.
    + exfalso. exact (split_on_nonempty sep b E).
    + exists [], v, vs. reflexivity.
  - destruct (N.eqb c sep).
    + rewrite IH. exists [], w, (v :: vs). reflexivity.
    + rewrite IH. exists (c :: w), v, vs. reflexivity.
Qed.

Lemma last_segment_app sep x b :
  last_segment sep (x ++ sep :: b) = last_segment sep b.
Proof.
  unfold last_segment. induction x as [|c x IH]; simpl.
  - rewrite N.eqb_refl. destruct (split_on sep b) eqn:E; [|reflexivity].
    exfalso. exact (split_on_nonempty sep b E).
  - destruct (split_on_two sep x b) as (w & v & vs & E).
    rewrite E in IH |- *. destruct (N.eqb c sep); exact IH.
Qed.

Lemma last_segment_no_sep sep s :
  existsb (N.eqb sep) s = false -> last_segment sep s = s.
Proof. intros H. unfold last_segment. rewrite (split_on_no_sep sep s H). reflexivity. Qed.

Lemma last_segment_clear sep s : existsb (N.eqb sep) (last_segment sep s) = false.
Proof.
  induction s as [|c s IH]; [reflexivity|].
  destruct (N.eqb sep c) eqn:E.
  - apply N.eqb_eq in E. subst c.
    change (sep :: s) with ([] ++ sep :: s).
    rewrite (last_segment_app sep [] s). exact IH.
  - destruct (existsb (N.eqb sep) s) eqn:Es.
    + apply existsb_exists in Es. destruct Es as (d & Hd & Ed).
      apply N.eqb_eq in Ed. subst d. apply in_split in Hd.
      destruct Hd as (x & b & ->).
      change (c :: x ++ sep :: b) with ((c :: x) ++ sep :: b).
      rewrite (last_segment_app sep (c :: x) b).
      rewrite (last_segment_app sep x b) in IH. exact IH.
    + rewrite last_segment_no_sep; simpl; rewrite E, Es; reflexivity.
Qed.

Lemma last_segment_split sep s :
  existsb (N.eqb sep) s = true -> exists x, s = x ++ sep :: last_segment sep s.
Proof.
  induction s as [|c s IH]; simpl; [discriminate|].
  destruct (N.eqb sep c) eqn:E.
  - apply N.eqb_eq in E. subst c. intros _.
    destruct (existsb (N.eqb sep) s) eqn:Es.
    + destruct (IH eq_refl) as [x Hx]. exists (sep :: x).
      change (sep :: s) with ([] ++ sep :: s) at 2.
      rewrite (last_segment_app sep [] s). simpl. f_equal. exact Hx.
    + exists []. change (sep :: s) with ([] ++ sep :: s) at 2.
      rewrite (last_segment_app sep [] s).
      rewrite (last_segment_no_sep sep s Es). reflexivity.
  - simpl. intros Es. destruct (IH Es) as [x Hx]. exists (c :: x).
    assert (G : last_segment sep (c :: s) = last_segment sep s).
    { pose proof (last_segment_app sep (c :: x) (last_segment sep s)) as G1.
      simpl in G1. rewrite <- Hx in G1. rewrite G1.
      apply last_segment_no_sep, last_segment_clear. }
    rewrite G. simpl. f_equal. exact Hx.
Qed.

Lemma text_eqb_eq a b : text_eqb a b = true <-> a = b.
Proof.
  revert b. induction a as [|x a IH]; intros [|y b]; simpl; split;
    try discriminate; try reflexivity.
  - intros H. apply andb_prop in H. destruct H as [H1 H2].
    apply N.eqb_eq in H1. apply IH in H2. congruence.
  - intros H. injection H as -> ->. rewrite N.eqb_refl. apply IH. reflexivity.
Qed.

Lemma split_lines ls :
  forallb single_line ls = true -> ls <> [] ->
  split_on newline (join [newline] ls) = ls.
Proof.
  induction ls as [|p ls IH]; [congruence|]. intros H _.
  simpl in H. apply andb_prop in H. destruct H as [Hp Hls].
  unfold single_line in Hp. apply negb_true_iff in Hp.
  destruct ls as [|q ls].
  - simpl. apply split_on_no_sep. exact Hp.
  - change (join [newline] (p :: q :: ls)) with (p ++ newline :: join [newline] (q :: ls)).
    rewrite (split_on_app newline p _ Hp). f_equal. apply IH; [exact Hls|discriminate].
Qed.

Lemma single_line_app a b : single_line (a ++ b) = single_line a && single_line b.
Proof. unfold single_line. rewrite existsb_app. apply negb_orb. Qed.

Lemma entry_lines_single e :
  entry_ok e = true -> forallb single_line (entry_lines e) = true.
Proof.
  unfold entry_ok, entry_lines. intros H.
  apply andb_prop in H. destruct H as [H H3]. apply andb_prop in H. destruct H as [H1 H2].
  cbn [forallb]. rewrite !single_line_app, H1, H2.
  destruct (wt_ref e) as [ref|].
  - apply andb_prop in H3. destruct H3 as [H3 _]. rewrite single_line_app, H3. reflexivity.
  - reflexivity.
Qed.

Lemma porcelain_lines_single es :
  forallb entry_ok es = true -> forallb single_line (porcelain_lines es) = true.
Proof.
  induction es as [|e es IH]; [reflexivity|]. intros H.
  cbn [forallb] in H. apply andb_prop in H. destruct H as [He Hes].
  cbn [porcelain_lines]. rewrite forallb_app, (entry_lines_single e He).
  destruct es; [reflexivity|]. cbn [forallb andb]. exact (IH Hes).
Qed.

Lemma wt_delete_spec U W branch force keep_branch :
  wp (wt_delete U W branch force keep_branch) [] (fun out tr =>
    forall res, first_run git_worktree_porcelain tr = Some res ->
      returncode res = 0%Z ->
      match scan_worktrees branch None (split_on newline (py_strip U (stdout res))) with
      | Some p =>
          nth_error (ran tr) 1 = Some (git_worktree_remove p force)
          /\ forall cmd, In cmd (ran tr) ->
               cmd = git_worktree_porcelain
               \/ cmd = git_worktree_remove p force
               \/ cmd = git_branch_delete branch
      | None => out = Exit 1 /\ ran tr = [git_worktree_porcelain]
      end).
Proof.
  unfold wt_delete, find_worktree_by_branch. wp_run.
  all: repeat rewrite <- app_assoc; cbn [app].
  all: intros rr E1 Hrc; cbn [first_run git_worktree_porcelain cmd_eqb] in E1.
  all: try discriminate E1.
  all: simpl in E1; inversion E1; subst.
  all: try (exfalso; match goal with
                     | H : (returncode _ =? 0)%Z = false |- _ =>
                         apply Z.eqb_neq in H; contradiction
                     end).
  all: match goal with H : scan_worktrees _ _ _ = _ |- _ => rewrite H end.
  all: try (split; reflexivity).
  all: split; [reflexivity|].
  all: intros cmd Hin; cbn [ran flat_map app In] in Hin.
  all: unfold git_worktree_remove, git_branch_delete, git_worktree_porcelain.
  all: intuition auto.
Qed.

(** The last segment of a line holds no slash, so a name with a slash equals
    none: the scan of [find_worktree_by_branch] finds nothing, whatever the
    listing. *)
Lemma scan_misses_slashed_name branch lines : forall cur,
  has_slash branch = true -> scan_worktrees branch cur lines = None.
Proof.
  induction lines as [|l lines IH]; intros cur Hb; [reflexivity|].
  cbn [scan_worktrees].
  destruct (startswith (str "worktree ") l); [apply IH; exact Hb|].
  destruct (startswith (str "branch ") l && _); [|apply IH; exact Hb].
  destruct (text_eqb (last_segment slash l) branch) eqn:E; [|apply IH; exact Hb].
  apply text_eqb_eq in E. subst branch.
  unfold has_slash in Hb. rewrite last_segment_clear in Hb. discriminate Hb.
Qed.

Lemma wt_delete_slashed_spec U W branch force keep_branch :
  has_slash branch = true ->
  wp (wt_delete U W branch force keep_branch) [] (fun out tr =>
    out = Exit 1
    /\ forallb (cmd_eqb git_worktree_porcelain) (ran tr) = true
    /\ symlinks tr = []).
Proof.
  intros Hb. unfold wt_delete, find_worktree_by_branch. wp_run.
  all: try match goal with
           | H : scan_worktrees _ _ _ = Some _ |- _ =>
               rewrite (scan_misses_slashed_name _ _ _ Hb) in H; discriminate H
           end.
  all: repeat split; reflexivity.
Qed.

(** C10 (the code fails its own description).  [find_worktree_by_branch]
    compares the given name with the last slash-separated segment of each
    [branch] line, and not with the branch of the line.  So no branch whose
    name holds a slash is ever found: [wt_delete] ends with exit code 1 and
    removes nothing, in every world.  With a worktree on [feature/x],
    [wt delete feature/x] reports that there is no worktree for the branch;
    and [wt delete x] removes that worktree, of another branch, and then asks
    git to delete the branch [x]. *)
Theorem wt_delete_misses_slashed_branch :
  (forall U W branch force keep_branch,
      has_slash branch = true ->
      fst (wt_delete U W branch force keep_branch []) = Exit 1
      /\ forallb (cmd_eqb git_worktree_porcelain)
                 (ran (snd (wt_delete U W branch force keep_branch []))) = true)
  /\ py_strip ascii_db (stdout (w_run (scripted feature_worktrees) [] git_worktree_porcelain))
     = porcelain feature_entries
  /\ wt_delete ascii_db (scripted feature_worktrees) (str "feature/x") false false []
     = (Exit 1,
        [EvExists (Path (str ".git")) true;
         EvRun git_worktree_porcelain (completed 0 (porcelain feature_entries ++ [newline]));
         EvEcho (str "Error: No worktree found for branch: feature/x") true])
  /\ ran (snd (wt_delete ascii_db (scripted feature_worktrees) (str "x") false false []))
     = [git_worktree_porcelain;
        git_worktree_remove (Path (str "/home/u/repo-x")) false;
        git_branch_delete (str "x")].
Proof.
  split; [|split; [|split]].
  - intros U W branch force keep_branch Hb.
    pose proof (wt_delete_slashed_spec U W branch force keep_branch Hb) as H.
    unfold wp in H. destruct H as (H1 & H2 & _). split; assumption.
  - vm_compute. reflexivity.
  - vm_compute. reflexivity.
  - vm_compute. reflexivity.
Qed.

(** * Exit codes *)

Lemma py_iter_no_exit v code : py_iter v <> Exit code.
Proof. destruct v; discriminate. Qed.

Lemma count_check_no_exit U c check code : count_check U c check <> Exit code.
Proof.
  unfold count_check. destruct check; try discriminate.
  repeat match goal with
         | |- context [if ?b then _ else _] => destruct b
         | |- context [match ?x with _ => _ end] => destruct x
         end; discriminate.
Qed.

Lemma count_checks_no_exit U checks : forall c code, count_checks U c checks <> Exit code.
Proof.
  induction checks as [|check rest IH]; intros c code; simpl; [discriminate|].
  destruct (count_check U c check) eqn:E; [apply IH| |discriminate].
  exfalso. exact (count_check_no_exit U c check _ E).
Qed.

Lemma check_status_no_exit U pr code : check_status U pr <> Exit code.
Proof.
  unfold check_status, dict_get. destruct pr; try discriminate.
  destruct (negb _); [discriminate|].
  destruct (py_iter _) eqn:E; [| |discriminate].
  - destruct (count_checks U no_counts a) eqn:E2; try discriminate.
    exfalso. exact (count_checks_no_exit U a _ _ E2).
  - exfalso. exact (py_iter_no_exit _ _ E).
Qed.

Lemma dict_item_no_exit d key code : dict_item d key <> Exit code.
Proof. unfold dict_item. destruct d; try discriminate. destruct (assoc _ _); discriminate. Qed.

Lemma pr_table_row_no_exit U pr code : pr_table_row U pr <> Exit code.
Proof.
  unfold pr_table_row. destruct (check_status U pr) eqn:E; [| |discriminate].
  - destruct (dict_item pr (str "number")) eqn:E1;
      [|exfalso; exact (dict_item_no_exit _ _ _ E1)|];
      destruct (dict_item pr (str "title")) eqn:E2;
      try (exfalso; exact (dict_item_no_exit _ _ _ E2));
      destruct (dict_item pr (str "headRefName")) eqn:E3;
      try (exfalso; exact (dict_item_no_exit _ _ _ E3)); try discriminate.
    destruct (renderable _ && renderable _); discriminate.
  - exfalso. exact (check_status_no_exit U pr _ E).
Qed.

Lemma pr_table_rows_no_exit U prs : forall code, pr_table_rows U prs <> Exit code.
Proof.
  induction prs as [|pr rest IH]; intros code; simpl; [discriminate|].
  destruct (pr_table_row U pr) eqn:E; [| |discriminate].
  - destruct (pr_table_rows U rest) as [rows|code'|e] eqn:E2; try discriminate.
    exfalso. exact (IH code' eq_refl).
  - exfalso. exact (pr_table_row_no_exit U pr _ E).
Qed.

Lemma wt_list_lines_no_exit U repo_name main_worktree lines :
  forall filtered code,
    wt_list_lines U repo_name main_worktree lines filtered <> Exit code.
Proof.
  induction lines as [|l rest IH]; intros filtered code; simpl; [discriminate|].
  destruct (negb (nonempty l)); [apply IH|].
  destruct (py_split_ws U l); [discriminate|].
  destruct (_ || _); apply IH.
Qed.

Section ExitRule.
Variables streams captured : list text -> bool.

Lemma rule_ok u tr : exit_code_rule streams captured (Ok u) tr.
Proof. left. exists u. reflexivity. Qed.

Lemma rule_exit1 tr : exit_code_rule streams captured (Exit 1) tr.
Proof. right. left. reflexivity. Qed.

Lemma rule_raise e tr : exit_code_rule streams captured (Raise e) tr.
Proof. right. right. left. exists e. reflexivity. Qed.

Lemma rule_stream code cmd tr :
  (code =? 0)%Z = false -> In (EvStream cmd code) tr -> streams cmd = true ->
  exit_code_rule streams captured (Exit code) tr.
Proof.
  intros Hc Hin Hs. apply Z.eqb_neq in Hc.
  right. right. right. exists code. split; [reflexivity|].
  split; [exact Hc|]. left. exists cmd. split; assumption.
Qed.

Lemma rule_captured res cmd tr :
  (returncode res =? 0)%Z = false -> In (EvRun cmd res) tr -> captured cmd = true ->
  exit_code_rule streams captured (Exit (returncode res)) tr.
Proof.
  intros Hc Hin Hs. apply Z.eqb_neq in Hc.
  right. right. right. exists (returncode res). split; [reflexivity|].
  split; [exact Hc|]. right. exists cmd, res. repeat split; assumption.
Qed.
End ExitRule.

Ltac find_in :=
  repeat lazymatch goal with
         | |- In _ (_ :: _) => first [left; reflexivity | right]
         | |- In _ (_ ++ _) => apply in_or_app; right
         end.

Ltac wp_more :=
  first [ wp_step
        | lazymatch goal with
          | |- wp (get_repo_name _ _) _ _ => unfold get_repo_name
          | |- wp (get_main_worktree _ _) _ _ => unfold get_main_worktree
          | |- wp (find_worktree_by_branch _ _ _) _ _ => unfold find_worktree_by_branch
          | |- match ?x with _ => _ end => destruct x eqn:?
          end; cbv beta iota zeta ].

Ltac no_exit :=
  exfalso;
  match goal with
  | H : py_iter _ = Exit _ |- _ => exact (py_iter_no_exit _ _ H)
  | H : pr_table_rows _ _ = Exit _ |- _ => exact (pr_table_rows_no_exit _ _ _ H)
  | H : wt_list_lines _ _ _ _ _ = Exit _ |- _ => exact (wt_list_lines_no_exit _ _ _ _ _ _ H)
  end.

Ltac exit_leaf :=
  repeat rewrite <- app_assoc; cbn [app];
  first [ apply rule_ok
        | apply rule_exit1
        | apply rule_raise
        | eapply rule_stream; [eassumption | find_in | reflexivity]
        | eapply rule_captured; [eassumption | find_in | reflexivity]
        | no_exit ].

Section ExitCodes.
Variable U : unicode_db.
Variable W : world.
Variable json_loads : text -> option json.

Lemma move_exit branch_name : wp (move U W branch_name) []
     (exit_code_rule passthrough_steps propagating_captures).
Proof. unfold move. repeat wp_more. all: exit_leaf. Qed.

Lemma diff_exit : wp (diff U W) []
     (exit_code_rule passthrough_steps propagating_captures).
Proof. unfold diff. repeat wp_more. all: exit_leaf. Qed.

Lemma branch_exit : wp (branch U W) []
     (exit_code_rule passthrough_steps propagating_captures).
Proof. unfold branch. repeat wp_more. all: exit_leaf. Qed.

Lemma merge_exit pr_number : wp (merge W pr_number) []
     (exit_code_rule passthrough_steps propagating_captures).
Proof. unfold merge. repeat wp_more. all: exit_leaf. Qed.

Lemma list_prs_exit author : wp (list_prs U W json_loads author) []
     (exit_code_rule passthrough_steps propagating_captures).
Proof. unfold list_prs. repeat wp_more. all: exit_leaf. Qed.

Lemma pr_default_exit message commit m body :
  wp (pr_default U W message commit m body) []
     (exit_code_rule passthrough_steps propagating_captures).
Proof. unfold pr_default. repeat wp_more. all: exit_leaf. Qed.

Lemma wt_create_exit b new_branch shell : wp (wt_create U W b new_branch shell) []
     (exit_code_rule passthrough_steps propagating_captures).
Proof. unfold wt_create. repeat wp_more. all: exit_leaf. Qed.

Lemma wt_delete_exit b force keep_branch : wp (wt_delete U W b force keep_branch) []
     (exit_code_rule passthrough_steps propagating_captures).
Proof. unfold wt_delete. repeat wp_more. all: exit_leaf. Qed.

Lemma wt_list_exit all_worktrees : wp (wt_list U W all_worktrees) []
     (exit_code_rule passthrough_steps propagating_captures).
Proof. unfold wt_list. repeat wp_more. all: exit_leaf. Qed.

Lemma cherry_exit title m num_commits body :
  wp (cherry U W title m num_commits body) []
     (exit_code_rule passthrough_steps propagating_captures).
Proof. unfold cherry. repeat wp_more. all: exit_leaf. Qed.

End ExitCodes.

(** Membership of an event in a history that may hold the events of the
    cherry-pick loop. *)
Lemma not_in_loop e t :
  forallb cherry_pick_event t = true -> cherry_pick_event e = false -> ~ In e t.
Proof.
  intros Ht He Hin. rewrite forallb_forall in Ht. rewrite (Ht e Hin) in He. discriminate.
Qed.

Ltac in_history H :=
  repeat lazymatch type of H with
         | In _ (_ :: _) =>
             destruct H as [H|H];
             [ first [ discriminate H
                     | injection H; intros; subst ]
             | ]
         | In _ (_ ++ _) =>
             apply in_app_or in H; destruct H as [H|H];
             [ exfalso; refine (not_in_loop _ _ _ _ H); [eassumption | reflexivity]
             | ]
         | In _ [] => destruct H
         | False => destruct H
         | In _ ?t =>
             is_var t; exfalso; refine (not_in_loop _ _ _ _ H); [eassumption | reflexivity]
         end.

Ltac stream_leaf :=
  repeat rewrite <- app_assoc; cbn [app];
  first [ no_exit
        | intros ? ? Hin Hne; in_history Hin;
          first [ reflexivity
                | exfalso; apply Hne; apply Z.eqb_eq; assumption ] ].

Section Streams.
Variable U : unicode_db.
Variable W : world.
Variable json_loads : text -> option json.

Lemma move_streams branch_name : wp (move U W branch_name) [] passes_on_streams.
Proof. unfold move, passes_on_streams. repeat wp_more. all: stream_leaf. Qed.

Lemma diff_streams : wp (diff U W) [] passes_on_streams.
Proof. unfold diff, passes_on_streams. repeat wp_more. all: stream_leaf. Qed.

Lemma branch_streams : wp (branch U W) [] passes_on_streams.
Proof. unfold branch, passes_on_streams. repeat wp_more. all: stream_leaf. Qed.

Lemma merge_streams pr_number : wp (merge W pr_number) [] passes_on_streams.
Proof. unfold merge, passes_on_streams. repeat wp_more. all: stream_leaf. Qed.

Lemma list_prs_streams author : wp (list_prs U W json_loads author) [] passes_on_streams.
Proof. unfold list_prs, passes_on_streams. repeat wp_more. all: stream_leaf. Qed.

Lemma pr_default_streams message commit m body :
  wp (pr_default U W message commit m body) [] passes_on_streams.
Proof. unfold pr_default, passes_on_streams. repeat wp_more. all: stream_leaf. Qed.

Lemma wt_create_streams b new_branch shell :
  wp (wt_create U W b new_branch shell) [] passes_on_streams.
Proof. unfold wt_create, passes_on_streams. repeat wp_more. all: stream_leaf. Qed.

Lemma wt_delete_streams b force keep_branch :
  wp (wt_delete U W b force keep_branch) [] passes_on_streams.
Proof. unfold wt_delete, passes_on_streams. repeat wp_more. all: stream_leaf. Qed.

Lemma wt_list_streams all_worktrees : wp (wt_list U W all_worktrees) [] passes_on_streams.
Proof. unfold wt_list, passes_on_streams. repeat wp_more. all: stream_leaf. Qed.

Lemma cherry_streams title m num_commits body :
  wp (cherry U W title m num_commits body) [] passes_on_streams.
Proof. unfold cherry, passes_on_streams. repeat wp_more. all: stream_leaf. Qed.

End Streams.

(** * The model on small inputs

    The values are those CPython 3.11 gives for the same calls. *)

Example split_on_slashes :
  split_on slash (str "a/b//c") = [str "a"; str "b"; []; str "c"].
Proof. reflexivity. Qed.

Example split_once_worktree_line :
  split_once space (str "worktree /home/u/my repo")
  = [str "worktree"; str "/home/u/my repo"].
Proof. reflexivity. Qed.

Example split_ws_fields :
  py_split_ws ascii_db (str "  /home/u/repo   1111111 [main] ")
  = [str "/home/u/repo"; str "1111111"; str "[main]"].
Proof. reflexivity. Qed.

Example rstrip_is_not_removesuffix :
  py_rstrip_chars (str ".git") (str "https://github.com/acme/widget.git")
  = str "https://github.com/acme/widge".
Proof. reflexivity. Qed.

Example last_segment_of_branch_line :
  last_segment slash (str "branch refs/heads/feature/x") = str "x".
Proof. reflexivity. Qed.

Example str_of_negative : str_of_Z (-12) = str "-12".
Proof. reflexivity. Qed.

Example path_double_slash : path_str (Path (str "//a/b")) = str "//a/b".
Proof. reflexivity. Qed.

Example path_triple_slash : path_str (Path (str "///a")) = str "/a".
Proof. reflexivity. Qed.

Example path_dots : path_str (Path (str "a/./b/../c")) = str "a/b/../c".
Proof. reflexivity. Qed.

Example path_empty : path_str (Path []) = str ".".
Proof. reflexivity. Qed.

Example path_parent_of_root : path_str (parent (Path (str "/"))) = str "/".
Proof. reflexivity. Qed.

Example path_join_absolute : path_str (joinpath (Path (str "a")) (str "/x")) = str "/x".
Proof. reflexivity. Qed.

Example path_join_empty_name :
  path_str (joinpath (joinpath (Path (str "..")) []) (str ".envrc")) = str "../.envrc".
Proof. reflexivity. Qed.

Example resolve_sibling_link :
  resolve_link (Path (str "/home/u/repo-feat/.envrc")) (Path (str "../repo/.envrc"))
  = Path (str "/home/u/repo/.envrc").
Proof. reflexivity. Qed.

(** * The default listing of [wt_list] *)

(** The loop keeps the lines that [listed] accepts, in order, as long as no
    line consists of blanks only (there [line.split()[0]] fails). *)
Lemma wt_list_lines_filter U repo_name main_worktree lines : forall filtered,
  (forall l, In l lines -> l <> [] -> py_split_ws U l <> []) ->
  wt_list_lines U repo_name main_worktree lines filtered
  = Ok (filtered ++ filter (listed U repo_name main_worktree) lines).
Proof.
  induction lines as [|l rest IH]; intros filtered H.
  - simpl. rewrite app_nil_r. reflexivity.
  - assert (Hrest : forall x, In x rest -> x <> [] -> py_split_ws U x <> [])
      by (intros x Hx; apply H; right; exact Hx).
    cbn [wt_list_lines filter]. unfold listed, first_field, is_ghg_managed.
    destruct l as [|c l].
    + cbn [nonempty negb]. rewrite (IH filtered Hrest). reflexivity.
    + cbn [nonempty negb].
      destruct (py_split_ws U (c :: l)) as [|first fields] eqn:E.
      * exfalso. apply (H (c :: l) (or_introl eq_refl)); [discriminate | exact E].
      * destruct (path_eqb (Path first) main_worktree
                  || path_eqb (parent (Path first)) (parent main_worktree)
                     && startswith (repo_name ++ str "-") (name (Path first))).
        -- rewrite (IH _ Hrest), <- app_assoc. reflexivity.
        -- apply (IH _ Hrest).
Qed.

Example wt_list_blank_line :
  wt_list_lines ascii_db (str "repo") (Path (str "/home/u/repo"))
                [str "/home/u/repo  1111111 [main]"; str "  "; str "/tmp/x  2222222 [x]"] []
  = Raise IndexError.
Proof. reflexivity. Qed.

(** With [--all] the listing is printed as git gave it (stripped). *)
Lemma wt_list_all_spec U W :
  wp (wt_list U W true) [] (fun out tr =>
    forall res, first_run git_worktree_list tr = Some res ->
      returncode res = 0%Z -> py_strip U (stdout res) <> [] ->
      out = Ok tt /\ echoed tr = [(py_strip U (stdout res), false)]).
Proof.
  unfold wt_list. repeat wp_more.
  all: repeat rewrite <- app_assoc; cbn [app].
  all: intros rr E1 Hrc Hne; cbn [first_run git_worktree_list cmd_eqb] in E1.
  all: try discriminate E1.
  all: simpl in E1; inversion E1; subst.
  all: try (exfalso; match goal with
                     | H : (returncode _ =? 0)%Z = false |- _ =>
                         apply Z.eqb_neq in H; contradiction
                     end).
  - split; reflexivity.
  - exfalso. destruct (py_strip U (stdout rr)); simpl in *; congruence.
Qed.

(** * Further properties *)

(** ** The guards *)

Lemma bind_exit {A B} (m : M A) (k : A -> M B) h code h' :
  m h = (Exit code, h') -> bind m k h = (Exit code, h').
Proof. intros E. unfold bind. rewrite E. reflexivity. Qed.

Lemma check_git_repo_fails W :
  w_exists W [] (Path (str ".git")) = false ->
  check_git_repo W []
  = (Exit 1, [EvExists (Path (str ".git")) false; EvEcho not_a_repo_message true]).
Proof.
  intros H. unfold check_git_repo, bind, path_exists, when. rewrite H. reflexivity.
Qed.

Lemma check_git_repo_passes W :
  w_exists W [] (Path (str ".git")) = true ->
  check_git_repo W [] = (Ok tt, [EvExists (Path (str ".git")) true]).
Proof.
  intros H. unfold check_git_repo, bind, path_exists, when. rewrite H. reflexivity.
Qed.

Lemma check_gh_fails W h :
  w_which W h (str "gh") = false ->
  check_gh W h = (Exit 1, h ++ [EvWhich (str "gh") false; EvEcho missing_gh_message true]).
Proof.
  intros H. unfold check_gh, bind, which, when. rewrite H. cbn.
  rewrite <- app_assoc. reflexivity.
Qed.

(** X1: outside a repository (no [.git] in the current directory) every
    command prints the error and ends with exit code 1; it starts no process
    and asks nothing else of the system. *)
Theorem not_a_repository_stops_every_command U W json_loads inv :
  w_exists W [] (Path (str ".git")) = false ->
  main U W json_loads inv
  = (Exit 1, [EvExists (Path (str ".git")) false; EvEcho not_a_repo_message true]).
Proof.
  intros H. pose proof (check_git_repo_fails W H) as E.
  destruct inv; cbn [main];
    [ unfold move | unfold diff | unfold cherry | unfold branch | unfold merge
    | unfold list_prs | unfold pr_default | unfold wt_create | unfold wt_delete
    | unfold wt_list ];
    exact (bind_exit _ _ _ _ _ E).
Qed.

Lemma not_a_repository_stops_every_command_witness :
  w_exists (scripted no_repo) [] (Path (str ".git")) = false
  /\ main ascii_db (scripted no_repo) unfinished_loads (Move (str "topic"))
     = (Exit 1, [EvExists (Path (str ".git")) false; EvEcho not_a_repo_message true]).
Proof.
  split; [reflexivity|].
  exact (not_a_repository_stops_every_command ascii_db (scripted no_repo)
           unfinished_loads (Move (str "topic")) eq_refl).
Defined.

(** X2: inside a repository but without [gh] on the path, the four commands
    that talk to GitHub (cherry, merge, list, pr) print the error and end
    with exit code 1 before they start any process. *)
Theorem missing_gh_stops_before_any_process U W json_loads inv :
  needs_gh inv = true ->
  w_exists W [] (Path (str ".git")) = true ->
  w_which W [EvExists (Path (str ".git")) true] (str "gh") = false ->
  main U W json_loads inv
  = (Exit 1, [EvExists (Path (str ".git")) true; EvWhich (str "gh") false;
              EvEcho missing_gh_message true]).
Proof.
  intros Hinv Hgit Hgh.
  pose proof (check_git_repo_passes W Hgit) as E1.
  pose proof (check_gh_fails W _ Hgh) as E2. cbn [app] in E2.
  destruct inv; try discriminate Hinv; cbn [main];
    [ unfold cherry | unfold merge | unfold list_prs | unfold pr_default ];
    rewrite (bind_ok _ _ _ _ _ E1); exact (bind_exit _ _ _ _ _ E2).
Qed.

Lemma missing_gh_stops_before_any_process_witness :
  needs_gh (Merge (str "#12")) = true
  /\ w_exists (scripted no_gh) [] (Path (str ".git")) = true
  /\ w_which (scripted no_gh) [EvExists (Path (str ".git")) true] (str "gh") = false
  /\ ran (snd (main ascii_db (scripted no_gh) unfinished_loads (Merge (str "#12")))) = [].
Proof.
  split; [reflexivity|]. split; [reflexivity|]. split; [reflexivity|].
  rewrite (missing_gh_stops_before_any_process ascii_db (scripted no_gh)
             unfinished_loads (Merge (str "#12")) eq_refl eq_refl eq_refl).
  reflexivity.
Defined.

(** ** The listing commands *)

Ltac listing_leaf :=
  repeat rewrite <- app_assoc; cbn [app];
  first [ no_exit | split; reflexivity ].

Section Listing.
Variable U : unicode_db.
Variable W : world.
Variable json_loads : text -> option json.

Lemma diff_read_only :
  wp (diff U W) [] (fun _ tr => forallb read_only (ran tr) = true /\ symlinks tr = []).
Proof. unfold diff. repeat wp_more. all: listing_leaf. Qed.

Lemma branch_read_only :
  wp (branch U W) [] (fun _ tr => forallb read_only (ran tr) = true /\ symlinks tr = []).
Proof. unfold branch. repeat wp_more. all: listing_leaf. Qed.

Lemma list_prs_read_only author :
  wp (list_prs U W json_loads author) []
     (fun _ tr => forallb read_only (ran tr) = true /\ symlinks tr = []).
Proof. unfold list_prs. repeat wp_more. all: listing_leaf. Qed.

Lemma wt_list_read_only all_worktrees :
  wp (wt_list U W all_worktrees) []
     (fun _ tr => forallb read_only (ran tr) = true /\ symlinks tr = []).
Proof. unfold wt_list. repeat wp_more. all: listing_leaf. Qed.

End Listing.

(** X3: diff, branch, list and wt list only look: whatever the answers of
    the world, every process they start is one of the queries
    [git status --porcelain], [git diff ...], [git for-each-ref],
    [gh pr list], [git worktree list [--porcelain]] and
    [git remote get-url origin], and they create no symbolic link. *)
Theorem listing_commands_only_query U W json_loads inv out tr :
  is_listing inv = true ->
  main U W json_loads inv = (out, tr) ->
  (forall cmd, In cmd (ran tr) -> read_only cmd = true) /\ symlinks tr = [].
Proof.
  intros Hinv E.
  assert (H : forallb read_only (ran tr) = true /\ symlinks tr = []).
  { destruct inv; try discriminate Hinv; cbn [main] in E.
    - exact (wp_run_eq _ _ _ _ _ (diff_read_only U W) E).
    - exact (wp_run_eq _ _ _ _ _ (branch_read_only U W) E).
    - exact (wp_run_eq _ _ _ _ _ (list_prs_read_only U W json_loads _) E).
    - exact (wp_run_eq _ _ _ _ _ (wt_list_read_only U W _) E). }
  destruct H as [H1 H2]. split; [|exact H2]. apply forallb_forall. exact H1.
Qed.

Lemma listing_commands_only_query_witness :
  let run := main ascii_db (scripted three_worktrees) unfinished_loads (WtList false) in
  is_listing (WtList false) = true
  /\ ran (snd run) = [git_worktree_list; git_remote_url; git_worktree_porcelain]
  /\ forall cmd, In cmd (ran (snd run)) -> read_only cmd = true.
Proof.
  intros run. split; [reflexivity|]. split; [vm_compute; reflexivity|].
  exact (proj1 (listing_commands_only_query ascii_db (scripted three_worktrees)
                  unfinished_loads (WtList false) (fst run) (snd run) eq_refl
                  (surjective_pairing run))).
Defined.

(** ** diff and merge *)

Lemma diff_spec U W :
  wp (diff U W) [] (fun out tr =>
    forall st, first_run git_status tr = Some st -> returncode st = 0%Z ->
      let cmd := if reports_changes U st then git_diff_worktree else git_diff_master in
      exists code, ran tr = [git_status; cmd]
                   /\ In (EvStream cmd code) tr
                   /\ out = if (code =? 0)%Z then Ok tt else Exit code).
Proof.
  unfold diff. repeat wp_more.
  all: repeat rewrite <- app_assoc; cbn [app].
  all: intros st E1 Hrc; cbn [first_run git_status cmd_eqb] in E1.
  all: try discriminate E1.
  all: simpl in E1; inversion E1; subst.
  all: try (exfalso; match goal with
                     | H : (returncode _ =? 0)%Z = false |- _ =>
                         apply Z.eqb_neq in H; contradiction
                     end).
  all: unfold reports_changes;
    match goal with H : nonempty _ = _ |- _ => rewrite H end; cbv zeta.
  all: eexists; split; [reflexivity|]; split; [find_in|].
  all: match goal with H : (_ =? 0)%Z = _ |- _ = (if (?c =? 0)%Z then _ else _) =>
         match type of H with (c =? 0)%Z = _ => rewrite H end end; reflexivity.
Qed.

(** X4: once [git status --porcelain] has succeeded, diff starts exactly one
    more process, [git diff] when the status reports changes and
    [git diff master...HEAD] when it reports none, and ends with that
    process's status (0 is a normal return). *)
Theorem diff_follows_status U W out tr st :
  diff U W [] = (out, tr) ->
  first_run git_status tr = Some st ->
  returncode st = 0%Z ->
  let cmd := if reports_changes U st then git_diff_worktree else git_diff_master in
  exists code, ran tr = [git_status; cmd]
               /\ In (EvStream cmd code) tr
               /\ out = if (code =? 0)%Z then Ok tt else Exit code.
Proof.
  intros E. exact (wp_run_eq _ _ _ _ _ (diff_spec U W) E st).
Qed.

Lemma diff_follows_status_witness :
  let run := diff ascii_db (scripted clean_tree) [] in
  first_run git_status (snd run) = Some (completed 0 [])
  /\ returncode (completed 0 []) = 0%Z
  /\ exists code, ran (snd run) = [git_status; git_diff_master]
                  /\ In (EvStream git_diff_master code) (snd run)
                  /\ fst run = if (code =? 0)%Z then Ok tt else Exit code.
Proof.
  intros run.
  assert (Hq : first_run git_status (snd run) = Some (completed 0 []))
    by (vm_compute; reflexivity).
  split; [exact Hq|]. split; [reflexivity|].
  exact (diff_follows_status ascii_db (scripted clean_tree) (fst run) (snd run)
           (completed 0 []) (surjective_pairing run) Hq eq_refl).
Defined.

Lemma check_gh_passes W h :
  w_which W h (str "gh") = true ->
  check_gh W h = (Ok tt, h ++ [EvWhich (str "gh") true]).
Proof.
  intros H. unfold check_gh, bind, which, when. rewrite H. reflexivity.
Qed.

(** X5: in a repository with [gh] on the path, merge starts exactly one
    process, [gh pr edit n --add-label merge], after the message that names
    the PR; it returns normally (after a second message) when the process
    exits with 0 and otherwise ends with the status of the process.  The PR
    number is taken with or without one leading [#]: for a number [n] that
    does not itself start with [#], [#n] and [n] behave alike. *)
Theorem merge_labels_one_pr W n :
  startswith (str "#") n = false ->
  w_exists W [] (Path (str ".git")) = true ->
  w_which W [EvExists (Path (str ".git")) true] (str "gh") = true ->
  let h := [EvExists (Path (str ".git")) true; EvWhich (str "gh") true;
            EvEcho (str "Adding 'merge' label to PR #" ++ n ++ str "...") false] in
  let code := w_stream W h (gh_pr_edit n) in
  (forall h', merge W (str "#" ++ n) h' = merge W n h')
  /\ merge W n []
     = (if (code =? 0)%Z then Ok tt else Exit code,
        h ++ EvStream (gh_pr_edit n) code
          :: (if (code =? 0)%Z
              then [EvEcho (check_mark ++ str " Added 'merge' label to PR #" ++ n) false]
              else []))
  /\ ran (snd (merge W n [])) = [gh_pr_edit n].
Proof.
  intros Hn Hgit Hgh h code.
  assert (E : merge W n []
     = (if (code =? 0)%Z then Ok tt else Exit code,
        h ++ EvStream (gh_pr_edit n) code
          :: (if (code =? 0)%Z
              then [EvEcho (check_mark ++ str " Added 'merge' label to PR #" ++ n) false]
              else []))).
  { unfold merge.
    rewrite (bind_ok _ _ _ _ _ (check_git_repo_passes W Hgit)).
    rewrite (bind_ok _ _ _ _ _ (check_gh_passes W _ Hgh)).
    rewrite Hn. unfold bind, echo, subprocess_run, when, exit, ret. cbn [app].
    subst code. unfold gh_pr_edit. fold h.
    destruct (w_stream W h _ =? 0)%Z; reflexivity. }
  split; [|split].
  - intros h'. unfold merge.
    assert (E1 : startswith (str "#") (str "#" ++ n) = true) by reflexivity.
    assert (E2 : skipn 1 (str "#" ++ n) = n) by reflexivity.
    rewrite E1, E2, Hn. reflexivity.
  - exact E.
  - rewrite E. cbn [snd]. destruct (code =? 0)%Z; reflexivity.
Qed.

Lemma merge_labels_one_pr_witness :
  merge (scripted clean_tree) (str "#12") [] = merge (scripted clean_tree) (str "12") []
  /\ ran (snd (merge (scripted clean_tree) (str "12") [])) = [gh_pr_edit (str "12")]
  /\ fst (merge (scripted clean_tree) (str "12") []) = Ok tt.
Proof.
  destruct (merge_labels_one_pr (scripted clean_tree) (str "12")
              eq_refl eq_refl eq_refl) as (H1 & H2 & H3).
  split; [exact (H1 [])|]. split; [exact H3|].
  rewrite H2. reflexivity.
Defined.

(** ** move *)

Ltac rewrite_changes :=
  unfold reports_changes;
  match goal with
  | H : nonempty _ = _ |- _ => rewrite H
  end.

Lemma move_success_spec U W branch_name :
  wp (move U W branch_name) [] (fun out tr =>
    out = Ok tt ->
    exists st,
      first_run git_status tr = Some st
      /\ returncode st = 0%Z
      /\ ran tr = (if reports_changes U st
                   then [git_status; git_stash_push branch_name; git_checkout_master;
                         git_pull_master; git_checkout_new branch_name; git_stash_pop]
                   else [git_status; git_checkout_master; git_pull_master;
                         git_checkout_new branch_name])
      /\ forall cmd res, In (EvRun cmd res) tr -> returncode res = 0%Z).
Proof.
  unfold move. repeat wp_more.
  all: repeat rewrite <- app_assoc; cbn [app].
  all: intros Hout; try discriminate Hout.
  all: eexists; split; [reflexivity|].
  all: split; [apply Z.eqb_eq; assumption|].
  all: split; [rewrite_changes; reflexivity|].
  all: intros cmd rr Hin; in_history Hin; apply Z.eqb_eq; assumption.
Qed.

(** X6: when move returns normally, [git status --porcelain] has succeeded
    and the processes that move has started are fixed by its answer.  When it
    reported no changes they are, in this order, [git status --porcelain],
    [git checkout master], [git pull origin master] and
    [git checkout -b <name>]; when it reported changes, [git stash push]
    comes after the first of them and [git stash pop] after the last.  All
    of them have succeeded. *)
Theorem move_success_sequence U W branch_name tr :
  move U W branch_name [] = (Ok tt, tr) ->
  exists st,
    first_run git_status tr = Some st
    /\ returncode st = 0%Z
    /\ ran tr = (if reports_changes U st
                 then [git_status; git_stash_push branch_name; git_checkout_master;
                       git_pull_master; git_checkout_new branch_name; git_stash_pop]
                 else [git_status; git_checkout_master; git_pull_master;
                       git_checkout_new branch_name])
    /\ forall cmd res, In (EvRun cmd res) tr -> returncode res = 0%Z.
Proof.
  intros E. exact (wp_run_eq _ _ _ _ _ (move_success_spec U W branch_name) E eq_refl).
Qed.

Lemma move_success_sequence_witness :
  let clean := move ascii_db (scripted clean_tree) (str "topic") [] in
  let dirty := move ascii_db (obliging one_change) (str "topic") [] in
  (fst clean = Ok tt
   /\ ran (snd clean) = [git_status; git_checkout_master; git_pull_master;
                         git_checkout_new (str "topic")])
  /\ (fst dirty = Ok tt
      /\ ran (snd dirty) = [git_status; git_stash_push (str "topic");
                            git_checkout_master; git_pull_master;
                            git_checkout_new (str "topic"); git_stash_pop]).
Proof.
  intros clean dirty.
  assert (Ec : move ascii_db (scripted clean_tree) (str "topic") [] = (Ok tt, snd clean))
    by (vm_compute; reflexivity).
  assert (Ed : move ascii_db (obliging one_change) (str "topic") [] = (Ok tt, snd dirty))
    by (vm_compute; reflexivity).
  split.
  - split; [vm_compute; reflexivity|].
    destruct (move_success_sequence ascii_db (scripted clean_tree) (str "topic")
                (snd clean) Ec) as (st & Hq & _ & Hran & _).
    vm_compute in Hq. injection Hq as <-. exact Hran.
  - split; [vm_compute; reflexivity|].
    destruct (move_success_sequence ascii_db (obliging one_change) (str "topic")
                (snd dirty) Ed) as (st & Hq & _ & Hran & _).
    vm_compute in Hq. injection Hq as <-. exact Hran.
Defined.

Lemma move_stash_spec U W branch_name :
  wp (move U W branch_name) [] (fun out tr =>
    forall pushed, In (EvRun (git_stash_push branch_name) pushed) tr ->
      returncode pushed = 0%Z ->
      ((out = Ok tt
        /\ exists popped, In (EvRun git_stash_pop popped) tr /\ returncode popped = 0%Z)
       \/ (out = Exit 1
           /\ forall popped, In (EvRun git_stash_pop popped) tr ->
                             returncode popped <> 0%Z))
      /\ (forall popped, In (EvRun git_stash_pop popped) tr ->
            exists r, In (EvRun (git_checkout_new branch_name) r) tr
                      /\ returncode r = 0%Z)).
Proof.
  unfold move. repeat wp_more.
  all: repeat rewrite <- app_assoc; cbn [app].
  all: intros pushed Hin Hrc.
  all: try (exfalso; in_trace Hin; fail).
  all: split.
  all: try (intros popped Hp; in_trace Hp;
            (eexists; split; [find_in|]; apply Z.eqb_eq; assumption)).
  all: first
         [ left; split; [reflexivity|]; eexists; split; [find_in|];
           apply Z.eqb_eq; assumption
         | right; split; [reflexivity|]; intros popped Hp; in_trace Hp;
           apply Z.eqb_neq; assumption ].
Qed.

(** X7: about the exit statuses of the stash commands.  Once
    [git stash push] has exited with 0, move returns normally only after a
    [git stash pop] that exited with 0; otherwise it ends with exit code 1
    and no [git stash pop] has exited with 0.  And [git stash pop] is started
    only after [git checkout -b <name>] has succeeded. *)
Theorem move_after_stash_push U W branch_name out tr pushed :
  move U W branch_name [] = (out, tr) ->
  In (EvRun (git_stash_push branch_name) pushed) tr ->
  returncode pushed = 0%Z ->
  ((out = Ok tt
    /\ exists popped, In (EvRun git_stash_pop popped) tr /\ returncode popped = 0%Z)
   \/ (out = Exit 1
       /\ forall popped, In (EvRun git_stash_pop popped) tr ->
                         returncode popped <> 0%Z))
  /\ (forall popped, In (EvRun git_stash_pop popped) tr ->
        exists r, In (EvRun (git_checkout_new branch_name) r) tr
                  /\ returncode r = 0%Z).
Proof.
  intros E. exact (wp_run_eq _ _ _ _ _ (move_stash_spec U W branch_name) E pushed).
Qed.

Lemma move_after_stash_push_witness :
  let run := move ascii_db (scripted dirty_tree) (str "topic") [] in
  In (EvRun (git_stash_push (str "topic")) (completed 0 [])) (snd run)
  /\ returncode (completed 0 []) = 0%Z
  /\ fst run = Exit 1.
Proof.
  intros run.
  assert (Hin : In (EvRun (git_stash_push (str "topic")) (completed 0 [])) (snd run))
    by (vm_compute; do 4 right; left; reflexivity).
  split; [exact Hin|]. split; [reflexivity|].
  destruct (move_after_stash_push ascii_db (scripted dirty_tree) (str "topic")
              (fst run) (snd run) (completed 0 []) (surjective_pairing run) Hin eq_refl)
    as [[[H _]|[H _]] _].
  - vm_compute in H. discriminate H.
  - exact H.
Defined.

(** ** cherry *)

Lemma text_eqb_refl a : text_eqb a a = true.
Proof. apply text_eqb_eq. reflexivity. Qed.

Lemma cmd_eqb_eq a b : cmd_eqb a b = true -> a = b.
Proof.
  revert b. induction a as [|x a IH]; intros [|y b]; simpl; try discriminate.
  - reflexivity.
  - intros H. apply andb_prop in H. destruct H as [H1 H2].
    apply text_eqb_eq in H1. apply IH in H2. congruence.
Qed.

Lemma picks_app a b : picks (a ++ b) = picks a ++ picks b.
Proof. unfold picks. rewrite ran_app. apply filter_app. Qed.

Lemma picks_skip e tr : picks [e] = [] -> picks (e :: tr) = picks tr.
Proof. intros H. change (e :: tr) with ([e] ++ tr). rewrite picks_app, H. reflexivity. Qed.

Lemma picks_pick c res tr : picks (EvRun (pick c) res :: tr) = pick c :: picks tr.
Proof. reflexivity. Qed.

(** In the events of the loop no other command has been run. *)
Lemma first_run_past_loop cmd t rest :
  forallb cherry_pick_event t = true -> is_cherry_pick cmd = false ->
  first_run cmd (t ++ rest) = first_run cmd rest.
Proof.
  intros Ht Hc. induction t as [|e t IH]; [reflexivity|].
  cbn [forallb] in Ht. apply andb_prop in Ht. destruct Ht as [He Ht].
  cbn [app first_run]. destruct e; try exact (IH Ht).
  destruct (cmd_eqb cmd0 cmd) eqn:E; [|exact (IH Ht)].
  apply cmd_eqb_eq in E. subst cmd0. cbn [cherry_pick_event] in He.
  unfold is_cherry_pick in Hc. congruence.
Qed.

Lemma first_run_in_loop cmd t :
  forallb cherry_pick_event t = true -> is_cherry_pick cmd = false ->
  first_run cmd t = None.
Proof.
  intros Ht Hc. rewrite <- (app_nil_r t). rewrite first_run_past_loop by assumption.
  reflexivity.
Qed.

(** The loop picks the commits in the order of the list and stops at the
    first pick that fails. *)
Lemma wp_cherry_pick_each_order U W commits : forall total i h Q,
  (forall t, forallb cherry_pick_event t = true -> picks t = map pick commits ->
             Q (Ok tt) (h ++ t)) ->
  (forall t k, forallb cherry_pick_event t = true ->
               picks t = map pick (firstn k commits) -> Q (Exit 1) (h ++ t)) ->
  wp (cherry_pick_each U W total i commits) h Q.
Proof.
  induction commits as [|commit_hash rest IH]; intros total i h Q Hok Hexit.
  - cbn [cherry_pick_each]. apply wp_ret.
    rewrite <- (app_nil_r h). apply Hok; reflexivity.
  - assert (Hcons : forall e res t,
              picks [e] = [] ->
              picks (e :: EvRun [str "git"; str "cherry-pick"; commit_hash] res :: t)
              = pick commit_hash :: picks t).
    { intros e res t He. rewrite (picks_skip _ _ He). reflexivity. }
    cbn [cherry_pick_each]. wp_run.
    all: try (apply IH; [intros t Ht Hp | intros t k Ht Hp];
              repeat rewrite <- app_assoc; cbn [app];
              [ apply Hok | apply (Hexit _ (S k)) ];
              first [ simpl; exact Ht
                    | rewrite Hcons by reflexivity; rewrite Hp; reflexivity ]).
    all: repeat rewrite <- app_assoc; cbn [app]; apply (Hexit _ 1%nat); reflexivity.
Qed.

Ltac wp_order :=
  first [ lazymatch goal with
          | |- wp (cherry_pick_each _ _ _ _ _) _ _ =>
              apply wp_cherry_pick_each_order; [intros ? ? ? | intros ? ? ? ?]
          end; cbv beta iota zeta
        | wp_more ].

(** Evaluate [first_run] along a history whose tail may hold the loop. *)
Ltac eval_first_run E :=
  repeat (first [ progress simpl in E
                | rewrite text_eqb_refl in E
                | rewrite first_run_past_loop in E by (first [eassumption | reflexivity])
                | rewrite first_run_in_loop in E by (first [eassumption | reflexivity]) ]).

Ltac eval_picks :=
  repeat (first [ rewrite picks_skip by reflexivity
                | rewrite picks_app
                | match goal with H : picks _ = _ |- _ => rewrite H end ]);
  repeat rewrite app_nil_r.

Ltac prefix_of_commits :=
  first [ exists 0%nat; reflexivity
        | eexists; reflexivity
        | match goal with
          | |- exists k, map pick ?l = _ =>
              exists (List.length l); rewrite firstn_all; reflexivity
          end ].

Lemma cherry_committed_spec U W title merge num body :
  wp (cherry U W title merge num body) [] (fun out tr =>
    forall rl, first_run (git_rev_list (requested num)) tr = Some rl ->
      (exists k, picks tr = map pick (firstn k (commit_lines U rl)))
      /\ (out = Ok tt ->
          picks tr = map pick (commit_lines U rl)
          /\ Z.of_nat (List.length (commit_lines U rl)) = requested num)).
Proof.
  unfold cherry. repeat wp_order.
  all: repeat rewrite <- app_assoc; cbn [app].
  all: intros rl E; eval_first_run E.
  all: try discriminate E.
  all: inversion E; subst; clear E.
  all: unfold commit_lines, requested.
  all: split; [| intros Hout; try discriminate Hout].
  all: eval_picks.
  all: try prefix_of_commits.
  all: split; [reflexivity | apply Z.eqb_eq; assumption].
Qed.

Lemma cherry_uncommitted_spec U W title merge num body :
  wp (cherry U W title merge num body) [] (fun out tr =>
    forall rp, first_run git_rev_parse_head tr = Some rp ->
      let commit := py_strip U (py_strip U (stdout rp)) in
      (picks tr = [] \/ picks tr = [pick commit])
      /\ (out = Ok tt -> picks tr = [pick commit])).
Proof.
  unfold cherry. repeat wp_order.
  all: repeat rewrite <- app_assoc; cbn [app].
  all: intros rp E; eval_first_run E.
  all: try discriminate E.
  all: inversion E; subst; clear E.
  all: cbv zeta; split; [| intros Hout; try discriminate Hout].
  all: eval_picks.
  all: try (left; reflexivity).
  all: try (right; reflexivity).
  all: try reflexivity.
  all: match goal with
       | |- map pick (firstn ?k [?c]) = [] \/ _ =>
           destruct k as [|k]; [left; reflexivity | right; cbn [firstn];
             destruct k; reflexivity ]
       end.
Qed.

(** X8: cherry replays the commits in the order in which it got them.  When
    it asked [git rev-list --reverse HEAD~n..HEAD] (no uncommitted changes),
    the [git cherry-pick] commands it has started are, in order, those for
    the first lines of the answer, and for all the lines, n of them, when it
    returns normally; when it committed the changes itself, the only commit
    picked is the one [git rev-parse HEAD] named. *)
Theorem cherry_replays_in_order U W title merge num body out tr :
  cherry U W title merge num body [] = (out, tr) ->
  (forall rl, first_run (git_rev_list (requested num)) tr = Some rl ->
     (exists k, picks tr = map pick (firstn k (commit_lines U rl)))
     /\ (out = Ok tt ->
         picks tr = map pick (commit_lines U rl)
         /\ Z.of_nat (List.length (commit_lines U rl)) = requested num))
  /\ (forall rp, first_run git_rev_parse_head tr = Some rp ->
      let commit := py_strip U (py_strip U (stdout rp)) in
      (picks tr = [] \/ picks tr = [pick commit])
      /\ (out = Ok tt -> picks tr = [pick commit])).
Proof.
  intros E. split.
  - exact (wp_run_eq _ _ _ _ _ (cherry_committed_spec U W title merge num body) E).
  - exact (wp_run_eq _ _ _ _ _ (cherry_uncommitted_spec U W title merge num body) E).
Qed.

Lemma cherry_replays_in_order_witness :
  let run := cherry ascii_db (obliging two_commits) (str "Fix login") false
                    (Some 2%Z) None [] in
  let dirty := cherry ascii_db (obliging one_change) (str "Fix login") false None None [] in
  let rl := completed 0 (line "aaaaaaa1" ++ line "bbbbbbb2") in
  let rp := completed 0 (line "ccccccc3") in
  (first_run (git_rev_list 2) (snd run) = Some rl
   /\ fst run = Ok tt
   /\ picks (snd run) = [pick (str "aaaaaaa1"); pick (str "bbbbbbb2")])
  /\ (first_run git_rev_parse_head (snd dirty) = Some rp
      /\ fst dirty = Ok tt
      /\ picks (snd dirty) = [pick (str "ccccccc3")]).
Proof.
  intros run dirty rl rp.
  assert (H1 : first_run (git_rev_list (requested (Some 2%Z))) (snd run) = Some rl)
    by (vm_compute; reflexivity).
  assert (H2 : first_run git_rev_parse_head (snd dirty) = Some rp)
    by (vm_compute; reflexivity).
  assert (O1 : fst run = Ok tt) by (vm_compute; reflexivity).
  assert (O2 : fst dirty = Ok tt) by (vm_compute; reflexivity).
  split.
  - split; [exact H1|]. split; [exact O1|].
    exact (proj1 (proj2 (proj1 (cherry_replays_in_order ascii_db (obliging two_commits)
                                  (str "Fix login") false (Some 2%Z) None
                                  (fst run) (snd run) (surjective_pairing run))
                               rl H1) O1)).
  - split; [exact H2|]. split; [exact O2|].
    exact (proj2 (proj2 (cherry_replays_in_order ascii_db (obliging one_change)
                           (str "Fix login") false None None
                           (fst dirty) (snd dirty) (surjective_pairing dirty))
                        rp H2) O2).
Defined.

Lemma cherry_count_spec U W title merge num body :
  wp (cherry U W title merge num body) [] (fun out tr =>
    forall rl, first_run (git_rev_list (requested num)) tr = Some rl ->
      returncode rl = 0%Z ->
      Z.of_nat (List.length (commit_lines U rl)) <> requested num ->
      out = Exit 1
      /\ ran tr = [git_rev_parse_branch; git_status; git_rev_list (requested num)]
      /\ last (echoed tr) ([], false)
         = (str "Error: Could only find "
            ++ str_of_Z (Z.of_nat (List.length (commit_lines U rl)))
            ++ str " commits, but " ++ str_of_Z (requested num)
            ++ str " were requested", true)).
Proof.
  unfold cherry. repeat wp_order.
  all: repeat rewrite <- app_assoc; cbn [app].
  all: intros rl E Hrc Hlen; eval_first_run E.
  all: try discriminate E.
  all: inversion E; subst; clear E.
  all: unfold commit_lines, requested in *.
  all: try (exfalso; match goal with
                     | H : (returncode _ =? 0)%Z = false |- _ =>
                         apply Z.eqb_neq in H; contradiction
                     end).
  all: try (exfalso; apply Hlen; apply Z.eqb_eq; assumption).
  split; [reflexivity|]. split; reflexivity.
Qed.

(** X9: when [git rev-list] names another number of commits than cherry
    asked for (say the branch has fewer), cherry ends with exit code 1 after
    the message that gives both numbers; it has started the three queries
    only, so it has not left the branch. *)
Theorem cherry_checks_commit_count U W title merge num body out tr rl :
  cherry U W title merge num body [] = (out, tr) ->
  first_run (git_rev_list (requested num)) tr = Some rl ->
  returncode rl = 0%Z ->
  Z.of_nat (List.length (commit_lines U rl)) <> requested num ->
  out = Exit 1
  /\ ran tr = [git_rev_parse_branch; git_status; git_rev_list (requested num)]
  /\ last (echoed tr) ([], false)
     = (str "Error: Could only find "
        ++ str_of_Z (Z.of_nat (List.length (commit_lines U rl)))
        ++ str " commits, but " ++ str_of_Z (requested num)
        ++ str " were requested", true).
Proof.
  intros E. exact (wp_run_eq _ _ _ _ _ (cherry_count_spec U W title merge num body) E rl).
Qed.

Lemma cherry_checks_commit_count_witness :
  let run := cherry ascii_db (obliging two_commits) (str "Fix login") false
                    (Some 3%Z) None [] in
  first_run (git_rev_list (requested (Some 3%Z))) (snd run) = Some (completed 0 [])
  /\ returncode (completed 0 []) = 0%Z
  /\ Z.of_nat (List.length (commit_lines ascii_db (completed 0 []))) <> requested (Some 3%Z)
  /\ fst run = Exit 1.
Proof.
  intros run.
  assert (H1 : first_run (git_rev_list (requested (Some 3%Z))) (snd run)
               = Some (completed 0 [])) by (vm_compute; reflexivity).
  assert (H2 : Z.of_nat (List.length (commit_lines ascii_db (completed 0 [])))
               <> requested (Some 3%Z)) by (vm_compute; discriminate).
  split; [exact H1|]. split; [reflexivity|]. split; [exact H2|].
  exact (proj1 (cherry_checks_commit_count ascii_db (obliging two_commits)
                  (str "Fix login") false (Some 3%Z) None (fst run) (snd run)
                  (completed 0 []) (surjective_pairing run) H1 eq_refl H2)).
Defined.

(** ** Pull requests *)

(** Membership in a history built by appending. *)
Ltac find_in_snoc :=
  repeat (apply in_or_app; first [ solve [right; left; reflexivity] | left ]).

(** The last process of a history built by appending. *)
Ltac last_process :=
  rewrite ?ran_app; cbn [ran flat_map]; rewrite ?app_nil_r;
  apply last_last.

Ltac normalise_in H := repeat rewrite <- app_assoc in H; cbn [app] in H.

Lemma cherry_pr_spec U W title merge num body :
  wp (cherry U W title merge num body) [] (fun out tr =>
    forall cmd code, In (EvStream cmd code) tr ->
      cmd = gh_pr_create title (match body with Some b => b | None => title end) merge
      /\ (exists pushed,
             In (EvRun (git_push (title_to_branch_name U title)) pushed) tr
             /\ returncode pushed = 0%Z)
      /\ (code <> 0%Z -> out = Exit code /\ last (ran tr) [] = cmd)
      /\ (code = 0%Z ->
          exists rb, In (EvRun git_rev_parse_branch rb) tr
                     /\ last (ran tr) []
                        = git_checkout (py_strip U (py_strip U (stdout rb))))).
Proof.
  unfold cherry. repeat wp_order.
  all: intros cmd code' Hin; normalise_in Hin; in_history Hin.
  all: split; [reflexivity|].
  all: split; [eexists; split; [find_in_snoc | apply Z.eqb_eq; assumption]|].
  all: split.
  all: try (intros Hne; exfalso; apply Hne; apply Z.eqb_eq; assumption).
  all: try (intros Hz; exfalso;
            match goal with
            | H : (_ =? 0)%Z = false |- _ => apply Z.eqb_neq in H; contradiction
            end).
  all: try (intros _; split; [reflexivity | last_process]).
  all: intros _; eexists; split; [find_in_snoc | last_process].
Qed.

(** X10: cherry creates the pull request only after
    [git push -u origin <branch name of the title>] has succeeded; the
    command is [gh pr create --title <title> --body <body, or the title>],
    with [--label merge] exactly when asked.  When the creation fails cherry
    ends there with the status of [gh] (the user stays on the new branch);
    when it succeeds the last process is the checkout of the branch that
    [git rev-parse --abbrev-ref HEAD] named at the start. *)
Theorem cherry_creates_pr_after_push U W title merge num body out tr cmd code :
  cherry U W title merge num body [] = (out, tr) ->
  In (EvStream cmd code) tr ->
  cmd = gh_pr_create title (match body with Some b => b | None => title end) merge
  /\ (exists pushed,
         In (EvRun (git_push (title_to_branch_name U title)) pushed) tr
         /\ returncode pushed = 0%Z)
  /\ (code <> 0%Z -> out = Exit code /\ last (ran tr) [] = cmd)
  /\ (code = 0%Z ->
      exists rb, In (EvRun git_rev_parse_branch rb) tr
                 /\ last (ran tr) []
                    = git_checkout (py_strip U (py_strip U (stdout rb)))).
Proof.
  intros E.
  exact (wp_run_eq _ _ _ _ _ (cherry_pr_spec U W title merge num body) E cmd code).
Qed.

Lemma cherry_creates_pr_after_push_witness :
  let run := cherry ascii_db (obliging two_commits) (str "Fix login") true
                    (Some 2%Z) None [] in
  let cmd := gh_pr_create (str "Fix login") (str "Fix login") true in
  In (EvStream cmd 0%Z) (snd run)
  /\ (exists pushed, In (EvRun (git_push (str "fix-login")) pushed) (snd run)
                     /\ returncode pushed = 0%Z)
  /\ last (ran (snd run)) [] = git_checkout (str "main").
Proof.
  intros run cmd.
  assert (Hin : In (EvStream cmd 0%Z) (snd run))
    by (vm_compute; repeat (first [ left; reflexivity | right ])).
  split; [exact Hin|].
  destruct (cherry_creates_pr_after_push ascii_db (obliging two_commits)
              (str "Fix login") true (Some 2%Z) None (fst run) (snd run) cmd 0%Z
              (surjective_pairing run) Hin) as (_ & Hpush & _ & _).
  split; [exact Hpush|]. vm_compute. reflexivity.
Defined.

Ltac rewrite_code :=
  match goal with
  | H : (_ =? 0)%Z = _ |- context [(_ =? 0)%Z] => rewrite H
  end.

Lemma pr_default_push_spec U W message commit merge body :
  wp (pr_default U W message commit merge body) [] (fun out tr =>
    (forall r, first_run git_remote_url tr = Some r -> returncode r <> 0%Z ->
       out = Exit 1 /\ last (ran tr) [] = git_remote_url)
    /\ (forall cmd code, In (EvStream cmd code) tr ->
          cmd = gh_pr_create message
                  (match body with Some b => b | None => message end) merge
          /\ last (ran tr) [] = cmd
          /\ out = (if (code =? 0)%Z then Ok tt else Exit code)
          /\ exists rb pushed,
               In (EvRun git_rev_parse_branch rb) tr
               /\ In (EvRun (git_push (py_strip U (py_strip U (stdout rb)))) pushed) tr
               /\ returncode pushed = 0%Z)).
Proof.
  unfold pr_default. repeat wp_more.
  all: split.
  all: try (intros r E Hne; normalise_in E; eval_first_run E;
            first [ discriminate E
                  | injection E; intros; subst;
                    first [ exfalso; apply Hne; apply Z.eqb_eq; assumption
                          | split; [reflexivity | last_process] ] ]).
  all: intros cmd code' Hin; normalise_in Hin; in_history Hin.
  all: split; [reflexivity|].
  all: split; [last_process|].
  all: split; [rewrite_code; reflexivity|].
  all: eexists; eexists; split; [find_in_snoc|].
  all: split; [find_in_snoc | apply Z.eqb_eq; assumption].
Qed.

(** X11: pr pushes the current branch before it opens the pull request.
    When [git remote get-url origin] fails, it ends with status 1 and that
    query is the last process: nothing is pushed and no PR is created.
    [gh pr create] runs only after [git push -u origin <branch>] has
    succeeded, where <branch> is what [git rev-parse --abbrev-ref HEAD]
    printed; it is the last process, its title is the message, its body the
    [--body] option or else the message, and its status is the command's. *)
Theorem pr_pushes_current_branch U W message commit merge body out tr :
  pr_default U W message commit merge body [] = (out, tr) ->
  (forall r, first_run git_remote_url tr = Some r -> returncode r <> 0%Z ->
     out = Exit 1 /\ last (ran tr) [] = git_remote_url)
  /\ (forall cmd code, In (EvStream cmd code) tr ->
        cmd = gh_pr_create message
                (match body with Some b => b | None => message end) merge
        /\ last (ran tr) [] = cmd
        /\ out = (if (code =? 0)%Z then Ok tt else Exit code)
        /\ exists rb pushed,
             In (EvRun git_rev_parse_branch rb) tr
             /\ In (EvRun (git_push (py_strip U (py_strip U (stdout rb)))) pushed) tr
             /\ returncode pushed = 0%Z).
Proof.
  intros E.
  exact (wp_run_eq _ _ _ _ _ (pr_default_push_spec U W message commit merge body) E).
Qed.

Lemma pr_pushes_current_branch_witness :
  let run := pr_default ascii_db (obliging one_change) (str "Fix login") true false
                        (Some (str "Details")) [] in
  let cmd := gh_pr_create (str "Fix login") (str "Details") false in
  In (EvStream cmd 0%Z) (snd run)
  /\ last (ran (snd run)) [] = cmd
  /\ fst run = Ok tt.
Proof.
  intros run cmd.
  assert (Hin : In (EvStream cmd 0%Z) (snd run))
    by (vm_compute; repeat (first [ left; reflexivity | right ])).
  split; [exact Hin|].
  destruct (pr_pushes_current_branch ascii_db (obliging one_change)
              (str "Fix login") true false (Some (str "Details"))
              (fst run) (snd run) (surjective_pairing run)) as [_ Hpr].
  destruct (Hpr cmd 0%Z Hin) as (_ & Hlast & Hout & _).
  split; [exact Hlast | exact Hout].
Defined.

Lemma pr_default_commit_spec U W message commit merge body :
  wp (pr_default U W message commit merge body) [] (fun out tr =>
    forall cmd, In cmd (ran tr) -> stages_or_commits cmd = true ->
      commit = true
      /\ (cmd = git_add_all \/ cmd = git_commit message)
      /\ exists st, In (EvRun git_status st) tr
                    /\ returncode st = 0%Z /\ reports_changes U st = true).
Proof.
  unfold pr_default. repeat wp_more.
  all: intros cmd Hin Hs; normalise_in Hin; cbn [ran flat_map app] in Hin.
  all: repeat (destruct Hin as [Hin|Hin];
               [ subst cmd;
                 first [ discriminate Hs
                       | split; [reflexivity|];
                         split; [first [left; reflexivity | right; reflexivity]|];
                         eexists; split; [find_in_snoc|];
                         split; [apply Z.eqb_eq; assumption | assumption] ]
               | ]).
  all: destruct Hin.
Qed.

(** X12: pr stages and commits only on request.  A [git add ...] or
    [git commit ...] process is started only with [--commit], only after
    [git status --porcelain] succeeded and reported changes, and it is
    [git add -A] or [git commit -m <message>]. *)
Theorem pr_commits_only_on_request U W message commit merge body out tr cmd :
  pr_default U W message commit merge body [] = (out, tr) ->
  In cmd (ran tr) -> stages_or_commits cmd = true ->
  commit = true
  /\ (cmd = git_add_all \/ cmd = git_commit message)
  /\ exists st, In (EvRun git_status st) tr
                /\ returncode st = 0%Z /\ reports_changes U st = true.
Proof.
  intros E.
  exact (wp_run_eq _ _ _ _ _ (pr_default_commit_spec U W message commit merge body) E cmd).
Qed.

Lemma pr_commits_only_on_request_witness :
  let run := pr_default ascii_db (obliging one_change) (str "Fix login") true false
                        None [] in
  In (git_commit (str "Fix login")) (ran (snd run))
  /\ exists st, In (EvRun git_status st) (snd run)
                /\ returncode st = 0%Z /\ reports_changes ascii_db st = true.
Proof.
  intros run.
  assert (Hin : In (git_commit (str "Fix login")) (ran (snd run)))
    by (vm_compute; repeat (first [ left; reflexivity | right ])).
  split; [exact Hin|].
  destruct (pr_commits_only_on_request ascii_db (obliging one_change)
              (str "Fix login") true false None (fst run) (snd run)
              (git_commit (str "Fix login")) (surjective_pairing run) Hin
              eq_refl) as (_ & _ & Hst).
  exact Hst.
Defined.

(** ** The branch table *)

Lemma split_once_at_bar l :
  mem_char l vbar = true ->
  exists b d, split_once vbar l = [b; d] /\ b ++ [vbar] ++ d = l.
Proof.
  unfold mem_char.
  induction l as [|c rest IH]; cbn [existsb split_once]; [discriminate|].
  destruct (N.eqb c vbar) eqn:Ec.
  - intros _. apply N.eqb_eq in Ec. subst c. exists [], rest. split; reflexivity.
  - rewrite N.eqb_sym, Ec. cbn [orb]. intros Hm.
    destruct (IH Hm) as (b & d & Hs & Hj). rewrite Hs.
    exists (c :: b), d. split; [reflexivity|]. cbn [app] in *. f_equal. exact Hj.
Qed.

Lemma split_once_joined b d :
  mem_char b vbar = false ->
  split_once vbar (b ++ [vbar] ++ d) = [b; d]
  /\ mem_char (b ++ [vbar] ++ d) vbar = true.
Proof.
  unfold mem_char.
  induction b as [|c b IH]; cbn [existsb split_once app].
  - intros _. rewrite N.eqb_refl. split; reflexivity.
  - intros Hm. apply orb_false_iff in Hm. destruct Hm as [Hc Hm].
    rewrite Hc. rewrite N.eqb_sym in Hc. rewrite Hc.
    destruct (IH Hm) as [Hs Hb]. cbn [app] in Hs, Hb. rewrite Hs.
    split; [reflexivity|]. exact Hb.
Qed.

Lemma branch_rows_join (lines : list text) :
  map ref_line (branch_rows lines) = filter has_bar lines.
Proof.
  unfold branch_rows, has_bar.
  induction lines as [|l lines IH]; [reflexivity|].
  cbn [flat_map filter]. rewrite map_app, IH.
  destruct (mem_char l vbar) eqn:Hm; [|reflexivity].
  destruct (split_once_at_bar l Hm) as (b & d & Hs & Hj).
  rewrite Hs. cbn [map app]. unfold ref_line. cbn [fst snd]. rewrite Hj. reflexivity.
Qed.

Lemma branch_table_spec U W :
  wp (branch U W) [] (fun out tr =>
    forall rows ok, In (EvPrintBranches rows ok) tr ->
      exists res,
        In (EvRun git_for_each_ref res) tr
        /\ returncode res = 0%Z
        /\ map ref_line rows
           = filter has_bar (split_on newline (py_strip U (py_strip U (stdout res))))
        /\ out = (if ok then Ok tt else Raise RichError)).
Proof.
  unfold branch. repeat wp_more.
  all: intros rows ok Hin; normalise_in Hin; in_history Hin.
  all: eexists; split; [find_in_snoc|].
  all: split; [apply Z.eqb_eq; assumption|].
  all: split; [apply branch_rows_join | reflexivity].
Qed.

(** X13: the table that branch prints has one row for every line of the
    output of [git for-each-ref] that holds a [|], in order, and none for
    the others: joining each row with [|] gives back exactly those lines.
    So the test [len(parts) == 2] never drops a line, and further [|]
    characters stay in the date column.  The table is printed only after the
    query succeeded. *)
Theorem branch_shows_the_listed_lines U W out tr rows ok :
  branch U W [] = (out, tr) ->
  In (EvPrintBranches rows ok) tr ->
  exists res,
    In (EvRun git_for_each_ref res) tr
    /\ returncode res = 0%Z
    /\ map ref_line rows
       = filter has_bar (split_on newline (py_strip U (py_strip U (stdout res))))
    /\ out = (if ok then Ok tt else Raise RichError).
Proof.
  intros E.
  exact (wp_run_eq _ _ _ _ _ (branch_table_spec U W) E rows ok).
Qed.

Lemma branch_shows_the_listed_lines_witness :
  let run := branch ascii_db (obliging recent_branches) [] in
  let rows := [(str "main", str "2 days ago");
               (str "feature/login", str "3 weeks ago")] in
  In (EvPrintBranches rows true) (snd run)
  /\ exists res,
       In (EvRun git_for_each_ref res) (snd run)
       /\ returncode res = 0%Z
       /\ map ref_line rows
          = filter has_bar
              (split_on newline (py_strip ascii_db (py_strip ascii_db (stdout res))))
       /\ fst run = Ok tt.
Proof.
  intros run rows.
  assert (Hin : In (EvPrintBranches rows true) (snd run))
    by (vm_compute; repeat (first [ left; reflexivity | right ])).
  split; [exact Hin|].
  exact (branch_shows_the_listed_lines ascii_db (obliging recent_branches)
           (fst run) (snd run) rows true (surjective_pairing run) Hin).
Defined.

(** X14: the listing is read back faithfully: when no branch name holds a
    [|], the lines [<branch>|<date>] give the rows (branch, date) again. *)
Theorem branch_rows_round_trip (rows : list (text * text)) :
  Forall (fun row => mem_char (fst row) vbar = false) rows ->
  branch_rows (map ref_line rows) = rows.
Proof.
  unfold branch_rows.
  induction 1 as [|[b d] rows Hb _ IH]; [reflexivity|].
  cbn [map flat_map]. rewrite IH. unfold ref_line. cbn [fst snd] in *.
  destruct (split_once_joined b d Hb) as [Hs Hm]. rewrite Hm, Hs. reflexivity.
Qed.

Lemma branch_rows_round_trip_witness :
  branch_rows (map ref_line [(str "main", str "2 days ago");
                             (str "feature/login", str "3 weeks ago | stale")])
  = [(str "main", str "2 days ago");
     (str "feature/login", str "3 weeks ago | stale")].
Proof.
  apply (branch_rows_round_trip
           [(str "main", str "2 days ago");
            (str "feature/login", str "3 weeks ago | stale")]).
  repeat constructor.
Defined.

(** ** The tally of checks *)

Lemma count_check_step U c check c' :
  count_check U c check = Ok c' ->
  (tallied c <= tallied c' <= tallied c + 1)%N.
Proof.
  unfold count_check. intros H.
  repeat match type of H with
         | context [match ?x with _ => _ end] => destruct x
         | context [if ?x then _ else _] => destruct x
         end;
  first [ discriminate H
        | injection H as <-;
          unfold tallied, add_success, add_failure, add_pending, add_skipped;
          cbn [success_count failure_count pending_count skipped_count]; lia ].
Qed.

Lemma count_checks_bound U checks : forall c c',
  count_checks U c checks = Ok c' ->
  (tallied c <= tallied c' <= tallied c + N.of_nat (List.length checks))%N.
Proof.
  induction checks as [|check rest IH]; intros c c' H.
  - injection H as <-. simpl. lia.
  - cbn [count_checks] in H.
    destruct (count_check U c check) as [c1| |] eqn:E1; try discriminate H.
    apply count_check_step in E1. apply IH in H.
    cbn [List.length]. lia.
Qed.

(** X15: the four counters never count a check twice: after a tally that
    started at zero, passed + failed + pending + skipped is at most the
    number of checks (a check in no known state is counted nowhere, so the
    total printed after the slash can be larger than the sum). *)
Theorem tally_within_total U checks c :
  count_checks U no_counts checks = Ok c ->
  (tallied c <= N.of_nat (List.length checks))%N.
Proof.
  intros H. apply count_checks_bound in H.
  change (tallied no_counts) with 0%N in H. lia.
Qed.

Lemma tally_within_total_witness :
  exists c, count_checks ascii_db no_counts mixed_checks = Ok c
            /\ (tallied c <= N.of_nat (List.length mixed_checks))%N.
Proof.
  destruct (count_checks ascii_db no_counts mixed_checks) as [c| |] eqn:E;
    [| exfalso; vm_compute in E; discriminate E
     | exfalso; vm_compute in E; discriminate E].
  exists c. split; [reflexivity|].
  exact (tally_within_total ascii_db mixed_checks c E).
Defined.

(** ** The table of pull requests *)

Lemma pr_table_rows_rows U prs : forall rows,
  pr_table_rows U prs = Ok rows -> Forall2 (row_of U) prs rows.
Proof.
  induction prs as [|pr prs IH]; intros rows H; cbn [pr_table_rows] in H.
  - injection H as <-. constructor.
  - destruct (pr_table_row U pr) as [row| |] eqn:E1; try discriminate H.
    destruct (pr_table_rows U prs) as [rest| |] eqn:E2; try discriminate H.
    injection H as <-. constructor; [|apply IH; reflexivity].
    unfold pr_table_row in E1. unfold row_of.
    destruct (check_status U pr) as [status| |]; try discriminate E1.
    destruct (dict_item pr (str "number")) as [n| |];
      destruct (dict_item pr (str "title")) as [t| |];
      destruct (dict_item pr (str "headRefName")) as [b| |];
      try discriminate E1.
    destruct (renderable t) eqn:Ht; [|discriminate E1].
    destruct (renderable b) eqn:Hb; [|discriminate E1].
    injection E1 as <-. repeat split; assumption.
Qed.

Lemma list_prs_table_spec U W json_loads author :
  wp (list_prs U W json_loads author) [] (fun out tr =>
    forall rows ok, In (EvPrintPrs rows ok) tr ->
      exists res prs items,
        In (EvRun (gh_pr_list author) res) tr
        /\ returncode res = 0%Z
        /\ json_loads (py_strip U (stdout res)) = Some prs
        /\ py_iter prs = Ok items
        /\ Forall2 (row_of U) items rows
        /\ out = (if ok then Ok tt else Raise RichError)).
Proof.
  unfold list_prs. repeat wp_more.
  all: intros rows ok Hin; normalise_in Hin; in_history Hin.
  all: do 3 eexists; split; [find_in_snoc|].
  all: split; [apply Z.eqb_eq; assumption|].
  all: split; [eassumption|].
  all: split; [eassumption|].
  all: split; [apply pr_table_rows_rows; assumption | reflexivity].
Qed.

(** X16: the table that list prints has one row for every element of the
    decoded output of [gh pr list], in order: the row of a PR holds its
    ["number"], ["title"] and ["headRefName"] (the last two strings or
    [null]) and the summary of its checks.  The table is printed only after
    the query succeeded and its output was decoded, and every PR gave a
    row. *)
Theorem list_prs_one_row_per_pr U W json_loads author out tr rows ok :
  list_prs U W json_loads author [] = (out, tr) ->
  In (EvPrintPrs rows ok) tr ->
  exists res prs items,
    In (EvRun (gh_pr_list author) res) tr
    /\ returncode res = 0%Z
    /\ json_loads (py_strip U (stdout res)) = Some prs
    /\ py_iter prs = Ok items
    /\ Forall2 (row_of U) items rows
    /\ out = (if ok then Ok tt else Raise RichError).
Proof.
  intros E.
  exact (wp_run_eq _ _ _ _ _ (list_prs_table_spec U W json_loads author) E rows ok).
Qed.

Lemma list_prs_one_row_per_pr_witness :
  let run := list_prs ascii_db (obliging mixed_listing) mixed_loads (str "@me") [] in
  let rows := [{| row_number := JInt 7; row_title := JStr (str "Fix login");
                  row_branch := JStr (str "fix-login");
                  row_checks := cross_mark ++ str " 1/3 failed" |}] in
  In (EvPrintPrs rows true) (snd run)
  /\ exists res prs items,
       In (EvRun (gh_pr_list (str "@me")) res) (snd run)
       /\ returncode res = 0%Z
       /\ mixed_loads (py_strip ascii_db (stdout res)) = Some prs
       /\ py_iter prs = Ok items
       /\ Forall2 (row_of ascii_db) items rows
       /\ fst run = Ok tt.
Proof.
  intros run rows.
  assert (Hin : In (EvPrintPrs rows true) (snd run))
    by (vm_compute; repeat (first [ left; reflexivity | right ])).
  split; [exact Hin|].
  exact (list_prs_one_row_per_pr ascii_db (obliging mixed_listing) mixed_loads
           (str "@me") (fst run) (snd run) rows true (surjective_pairing run) Hin).
Defined.

(** ** The name of the repository *)

Lemma last_clear p (l : text) d :
  starts_clear p (rev l) -> p d = false -> p (last l d) = false.
Proof.
  destruct (rev l) as [|x r] eqn:E; intros H Hd.
  - apply (f_equal (@rev N)) in E. rewrite rev_involutive in E. subst l. exact Hd.
  - apply (f_equal (@rev N)) in E. rewrite rev_involutive in E. subst l.
    cbn [rev]. rewrite last_last. exact H.
Qed.

Lemma rstrip_by_last p s d : p d = false -> p (last (rstrip_by p s) d) = false.
Proof.
  intros Hd. apply last_clear; [|exact Hd].
  unfold rstrip_by. rewrite rev_involutive. apply lstrip_by_clear.
Qed.

Lemma last_segment_last p sep s d :
  p d = false -> p (last s d) = false -> p (last (last_segment sep s) d) = false.
Proof.
  intros Hd Hs. destruct (existsb (N.eqb sep) s) eqn:E.
  - destruct (last_segment_split sep s E) as [x Hx].
    revert Hx. generalize (last_segment sep s). intros seg Hx.
    destruct seg as [|c seg]; [exact Hd|].
    destruct (@exists_last _ (c :: seg)) as (l' & a & El); [discriminate|].
    rewrite El in Hx |- *. rewrite last_last.
    rewrite Hx in Hs.
    replace (x ++ sep :: l' ++ [a]) with ((x ++ sep :: l') ++ [a]) in Hs
      by (rewrite <- app_assoc; reflexivity).
    rewrite last_last in Hs. exact Hs.
  - rewrite (last_segment_no_sep sep s E). exact Hs.
Qed.

Lemma get_repo_name_name_spec U W h :
  wp (get_repo_name U W) h (fun out tr =>
    exists n t, out = Ok n /\ tr = h ++ t
      /\ forall r, first_run git_remote_url t = Some r ->
           returncode r = 0%Z -> nonempty (py_strip U (stdout r)) = true ->
           n = last_segment slash
                 (py_rstrip_chars (str ".git") (py_strip U (stdout r)))
           /\ has_slash n = false
           /\ mem_char (str ".git") (last n 0%N) = false).
Proof.
  unfold get_repo_name. repeat wp_more.
  all: do 2 eexists; split; [reflexivity|].
  all: split; [rewrite <- ?app_assoc; reflexivity|].
  all: intros r E Hr Hn; cbn in E; injection E as <-.
  all: first
    [ exfalso;
      match goal with
      | H : _ && _ = false |- _ => rewrite Hr, Hn in H; discriminate H
      end
    | split; [reflexivity|]; split; [apply last_segment_clear|];
      apply last_segment_last; [reflexivity|];
      apply rstrip_by_last; reflexivity ].
Qed.

(** X17: get_repo_name always returns a name.  When
    [git remote get-url origin] succeeds and prints something, the name is
    the text after the last [/] of the URL from which every trailing [.],
    [g], [i] and [t] has been taken ([rstrip] takes characters, not the
    suffix [.git]): it holds no [/] and never ends in one of these four
    characters. *)
Theorem repo_name_from_origin U W h out tr :
  get_repo_name U W h = (out, tr) ->
  exists n t, out = Ok n /\ tr = h ++ t
    /\ forall r, first_run git_remote_url t = Some r ->
         returncode r = 0%Z -> nonempty (py_strip U (stdout r)) = true ->
         n = last_segment slash
               (py_rstrip_chars (str ".git") (py_strip U (stdout r)))
         /\ has_slash n = false
         /\ mem_char (str ".git") (last n 0%N) = false.
Proof.
  intros E. exact (wp_run_eq _ _ _ _ _ (get_repo_name_name_spec U W h) E).
Qed.

Lemma repo_name_from_origin_witness :
  fst (get_repo_name ascii_db (obliging two_worktrees) []) = Ok (str "d").
Proof.
  destruct (repo_name_from_origin ascii_db (obliging two_worktrees) []
              (fst (get_repo_name ascii_db (obliging two_worktrees) []))
              (snd (get_repo_name ascii_db (obliging two_worktrees) []))
              (surjective_pairing _)) as (n & t & Hn & Ht & H).
  rewrite Hn. f_equal.
  cbn [app] in Ht. rewrite <- Ht in H.
  destruct (H (completed 0 (match lookup_cmd git_remote_url two_worktrees with
                            | Some o => o | None => [] end))
              eq_refl eq_refl eq_refl) as [Hname _].
  rewrite Hname. vm_compute. reflexivity.
Defined.

(** ** The main worktree *)

Lemma first_porcelain_line e es :
  forallb entry_ok (e :: es) = true ->
  find (startswith (str "worktree ")) (split_on newline (porcelain (e :: es)))
  = Some (str "worktree " ++ wt_path e)
  /\ nonempty (porcelain (e :: es)) = true.
Proof.
  intros H. unfold porcelain. rewrite split_lines.
  - split; reflexivity.
  - apply porcelain_lines_single. exact H.
  - discriminate.
Qed.

Lemma get_main_worktree_path_spec U W h :
  wp (get_main_worktree U W) h (fun out tr =>
    exists p t, out = Ok p /\ tr = h ++ t
      /\ forall r e es, first_run git_worktree_porcelain t = Some r ->
           returncode r = 0%Z ->
           py_strip U (stdout r) = porcelain (e :: es) ->
           forallb entry_ok (e :: es) = true ->
           p = Path (wt_path e)).
Proof.
  unfold get_main_worktree. repeat wp_more.
  all: do 2 eexists; split; [reflexivity|].
  all: split; [rewrite <- ?app_assoc; reflexivity|].
  all: intros r e es E Hr Hs Hok; cbn in E; injection E as <-.
  all: destruct (first_porcelain_line e es Hok) as [Hf Hn].
  all: rewrite Hs in *.
  all: first
    [ match goal with
      | H : find _ _ = Some _ |- _ =>
          rewrite Hf in H; injection H as <-; reflexivity
      end
    | exfalso;
      match goal with
      | H : find _ _ = None |- _ => rewrite Hf in H; discriminate H
      end
    | exfalso;
      match goal with
      | H : _ && _ = false |- _ => rewrite Hr, Hn in H; discriminate H
      end ].
Qed.

(** X18: get_main_worktree always returns a path.  When
    [git worktree list --porcelain] succeeds and lists worktrees, the path is
    that of the first entry, whole: what follows [worktree ] on its first
    line, spaces included. *)
Theorem main_worktree_is_first_entry U W h out tr :
  get_main_worktree U W h = (out, tr) ->
  exists p t, out = Ok p /\ tr = h ++ t
    /\ forall r e es, first_run git_worktree_porcelain t = Some r ->
         returncode r = 0%Z ->
         py_strip U (stdout r) = porcelain (e :: es) ->
         forallb entry_ok (e :: es) = true ->
         p = Path (wt_path e).
Proof.
  intros E. exact (wp_run_eq _ _ _ _ _ (get_main_worktree_path_spec U W h) E).
Qed.

Lemma main_worktree_is_first_entry_witness :
  fst (get_main_worktree ascii_db (obliging two_worktrees) [])
  = Ok (Path (str "/home/u/my repo")).
Proof.
  destruct (main_worktree_is_first_entry ascii_db (obliging two_worktrees) []
              (fst (get_main_worktree ascii_db (obliging two_worktrees) []))
              (snd (get_main_worktree ascii_db (obliging two_worktrees) []))
              (surjective_pairing _)) as (p & t & Hp & Ht & H).
  rewrite Hp. f_equal.
  cbn [app] in Ht. rewrite <- Ht in H.
  exact (H (completed 0 (match lookup_cmd git_worktree_porcelain two_worktrees with
                         | Some o => o | None => [] end))
           {| wt_path := str "/home/u/my repo"; wt_head := str "1111111";
              wt_ref := Some (str "refs/heads/main") |}
           [{| wt_path := str "/home/u/my repo-feat"; wt_head := str "2222222";
               wt_ref := Some (str "refs/heads/feat") |}]
           eq_refl eq_refl eq_refl eq_refl).
Defined.

(** ** Sibling worktrees *)

Lemma startswith_app p s : startswith p (p ++ s) = true.
Proof.
  induction p as [|c p IH]; [reflexivity|].
  cbn [app startswith]. rewrite N.eqb_refl. exact IH.
Qed.

Lemma cmd_eqb_refl l : cmd_eqb l l = true.
Proof.
  induction l as [|a l IH]; [reflexivity|].
  cbn [cmd_eqb]. rewrite text_eqb_refl. exact IH.
Qed.

Lemma cmd_eqb_longer l x : cmd_eqb (l ++ [x]) l = false.
Proof.
  induction l as [|a l IH]; [reflexivity|].
  cbn [app cmd_eqb]. rewrite IH. apply andb_false_r.
Qed.

Lemma path_eqb_refl p : path_eqb p p = true.
Proof.
  unfold path_eqb. rewrite cmd_eqb_refl. destruct (p_root p); reflexivity.
Qed.

Lemma text_eqb_neq a b : a <> b -> text_eqb a b = false.
Proof.
  intros H. destruct (text_eqb a b) eqn:E; [|reflexivity].
  apply text_eqb_eq in E. contradiction.
Qed.

(** The relative path of one or more plain segments. *)
Lemma Path_relative s :
  startswith [slash] s = false ->
  Path s = {| p_root := Relative;
              p_parts := filter (fun seg => negb (text_eqb seg [] || text_eqb seg (str ".")))
                                (split_on slash s) |}.
Proof.
  intros H. unfold Path. f_equal.
  change (str "/") with [slash]. rewrite H.
  destruct s as [|c s]; [reflexivity|].
  change (str "//") with [slash; slash]. cbn [startswith] in H |- *.
  apply andb_false_iff in H. destruct H as [H|H]; [|discriminate H].
  rewrite H. reflexivity.
Qed.

Lemma sibling_name_plain repo_name branch :
  has_slash repo_name = false ->
  startswith [slash] (repo_name ++ str "-" ++ branch) = false
  /\ repo_name ++ str "-" ++ branch <> []
  /\ repo_name ++ str "-" ++ branch <> str ".".
Proof.
  intros H. destruct repo_name as [|c r].
  - repeat split; discriminate.
  - cbn [has_slash existsb] in H. apply orb_false_elim in H. destruct H as [Hc _].
    split; [|split].
    + cbn [app startswith]. rewrite Hc. reflexivity.
    + discriminate.
    + cbn [app]. intros E. injection E as _ E.
      destruct r; discriminate E.
Qed.

Lemma has_slash_app a b : has_slash (a ++ b) = has_slash a || has_slash b.
Proof. unfold has_slash. apply existsb_app. Qed.

(** X19: a worktree that wt create makes for a branch without [/] is one
    that wt list shows.  When neither the repository name nor the branch
    holds a [/], the path [parent / (repo-branch)] lies directly in the
    parent of the main worktree, its last segment is [repo-branch], and the
    test of wt list accepts it. *)
Theorem created_worktree_is_listed main_worktree repo_name branch :
  has_slash repo_name = false ->
  has_slash branch = false ->
  parent (sibling_path main_worktree repo_name branch) = parent main_worktree
  /\ name (sibling_path main_worktree repo_name branch)
     = repo_name ++ str "-" ++ branch
  /\ is_ghg_managed repo_name (parent main_worktree)
       (sibling_path main_worktree repo_name branch) = true.
Proof.
  intros Hr Hb.
  destruct (sibling_name_plain repo_name branch Hr) as (Hs & Hne & Hdot).
  assert (Hseg : has_slash (repo_name ++ str "-" ++ branch) = false).
  { rewrite !has_slash_app, Hr, Hb. reflexivity. }
  assert (E : sibling_path main_worktree repo_name branch
              = {| p_root := p_root main_worktree;
                   p_parts := removelast (p_parts main_worktree)
                              ++ [repo_name ++ str "-" ++ branch] |}).
  { unfold sibling_path, joinpath. rewrite (Path_relative _ Hs).
    cbn [p_root p_parts parent]. rewrite (split_on_no_sep slash _ Hseg).
    cbn [filter]. rewrite (text_eqb_neq _ _ Hne), (text_eqb_neq _ _ Hdot).
    reflexivity. }
  assert (Hp : parent (sibling_path main_worktree repo_name branch)
               = parent main_worktree).
  { rewrite E. unfold parent. cbn [p_root p_parts]. rewrite removelast_last.
    reflexivity. }
  assert (Hn : name (sibling_path main_worktree repo_name branch)
               = repo_name ++ str "-" ++ branch).
  { rewrite E. unfold name. cbn [p_parts]. apply last_last. }
  split; [exact Hp|]. split; [exact Hn|].
  unfold is_ghg_managed. rewrite Hp, Hn, path_eqb_refl.
  rewrite app_assoc. apply startswith_app.
Qed.

Lemma created_worktree_is_listed_witness :
  is_ghg_managed (str "repo") (parent (Path (str "/home/u/repo")))
    (sibling_path (Path (str "/home/u/repo")) (str "repo") (str "feat")) = true.
Proof.
  apply (created_worktree_is_listed (Path (str "/home/u/repo")) (str "repo")
           (str "feat")); reflexivity.
Defined.

Lemma removelast_length (l : list text) : List.length l <= List.length (removelast l) + 1.
Proof.
  destruct l as [|c l]; [cbn; lia|].
  destruct (@exists_last _ (c :: l)) as (l' & a & E); [discriminate|].
  rewrite E, removelast_last, length_app. cbn. lia.
Qed.

(** X20: a worktree that wt create makes for a branch with a [/] is hidden
    from wt list (without [--all]).  For the branch [a/b] the path is
    [parent / (repo-a) / b]: it is not the main worktree, and its parent is
    not the parent of the main worktree, so both tests of wt list reject
    it. *)
Theorem slashed_branch_worktree_is_hidden main_worktree repo_name a b :
  has_slash repo_name = false ->
  has_slash a = false ->
  has_slash b = false ->
  b <> [] ->
  b <> str "." ->
  path_eqb (sibling_path main_worktree repo_name (a ++ str "/" ++ b))
           main_worktree = false
  /\ is_ghg_managed repo_name (parent main_worktree)
       (sibling_path main_worktree repo_name (a ++ str "/" ++ b)) = false.
Proof.
  intros Hr Ha Hb Hne Hdot.
  destruct (sibling_name_plain repo_name (a ++ str "/" ++ b) Hr) as (Hs & _ & _).
  destruct (sibling_name_plain repo_name a Hr) as (_ & Hne' & Hdot').
  assert (Hseg : existsb (N.eqb slash) (repo_name ++ str "-" ++ a) = false).
  { change (has_slash (repo_name ++ str "-" ++ a) = false).
    rewrite !has_slash_app, Hr, Ha. reflexivity. }
  assert (E : sibling_path main_worktree repo_name (a ++ str "/" ++ b)
              = {| p_root := p_root main_worktree;
                   p_parts := removelast (p_parts main_worktree)
                              ++ [repo_name ++ str "-" ++ a; b] |}).
  { unfold sibling_path, joinpath. rewrite (Path_relative _ Hs).
    cbn [p_root p_parts parent].
    replace (repo_name ++ str "-" ++ a ++ str "/" ++ b)
      with ((repo_name ++ str "-" ++ a) ++ slash :: b)
      by (rewrite <- !app_assoc; reflexivity).
    rewrite (split_on_app slash _ b Hseg), (split_on_no_sep slash b Hb).
    cbn [filter]. rewrite (text_eqb_neq _ _ Hne'), (text_eqb_neq _ _ Hdot').
    rewrite (text_eqb_neq _ _ Hne), (text_eqb_neq _ _ Hdot).
    reflexivity. }
  rewrite E. split.
  - unfold path_eqb. cbn [p_root p_parts].
    destruct (cmd_eqb _ (p_parts main_worktree)) eqn:Ec; [|apply andb_false_r].
    apply cmd_eqb_eq in Ec. apply (f_equal (@List.length text)) in Ec.
    rewrite length_app in Ec. cbn [List.length] in Ec.
    pose proof (removelast_length (p_parts main_worktree)). lia.
  - unfold is_ghg_managed. unfold parent at 1. cbn [p_root p_parts].
    rewrite removelast_app by discriminate. cbn [removelast].
    unfold path_eqb, parent. cbn [p_root p_parts].
    rewrite cmd_eqb_longer, andb_false_r. reflexivity.
Qed.

Lemma slashed_branch_worktree_is_hidden_witness :
  is_ghg_managed (str "repo") (parent (Path (str "/home/u/repo")))
    (sibling_path (Path (str "/home/u/repo")) (str "repo")
                  (str "feature" ++ str "/" ++ str "login")) = false.
Proof.
  apply (slashed_branch_worktree_is_hidden (Path (str "/home/u/repo")) (str "repo")
           (str "feature") (str "login")); first [reflexivity | discriminate].
Defined.

(** ** Removing a worktree *)

Lemma wt_delete_branch_spec U W branch force keep_branch :
  wp (wt_delete U W branch force keep_branch) [] (fun out tr =>
    forall cmd r, In (EvRun cmd r) tr -> removes_worktree cmd = true ->
      returncode r = 0%Z ->
      out = Ok tt
      /\ last (echoed tr) ([], true) = (worktree_removed_message, false)
      /\ (if keep_branch
          then forallb (fun c => negb (touches_branch c)) (ran tr) = true
          else last (ran tr) [] = git_branch_delete branch)).
Proof.
  unfold wt_delete. repeat wp_more.
  all: intros cmd r Hin Hp Hr; normalise_in Hin.
  all: repeat (destruct Hin as [Hin|Hin];
               [ first [ discriminate Hin
                       | injection Hin; intros; subst;
                         first [ discriminate Hp
                               | exfalso;
                                 match goal with
                                 | H : (returncode _ =? 0)%Z = false |- _ =>
                                     rewrite Hr in H; discriminate H
                                 end
                               | repeat split ] ]
               | ]).
  all: destruct Hin.
Qed.

(** X21: once [git worktree remove] has succeeded, wt delete succeeds and
    ends with the message that the worktree was removed, whatever
    [git branch -D] answers.  With [--keep-branch] it starts no
    [git branch ...] process; without, its last process is
    [git branch -D <branch>] with the name as it was given. *)
Theorem wt_delete_survives_branch_failure U W branch force keep_branch
        out tr cmd r :
  wt_delete U W branch force keep_branch [] = (out, tr) ->
  In (EvRun cmd r) tr -> removes_worktree cmd = true -> returncode r = 0%Z ->
  out = Ok tt
  /\ last (echoed tr) ([], true) = (worktree_removed_message, false)
  /\ (if keep_branch
      then forallb (fun c => negb (touches_branch c)) (ran tr) = true
      else last (ran tr) [] = git_branch_delete branch).
Proof.
  intros E.
  exact (wp_run_eq _ _ _ _ _ (wt_delete_branch_spec U W branch force keep_branch)
           E cmd r).
Qed.

Lemma wt_delete_survives_branch_failure_witness :
  let run := wt_delete ascii_db (scripted feature_worktrees) (str "x") false false [] in
  In (EvRun (git_branch_delete (str "x"))
            {| returncode := 1; stdout := [];
               stderr := line "error: branch 'x' not found." |}) (snd run)
  /\ fst run = Ok tt
  /\ last (ran (snd run)) [] = git_branch_delete (str "x").
Proof.
  intros run.
  split; [vm_compute; repeat (first [ left; reflexivity | right ])|].
  assert (Hin : In (EvRun (git_worktree_remove (Path (str "/home/u/repo-x")) false)
                          (completed 0 [])) (snd run))
    by (vm_compute; repeat (first [ left; reflexivity | right ])).
  destruct (wt_delete_survives_branch_failure ascii_db (scripted feature_worktrees)
              (str "x") false false (fst run) (snd run) _ _
              (surjective_pairing run) Hin eq_refl eq_refl) as (Ho & _ & Hl).
  split; [exact Ho | exact Hl].
Defined.

(** ** The shell line of wt create *)

Lemma wt_create_shell_spec U W branch new_branch :
  wp (wt_create U W branch new_branch true) [] (fun out tr =>
    match out with
    | Ok _ => exists p r,
        In (EvRun (git_worktree_add p branch new_branch) r) tr
        /\ returncode r = 0%Z
        /\ stdout_lines tr = [shell_line p]
    | _ => stdout_lines tr = []
    end).
Proof.
  unfold wt_create, when. cbn [negb]. repeat wp_more.
  all: cbv beta iota.
  all: first [ reflexivity
             | do 2 eexists; split; [find_in_snoc|];
               split; [apply Z.eqb_eq; assumption | reflexivity] ].
Qed.

(** X22: with [--shell], wt create writes to the standard output either
    nothing (when it fails) or the single line
    [cd "<path>" && uv sync] for the path it gave to a successful
    [git worktree add]; every other message goes to the error stream or is
    left out, so the output can be handed to [eval]. *)
Theorem wt_create_shell_output U W branch new_branch out tr :
  wt_create U W branch new_branch true [] = (out, tr) ->
  match out with
  | Ok _ => exists p r,
      In (EvRun (git_worktree_add p branch new_branch) r) tr
      /\ returncode r = 0%Z
      /\ stdout_lines tr = [shell_line p]
  | _ => stdout_lines tr = []
  end.
Proof.
  intros E.
  exact (wp_run_eq _ _ _ _ _ (wt_create_shell_spec U W branch new_branch) E).
Qed.

Lemma wt_create_shell_output_witness :
  let run := wt_create ascii_db (obliging two_worktrees) (str "fix") true true [] in
  fst run = Ok tt
  /\ exists p r,
       In (EvRun (git_worktree_add p (str "fix") true) r) (snd run)
       /\ returncode r = 0%Z
       /\ stdout_lines (snd run) = [shell_line p].
Proof.
  intros run.
  assert (Ho : fst run = Ok tt) by (vm_compute; reflexivity).
  split; [exact Ho|].
  pose proof (wt_create_shell_output ascii_db (obliging two_worktrees) (str "fix")
                true (fst run) (snd run) (surjective_pairing run)) as H.
  rewrite Ho in H. exact H.
Defined.

(** ** The image of the branch namer *)

(** X23: the strings that [title_to_branch_name] can return are exactly its
    fixed points, the strings that it maps to themselves.  They are the
    strings in which every character is one that [lower()] leaves as it is
    and is alphanumeric or a hyphen, neither white space nor an underscore,
    and in which no hyphen stands at either end or next to another hyphen.
    (A character without a lower-case form, such as a digit or a letter of an
    uncased script, is left as it is and so can occur.) *)
Theorem branch_names_are_the_fixed_points U r :
  unicode_laws U ->
  ((exists title, title_to_branch_name U title = r)
   <-> title_to_branch_name U r = r)
  /\ (title_to_branch_name U r = r <-> kebab_shape U r).
Proof.
  intros L.
  assert (Hfix : title_to_branch_name U r = r <-> kebab_shape U r).
  { split.
    - intros E. rewrite <- E. apply title_to_branch_name_shape. exact L.
    - apply title_to_branch_name_fixed. }
  split; [|exact Hfix]. split.
  - intros [title <-]. apply title_to_branch_name_fixed.
    apply title_to_branch_name_shape. exact L.
  - intros E. exists r. exact E.
Qed.

Lemma branch_names_are_the_fixed_points_witness :
  title_to_branch_name ascii_db (str "fix-login-bug") = str "fix-login-bug"
  /\ kebab_shape ascii_db (str "fix-login-bug")
  /\ ~ (exists title, title_to_branch_name ascii_db title = str "Fix_Login").
Proof.
  destruct (branch_names_are_the_fixed_points ascii_db (str "fix-login-bug")
              ascii_db_laws) as [_ H2].
  destruct (branch_names_are_the_fixed_points ascii_db (str "Fix_Login")
              ascii_db_laws) as [H3 _].
  assert (E : title_to_branch_name ascii_db (str "fix-login-bug") = str "fix-login-bug")
    by (vm_compute; reflexivity).
  split; [exact E|]. split; [exact (proj1 H2 E)|].
  intros H. apply H3 in H. vm_compute in H. discriminate H.
Defined.

(** ** Captured output *)

Lemma strip_by_idem p s : strip_by p (strip_by p s) = strip_by p s.
Proof.
  destruct (strip_by_clear p s) as [H1 H2]. apply strip_by_id; assumption.
Qed.

(** X24: what run_git_command returns is already stripped: the output and
    the error text neither start nor end with white space, so the further
    [.strip()] that the handlers apply to them changes nothing, and the one
    process is recorded. *)
Theorem run_git_command_output_is_stripped U W cmd h code out err tr :
  run_git_command U W cmd h = (Ok (code, out, err), tr) ->
  py_strip U out = out /\ py_strip U err = err
  /\ starts_clear (isspace U) out /\ starts_clear (isspace U) (rev out)
  /\ exists res, tr = h ++ [EvRun cmd res] /\ code = returncode res.
Proof.
  unfold run_git_command. intros E. injection E as <- <- <- <-.
  unfold py_strip. rewrite !strip_by_idem.
  destruct (strip_by_clear (isspace U) (stdout (w_run W h cmd))) as [H1 H2].
  repeat split; try assumption.
  eexists. split; reflexivity.
Qed.

Lemma run_git_command_output_is_stripped_witness :
  py_strip ascii_db (str "main") = str "main".
Proof.
  exact (proj1 (run_git_command_output_is_stripped ascii_db (obliging two_commits)
                  git_rev_parse_branch [] 0%Z (str "main") []
                  [EvRun git_rev_parse_branch (completed 0 (line "main"))]
                  eq_refl)).
Defined.

(** * The rule on exit codes *)

(** The cherry-pick loop: when it goes on to the end, every run has
    succeeded and nothing went to the error stream. *)
Lemma wp_cherry_pick_each_quiet U W commits : forall total i h Q,
  (forall t, forallb cherry_pick_event t = true -> forallb quiet_success t = true ->
             Q (Ok tt) (h ++ t)) ->
  (forall t, forallb cherry_pick_event t = true ->
             (exists cmd res, In (EvRun cmd res) t /\ returncode res <> 0%Z) ->
             Q (Exit 1) (h ++ t)) ->
  wp (cherry_pick_each U W total i commits) h Q.
Proof.
  induction commits as [|commit_hash rest IH]; intros total i h Q Hok Hexit.
  - cbn [cherry_pick_each]. apply wp_ret.
    rewrite <- (app_nil_r h). apply Hok; reflexivity.
  - cbn [cherry_pick_each]. wp_run.
    all: try (apply IH; [intros t Ht Hq | intros t Ht (cmd & r & Hin & Hne)];
              repeat rewrite <- app_assoc; cbn [app];
              [ apply Hok | apply Hexit ];
              first [ simpl; exact Ht
                    | cbn [forallb quiet_success negb andb];
                      match goal with
                      | H : (_ =? 0)%Z = true |- _ => rewrite H
                      end; exact Hq
                    | exists cmd, r; split; [right; right; exact Hin | exact Hne] ]).
    all: repeat rewrite <- app_assoc; cbn [app]; apply Hexit; [reflexivity|].
    all: eexists; eexists; split; [right; left; reflexivity|].
    all: apply Z.eqb_neq; assumption.
Qed.

Ltac wp_quiet :=
  first [ lazymatch goal with
          | |- wp (cherry_pick_each _ _ _ _ _) _ _ =>
              apply wp_cherry_pick_each_quiet; [intros ? ? ? | intros ? ? ?]
          end; cbv beta iota zeta
        | wp_more ].

Lemma loop_run_succeeded t cmd res :
  forallb quiet_success t = true -> In (EvRun cmd res) t -> returncode res = 0%Z.
Proof.
  intros Ht Hin. rewrite forallb_forall in Ht.
  apply Z.eqb_eq. exact (Ht _ Hin).
Qed.

Lemma loop_echo_quiet t msg :
  forallb quiet_success t = true -> ~ In (EvEcho msg true) t.
Proof.
  intros Ht Hin. rewrite forallb_forall in Ht.
  specialize (Ht _ Hin). discriminate Ht.
Qed.

Lemma loop_run_is_pick t cmd res :
  forallb cherry_pick_event t = true -> In (EvRun cmd res) t ->
  propagating_captures cmd = false.
Proof.
  intros Ht Hin. rewrite forallb_forall in Ht. specialize (Ht _ Hin).
  cbn [cherry_pick_event] in Ht.
  destruct cmd as [|a [|b rest]]; cbn [cmd_prefix] in Ht; try discriminate Ht.
  - apply andb_prop in Ht. destruct Ht as [_ Ht]. discriminate Ht.
  - apply andb_prop in Ht. destruct Ht as [Ha Ht].
    apply andb_prop in Ht. destruct Ht as [Hb _].
    apply text_eqb_eq in Ha, Hb. subst a b. reflexivity.
Qed.

(** A failed step of a history. *)
Ltac capture_event Hin Hne Htol :=
  first [ discriminate Hin
        | injection Hin; intros; subst;
          first [ exfalso; apply Hne; apply Z.eqb_eq; assumption
                | discriminate Htol
                | reflexivity ] ].

Ltac capture_loop Hin Hne :=
  first [ exfalso; apply Hne; eapply loop_run_succeeded; eassumption
        | match goal with
          | H : forallb cherry_pick_event _ = true |- _ =>
              rewrite (loop_run_is_pick _ _ _ H Hin); reflexivity
          end ].

Ltac captures_leaf :=
  intros ? ? Hin Hne Htol; normalise_in Hin;
  repeat lazymatch type of Hin with
         | In _ (_ :: _) =>
             destruct Hin as [Hin|Hin]; [capture_event Hin Hne Htol | ]
         | In _ (_ ++ _) =>
             apply in_app_or in Hin; destruct Hin as [Hin|Hin];
             [capture_loop Hin Hne | ]
         | In _ [] => destruct Hin
         | In _ ?t => is_var t; capture_loop Hin Hne
         end.

(** An error message of a history. *)
Ltac error_event Hin Hs :=
  first [ discriminate Hin
        | injection Hin; intros; subst; discriminate Hs ].

Ltac error_loop Hin :=
  exfalso; eapply loop_echo_quiet; eassumption.

Ltac errors_leaf :=
  intros [? [Hin Hs]];
  first [ eexists; split;
          [ reflexivity
          | first [ discriminate | apply Z.eqb_neq; assumption ] ]
        | normalise_in Hin;
          repeat lazymatch type of Hin with
                 | In _ (_ :: _) =>
                     destruct Hin as [Hin|Hin]; [error_event Hin Hs | ]
                 | In _ (_ ++ _) =>
                     apply in_app_or in Hin; destruct Hin as [Hin|Hin];
                     [error_loop Hin | ]
                 | In _ [] => destruct Hin
                 | In _ ?t => is_var t; error_loop Hin
                 end ].

Ltac fails_leaf :=
  first [ no_exit
        | split; [ unfold passes_on_captures; solve [captures_leaf]
                 | unfold errors_end, reports_error; solve [errors_leaf] ] ].

Section Failures.
Variable U : unicode_db.
Variable W : world.
Variable json_loads : text -> option json.

Lemma move_fails branch_name :
  wp (move U W branch_name) [] (fun out tr =>
    passes_on_captures (Move branch_name) out tr /\ errors_end out tr).
Proof. unfold move. repeat wp_more. all: fails_leaf. Qed.

Lemma diff_fails :
  wp (diff U W) [] (fun out tr => passes_on_captures Diff out tr /\ errors_end out tr).
Proof. unfold diff. repeat wp_more. all: fails_leaf. Qed.

Lemma branch_fails :
  wp (branch U W) [] (fun out tr => passes_on_captures Branch out tr /\ errors_end out tr).
Proof. unfold branch. repeat wp_more. all: fails_leaf. Qed.

Lemma merge_fails pr_number :
  wp (merge W pr_number) [] (fun out tr =>
    passes_on_captures (Merge pr_number) out tr /\ errors_end out tr).
Proof. unfold merge. repeat wp_more. all: fails_leaf. Qed.

Lemma list_prs_fails author :
  wp (list_prs U W json_loads author) [] (fun out tr =>
    passes_on_captures (ListPrs author) out tr /\ errors_end out tr).
Proof. unfold list_prs. repeat wp_more. all: fails_leaf. Qed.

Lemma pr_default_fails message commit m body :
  wp (pr_default U W message commit m body) [] (fun out tr =>
    passes_on_captures (Pr message commit m body) out tr /\ errors_end out tr).
Proof. unfold pr_default. repeat wp_more. all: fails_leaf. Qed.

Lemma wt_create_fails b new_branch shell :
  wp (wt_create U W b new_branch shell) [] (fun out tr =>
    passes_on_captures (WtCreate b new_branch shell) out tr /\ errors_end out tr).
Proof. destruct new_branch; unfold wt_create; repeat wp_more. all: fails_leaf. Qed.

Lemma wt_delete_fails b force keep_branch :
  wp (wt_delete U W b force keep_branch) [] (fun out tr =>
    passes_on_captures (WtDelete b force keep_branch) out tr /\ errors_end out tr).
Proof. unfold wt_delete. repeat wp_more. all: fails_leaf. Qed.

Lemma wt_list_fails all_worktrees :
  wp (wt_list U W all_worktrees) [] (fun out tr =>
    passes_on_captures (WtList all_worktrees) out tr /\ errors_end out tr).
Proof. unfold wt_list. repeat wp_more. all: fails_leaf. Qed.

Lemma cherry_fails title m num_commits body :
  wp (cherry U W title m num_commits body) [] (fun out tr =>
    passes_on_captures (Cherry title m num_commits body) out tr /\ errors_end out tr).
Proof. unfold cherry. repeat wp_quiet. all: fails_leaf. Qed.

End Failures.

(** The reason of a [typer.Exit]. *)
Ltac in_loop_tail Hin := repeat right; exact Hin.

Ltac solve_first_run :=
  repeat (first [ progress simpl | rewrite text_eqb_refl ]); reflexivity.

Ltac failed_capture :=
  first [ match goal with
          | H : (returncode ?r =? 0)%Z = false |- _ =>
              eexists; exists r; split; [find_in|];
              split; [apply Z.eqb_neq; exact H | reflexivity]
          end
        | match goal with
          | H : exists cmd res, In (EvRun cmd res) _ /\ returncode res <> 0%Z |- _ =>
              let cmd := fresh "cmd" in
              let r := fresh "r" in
              let Hin := fresh "Hin" in
              let Hne := fresh "Hne" in
              destruct H as (cmd & r & Hin & Hne);
              exists cmd, r; split; [in_loop_tail Hin|];
              split; [exact Hne | reflexivity]
          end ].

Ltac failed_stream :=
  match goal with
  | H : (?c =? 0)%Z = false |- _ =>
      eexists; exists c; split; [find_in | apply Z.eqb_neq; exact H]
  end.

Ltac failed_validation :=
  cbn [validation_failed];
  first [ (* cherry: --num with changes *)
          left; do 2 eexists; split; [reflexivity|];
          split; [solve_first_run | unfold reports_changes; assumption]
        | (* cherry: the number of commits *)
          right; eexists; split; [unfold git_rev_list, requested; solve_first_run|];
          split; [apply Z.eqb_eq; assumption|];
          unfold commit_lines, requested; apply Z.eqb_neq; assumption
        | (* list: no JSON *)
          eexists; split; [unfold gh_pr_list; solve_first_run|];
          split; [apply Z.eqb_eq; assumption|];
          split; assumption
        | (* wt create: the directory exists *)
          reflexivity
        | (* wt delete: no worktree *)
          eexists; split; [solve_first_run|];
          split; [apply Z.eqb_eq; assumption | assumption] ].

Ltac reason_leaf :=
  repeat rewrite <- app_assoc; cbn [app];
  try match goal with
      | H : match ?num with Some _ => _ | None => false end = true |- _ =>
          destruct num; [|discriminate H]
      end;
  cbv beta iota;
  first [ exact I
        | no_exit
        | unfold failure_seen;
          first [ left; reflexivity
                | right; left; solve [find_in]
                | right; right; left; solve [failed_validation]
                | do 3 right; left; solve [failed_capture]
                | do 4 right; solve [failed_stream] ] ].

Section Reasons.
Variable U : unicode_db.
Variable W : world.
Variable json_loads : text -> option json.

Lemma move_reason branch_name :
  wp (move U W branch_name) [] (fun out tr =>
    match out with
    | Exit _ => failure_seen U json_loads (Move branch_name) tr
    | _ => True
    end).
Proof. unfold move. repeat wp_more. all: reason_leaf. Qed.

Lemma diff_reason :
  wp (diff U W) [] (fun out tr =>
    match out with Exit _ => failure_seen U json_loads Diff tr | _ => True end).
Proof. unfold diff. repeat wp_more. all: reason_leaf. Qed.

Lemma branch_reason :
  wp (branch U W) [] (fun out tr =>
    match out with Exit _ => failure_seen U json_loads Branch tr | _ => True end).
Proof. unfold branch. repeat wp_more. all: reason_leaf. Qed.

Lemma merge_reason pr_number :
  wp (merge W pr_number) [] (fun out tr =>
    match out with
    | Exit _ => failure_seen U json_loads (Merge pr_number) tr
    | _ => True
    end).
Proof. unfold merge. repeat wp_more. all: reason_leaf. Qed.

Lemma list_prs_reason author :
  wp (list_prs U W json_loads author) [] (fun out tr =>
    match out with
    | Exit _ => failure_seen U json_loads (ListPrs author) tr
    | _ => True
    end).
Proof. unfold list_prs. repeat wp_more. all: reason_leaf. Qed.

Lemma pr_default_reason message commit m body :
  wp (pr_default U W message commit m body) [] (fun out tr =>
    match out with
    | Exit _ => failure_seen U json_loads (Pr message commit m body) tr
    | _ => True
    end).
Proof. unfold pr_default. repeat wp_more. all: reason_leaf. Qed.

Lemma wt_create_reason b new_branch shell :
  wp (wt_create U W b new_branch shell) [] (fun out tr =>
    match out with
    | Exit _ => failure_seen U json_loads (WtCreate b new_branch shell) tr
    | _ => True
    end).
Proof. destruct new_branch; unfold wt_create; repeat wp_more. all: reason_leaf. Qed.

Lemma wt_delete_reason b force keep_branch :
  wp (wt_delete U W b force keep_branch) [] (fun out tr =>
    match out with
    | Exit _ => failure_seen U json_loads (WtDelete b force keep_branch) tr
    | _ => True
    end).
Proof. unfold wt_delete. repeat wp_more. all: reason_leaf. Qed.

Lemma wt_list_reason all_worktrees :
  wp (wt_list U W all_worktrees) [] (fun out tr =>
    match out with
    | Exit _ => failure_seen U json_loads (WtList all_worktrees) tr
    | _ => True
    end).
Proof. unfold wt_list. repeat wp_more. all: reason_leaf. Qed.

Lemma cherry_reason title m num_commits body :
  wp (cherry U W title m num_commits body) [] (fun out tr =>
    match out with
    | Exit _ => failure_seen U json_loads (Cherry title m num_commits body) tr
    | _ => True
    end).
Proof. unfold cherry. repeat wp_quiet. all: reason_leaf. Qed.

End Reasons.

(** A status that a child can have is 0 or has low bits that are not all
    zero. *)
Lemma child_status_low_bits code :
  (-256 < code < 256)%Z -> code <> 0%Z -> (code mod 256 <> 0)%Z.
Proof.
  intros Hr Hne H. apply Z.mod_divide in H; [|lia].
  destruct H as [k Hk]. lia.
Qed.

Lemma status_zero_is_normal_return streams captured out tr :
  exit_code_rule streams captured out tr ->
  child_statuses tr ->
  exit_status out = 0%Z <-> exists u, out = Ok u.
Proof.
  intros Hrule [Hruns Hstreams].
  destruct Hrule as [[u ->]|[->|[[e ->]|(code & -> & Hne & Hfrom)]]].
  - split; [intros _; exists u; reflexivity | reflexivity].
  - split; [discriminate | intros [u H]; discriminate H].
  - split; [discriminate | intros [u H]; discriminate H].
  - split; [|intros [u H]; discriminate H].
    intros H. exfalso. cbn [exit_status] in H.
    apply (child_status_low_bits code); [|exact Hne|exact H].
    destruct Hfrom as [(cmd & Hin & _)|(cmd & res & Hin & <- & _)].
    + exact (Hstreams _ _ Hin).
    + exact (Hruns _ _ Hin).
Qed.

(** The validations. *)
Lemma list_prs_json_spec U W json_loads author :
  wp (list_prs U W json_loads author) [] (fun out tr =>
    forall res, first_run (gh_pr_list author) tr = Some res ->
      returncode res = 0%Z ->
      nonempty (py_strip U (py_strip U (stdout res))) = true ->
      json_loads (py_strip U (stdout res)) = None ->
      out = Exit 1).
Proof.
  unfold list_prs. repeat wp_more.
  all: repeat rewrite <- app_assoc; cbn [app].
  all: intros rr E Hrc Hn Hj; eval_first_run E.
  all: try discriminate E.
  all: inversion E; subst; clear E.
  all: first [ reflexivity | congruence
             | exfalso; match goal with
                        | H : (returncode _ =? 0)%Z = false |- _ =>
                            apply Z.eqb_neq in H; contradiction
                        end ].
Qed.

Lemma wt_create_exists_spec U W b new_branch shell :
  wp (wt_create U W b new_branch shell) [] (fun out tr =>
    nth_error (exists_answers tr) 1 = Some true -> out = Exit 1).
Proof.
  unfold wt_create. repeat wp_more.
  all: repeat rewrite <- app_assoc; cbn [app].
  all: intros H; first [ reflexivity
                       | exfalso; cbn [exists_answers flat_map app nth_error] in H;
                         discriminate H ].
Qed.

Lemma precondition_spec U W json_loads inv :
  precondition_failed W inv -> fst (main U W json_loads inv) = Exit 1.
Proof.
  intros [Hgit|[Hinv Hgh]].
  - pose proof (check_git_repo_fails W Hgit) as E.
    destruct inv; cbn [main];
      [ unfold move | unfold diff | unfold cherry | unfold branch | unfold merge
      | unfold list_prs | unfold pr_default | unfold wt_create | unfold wt_delete
      | unfold wt_list ];
      rewrite (bind_exit _ _ _ _ _ E); reflexivity.
  - destruct (w_exists W [] (Path (str ".git"))) eqn:Hgit.
    + pose proof (check_git_repo_passes W Hgit) as E1.
      pose proof (check_gh_fails W _ Hgh) as E2.
      destruct inv; try discriminate Hinv; cbn [main];
        [ unfold cherry | unfold merge | unfold list_prs | unfold pr_default ];
        rewrite (bind_ok _ _ _ _ _ E1), (bind_exit _ _ _ _ _ E2); reflexivity.
    + pose proof (check_git_repo_fails W Hgit) as E.
      destruct inv; try discriminate Hinv; cbn [main];
        [ unfold cherry | unfold merge | unfold list_prs | unfold pr_default ];
        rewrite (bind_exit _ _ _ _ _ E); reflexivity.
Qed.

Lemma validation_spec U W json_loads inv out tr :
  main U W json_loads inv = (out, tr) ->
  validation_failed U json_loads inv tr -> out = Exit 1.
Proof.
  intros E H. destruct inv; cbn [main] in E; cbn [validation_failed] in H;
    try contradiction.
  - destruct H as [(n & st & -> & Hq & Hc)|(rl & Hq & Hrc & Hlen)].
    + exact (proj1 (wp_run_eq _ _ _ _ _ (cherry_spec U W _ _ n _) E
                              st Hq Hc)).
    + exact (proj1 (wp_run_eq _ _ _ _ _ (cherry_count_spec U W _ _ _ _)
                              E rl Hq Hrc Hlen)).
  - destruct H as (res & Hq & Hrc & Hn & Hj).
    exact (wp_run_eq _ _ _ _ _ (list_prs_json_spec U W json_loads _) E
                     res Hq Hrc Hn Hj).
  - exact (wp_run_eq _ _ _ _ _ (wt_create_exists_spec U W _ _ _) E H).
  - destruct H as (res & Hq & Hrc & Hs).
    pose proof (wp_run_eq _ _ _ _ _ (wt_delete_spec U W _ _ _) E
                          res Hq Hrc) as H.
    rewrite Hs in H. exact (proj1 H).
Qed.

(** C8, as amended.  For every run of every command:
    - the exit status is 0 exactly when the handler returns normally (the
      statuses of the children being POSIX statuses);
    - a failed precondition (no [.git]; no [gh] for cherry, merge, list, pr)
      and a failed validation end the command with [typer.Exit(1)];
    - a failed captured step ends it with [typer.Exit(1)], or with the status
      of the child when the step is the [git for-each-ref] of branch or the
      [gh pr list] of list, unless the step is one that the command
      tolerates ([git branch -D] in wt delete, the queries of
      [get_repo_name] and [get_main_worktree] in wt create and wt list);
    - a failed passthrough step ends it with the status of the child;
    - after an error message the command ends with a code that is not 0;
    - there is no other way to end: a command returns normally, dies of an
      exception, or ends with code 1 or with the status of a failed child
      that is a passthrough step of diff, of PR creation or of [gh pr edit],
      or the [git for-each-ref] of branch or [gh pr list] of list;
    - and no other reason to end with [typer.Exit]: the history then shows a
      failed precondition, a failed validation, a failed captured step that
      is not tolerated, or a failed passthrough step (so a command whose
      preconditions, validations and steps all succeed returns normally,
      unless it dies of an exception);
    - the exit status after [typer.Exit(1)] and after an exception is 1. *)
Theorem exit_codes U W json_loads inv out tr :
  main U W json_loads inv = (out, tr) ->
  (child_statuses tr -> (exit_status out = 0%Z <-> exists u, out = Ok u))
  /\ (precondition_failed W inv -> out = Exit 1)
  /\ (validation_failed U json_loads inv tr -> out = Exit 1)
  /\ passes_on_captures inv out tr
  /\ passes_on_streams out tr
  /\ errors_end out tr
  /\ exit_code_rule passthrough_steps propagating_captures out tr
  /\ ((exists code, out = Exit code) -> failure_seen U json_loads inv tr)
  /\ ((out = Exit 1 \/ exists e, out = Raise e) -> exit_status out = 1%Z).
Proof.
  intros E.
  assert (Hreason : match out with
                    | Exit _ => failure_seen U json_loads inv tr
                    | _ => True
                    end).
  { destruct inv; cbn [main] in E.
    - exact (wp_run_eq _ _ _ _ _ (move_reason U W json_loads _) E).
    - exact (wp_run_eq _ _ _ _ _ (diff_reason U W json_loads) E).
    - exact (wp_run_eq _ _ _ _ _ (cherry_reason U W json_loads _ _ _ _) E).
    - exact (wp_run_eq _ _ _ _ _ (branch_reason U W json_loads) E).
    - exact (wp_run_eq _ _ _ _ _ (merge_reason U W json_loads _) E).
    - exact (wp_run_eq _ _ _ _ _ (list_prs_reason U W json_loads _) E).
    - exact (wp_run_eq _ _ _ _ _ (pr_default_reason U W json_loads _ _ _ _) E).
    - exact (wp_run_eq _ _ _ _ _ (wt_create_reason U W json_loads _ _ _) E).
    - exact (wp_run_eq _ _ _ _ _ (wt_delete_reason U W json_loads _ _ _) E).
    - exact (wp_run_eq _ _ _ _ _ (wt_list_reason U W json_loads _) E). }
  assert (Hrule : exit_code_rule passthrough_steps propagating_captures out tr).
  { destruct inv; cbn [main] in E; refine (wp_run_eq _ _ _ _ _ _ E).
    - apply move_exit.
    - apply diff_exit.
    - apply cherry_exit.
    - apply branch_exit.
    - apply merge_exit.
    - apply list_prs_exit.
    - apply pr_default_exit.
    - apply wt_create_exit.
    - apply wt_delete_exit.
    - apply wt_list_exit. }
  assert (Hfails : passes_on_captures inv out tr /\ errors_end out tr).
  { destruct inv; cbn [main] in E.
    - exact (wp_run_eq _ _ _ _ _ (move_fails U W _) E).
    - exact (wp_run_eq _ _ _ _ _ (diff_fails U W) E).
    - exact (wp_run_eq _ _ _ _ _ (cherry_fails U W _ _ _ _) E).
    - exact (wp_run_eq _ _ _ _ _ (branch_fails U W) E).
    - exact (wp_run_eq _ _ _ _ _ (merge_fails W _) E).
    - exact (wp_run_eq _ _ _ _ _ (list_prs_fails U W json_loads _) E).
    - exact (wp_run_eq _ _ _ _ _ (pr_default_fails U W _ _ _ _) E).
    - exact (wp_run_eq _ _ _ _ _ (wt_create_fails U W _ _ _) E).
    - exact (wp_run_eq _ _ _ _ _ (wt_delete_fails U W _ _ _) E).
    - exact (wp_run_eq _ _ _ _ _ (wt_list_fails U W _) E). }
  split; [exact (status_zero_is_normal_return _ _ _ _ Hrule)|].
  split.
  { intros H. pose proof (precondition_spec U W json_loads inv H) as Hp.
    rewrite E in Hp. exact Hp. }
  split; [exact (validation_spec U W json_loads inv out tr E)|].
  split; [exact (proj1 Hfails)|].
  split.
  { destruct inv; cbn [main] in E; refine (wp_run_eq _ _ _ _ _ _ E).
    - apply move_streams.
    - apply diff_streams.
    - apply cherry_streams.
    - apply branch_streams.
    - apply merge_streams.
    - apply list_prs_streams.
    - apply pr_default_streams.
    - apply wt_create_streams.
    - apply wt_delete_streams.
    - apply wt_list_streams. }
  split; [exact (proj2 Hfails)|].
  split; [exact Hrule|].
  split; [intros [code Hc]; rewrite Hc in Hreason; exact Hreason|].
  intros [->|[e ->]]; reflexivity.
Qed.

Lemma exit_codes_witness :
  let run := main ascii_db (scripted failing_queries) unfinished_loads Branch in
  let failed := {| returncode := 128; stdout := [];
                   stderr := line "fatal: not a git repository" |} in
  In (EvRun git_for_each_ref failed) (snd run)
  /\ fst run = Exit 128
  /\ exit_status (fst run) = 128%Z
  /\ ~ (exists u, fst run = Ok u).
Proof.
  intros run failed.
  assert (Hin : In (EvRun git_for_each_ref failed) (snd run))
    by (vm_compute; repeat (first [ left; reflexivity | right ])).
  destruct (exit_codes ascii_db (scripted failing_queries) unfinished_loads Branch
              (fst run) (snd run) (surjective_pairing run))
    as (Hzero & _ & _ & Hcap & _ & _ & _ & _ & _).
  assert (Hout : fst run = Exit 128).
  { apply (Hcap git_for_each_ref failed Hin); [discriminate | reflexivity]. }
  split; [exact Hin|]. split; [exact Hout|].
  split; [rewrite Hout; reflexivity|].
  assert (Hposix : child_statuses (snd run)).
  { split.
    - intros cmd res Hev. vm_compute in Hev.
      repeat (destruct Hev as [Hev|Hev];
              [try discriminate Hev; injection Hev as _ <-; cbn; lia|]).
      destruct Hev.
    - intros cmd code Hev. vm_compute in Hev.
      repeat (destruct Hev as [Hev|Hev]; [discriminate Hev|]). destruct Hev. }
  intros Hok. apply (Hzero Hposix) in Hok.
  rewrite Hout in Hok. discriminate Hok.
Defined.

(** C8 as stated fails.  When the captured [git for-each-ref] of branch fails
    with status 128 the process ends with 128, and when the captured
    [gh pr list] of list fails with status 4 it ends with 4, not with 1, and
    no passthrough step has run.  And a failed captured step need not end
    the command at all: wt delete ends with status 0 after a failed
    [git branch -D], and wt create after a failed
    [git remote get-url origin]. *)
Lemma captured_failure_status_is_passed_on :
  exit_status (fst (main ascii_db (scripted failing_queries) unfinished_loads Branch))
  = 128%Z
  /\ exit_status (fst (main ascii_db (scripted failing_queries) unfinished_loads
                            (ListPrs (str "@me")))) = 4%Z
  /\ ~ stated_exit_rule ascii_db (scripted failing_queries) unfinished_loads
  /\ (let run := main ascii_db (scripted feature_worktrees) unfinished_loads
                      (WtDelete (str "x") false false) in
      In (EvRun (git_branch_delete (str "x"))
                {| returncode := 1; stdout := [];
                   stderr := line "error: branch 'x' not found." |}) (snd run)
      /\ exit_status (fst run) = 0%Z)
  /\ (let run := main ascii_db (scripted no_origin) unfinished_loads
                      (WtCreate (str "feat") true false) in
      In (EvRun git_remote_url
                {| returncode := 1; stdout := []; stderr := str "unknown command" |})
         (snd run)
      /\ exit_status (fst run) = 0%Z).
Proof.
  split; [vm_compute; reflexivity|]. split; [vm_compute; reflexivity|].
  split; [|split].
  - intros H.
    destruct (H Branch _ _ (surjective_pairing _))
      as [[u Hu]|[H1|[[e He]|(code & Hc & _ & [Hs|Hr])]]].
    + vm_compute in Hu. discriminate Hu.
    + vm_compute in H1. discriminate H1.
    + vm_compute in He. discriminate He.
    + destruct Hs as (cmd & Hin & _). vm_compute in Hin.
      repeat destruct Hin as [Hin|Hin]; try discriminate Hin. exact Hin.
    + destruct Hr as (cmd & res & _ & _ & Hf). discriminate Hf.
  - split; [vm_compute; repeat (first [ left; reflexivity | right ]) | vm_compute; reflexivity].
  - split; [vm_compute; repeat (first [ left; reflexivity | right ]) | vm_compute; reflexivity].
Qed.
